(** * Metric registry, dependency resolver and derived-metric providers

    A shallow embedding of
    - [great_expectations/expectations/metrics/metric_provider.py],
    - [great_expectations/expectations/metrics/column_map_metric.py],
    - [great_expectations/data_context/store/store.py] (EvaluationParameterStore),
    - [great_expectations/execution_environment/execution_environment.py]
      (the [config] property),
    followed by the properties established for them. *)

From Stdlib Require Import ZArith Ascii String List Lia DecimalString.
From stdpp Require Import base option gmap strings list fin_maps relations.

Set Warnings "-register-all".

Local Open Scope string_scope.
Local Open Scope list_scope.
Local Open Scope Z_scope.

(** ** Python values, exceptions *)

(** The values that travel in keyword dictionaries and in data columns.
    Dictionaries keep their insertion order, as Python's do. *)
Inductive pyval : Type :=
  | VNone
  | VBool (b : bool)
  | VInt (n : Z)
  | VStr (s : string)
  | VList (l : list pyval)
  | VDict (d : list (string * pyval)).

Definition bool_as_int (b : bool) : Z := if b then 1 else 0.

Fixpoint assoc {A} (k : string) (d : list (string * A)) : option A :=
  match d with
  | [] => None
  | (k', v) :: d' => if String.eqb k k' then Some v else assoc k d'
  end.

(** Python's [==] on these values: [True == 1], lists compare pointwise,
    dictionaries compare as key/value sets. *)
Fixpoint py_eqb (a b : pyval) : bool :=
  match a, b with
  | VNone, VNone => true
  | VBool x, VBool y => Bool.eqb x y
  | VBool x, VInt n => (bool_as_int x =? n)
  | VInt n, VBool y => (n =? bool_as_int y)
  | VInt n, VInt m => (n =? m)
  | VStr s, VStr t => String.eqb s t
  | VList l, VList k =>
      (fix go (l k : list pyval) : bool :=
         match l, k with
         | [], [] => true
         | x :: l', y :: k' => py_eqb x y && go l' k'
         | _, _ => false
         end) l k
  | VDict d, VDict e =>
      (length d =? length e)%nat &&
      (fix go (d : list (string * pyval)) : bool :=
         match d with
         | [] => true
         | (k, v) :: d' =>
             match assoc k e with
             | Some w => py_eqb v w && go d'
             | None => false
             end
         end) d
  | _, _ => false
  end.

(** Keyword dictionaries: [metric_domain_kwargs], [metric_value_kwargs]. *)
Abbreviation kwargs := (gmap string pyval).

(** [a == b] on two keyword dictionaries. *)
Definition kwargs_eqb (a b : kwargs) : bool :=
  bool_decide (dom a = dom b) &&
  forallb (λ kv, match b !! kv.1 with
                 | Some w => py_eqb kv.2 w
                 | None => false
                 end) (map_to_list a).

Inductive exn : Type :=
  | KeyError
  | TypeError
  | AttributeError
  | IndexingError
  | NotImplementedError
  | ValueError (msg : string)
  | AssertionError (msg : string)
  | MetricError (msg : string)
  | AnalysisException (msg : string)
  | Py4JError.

Inductive result (A : Type) : Type :=
  | Ok (a : A)
  | Raise (e : exn).
Arguments Ok {A} a.
Arguments Raise {A} e.

Definition rbind {A B} (r : result A) (k : A → result B) : result B :=
  match r with
  | Ok a => k a
  | Raise e => Raise e
  end.

#[global] Instance result_ret : MRet result := λ A a, Ok a.
#[global] Instance result_bind : MBind result := λ A B k r, rbind r k.

(** [d[k]] on a dictionary. *)
Definition getitem {A} (d : gmap string A) (k : string) : result A :=
  match d !! k with
  | Some v => Ok v
  | None => Raise KeyError
  end.

(** [v[k]] on a value: only dictionaries can be subscripted by a string. *)
Definition subscript (v : pyval) (k : string) : result pyval :=
  match v with
  | VDict d => match assoc k d with Some w => Ok w | None => Raise KeyError end
  | _ => Raise TypeError
  end.

(** ** Strings: [str.endswith] and the slice [s[: -n]] *)

Definition chars (s : string) : list ascii := list_ascii_of_string s.

Definition endswith (s sfx : string) : bool :=
  bool_decide (chars sfx `suffix_of` chars s).

(** [s[: -n]] for [n > 0]; [s[: -0]] is [s[:0]], the empty string. *)
Definition slice_to_neg (s : string) (n : nat) : string :=
  match n with
  | O => ""
  | _ => string_of_list_ascii (take (length (chars s) - n) (chars s))
  end.

(** ** Metric configurations and function kinds (metric_provider.py) *)

Record MetricConfiguration : Type := mkMetricConfiguration {
  metric_name : string;
  metric_domain_kwargs : kwargs;
  metric_value_kwargs : kwargs;
}.

Inductive MetricPartialFunctionTypes : Type :=
  | P_MAP_FN
  | P_MAP_CONDITION_FN
  | P_WINDOW_FN
  | P_WINDOW_CONDITION_FN
  | P_AGGREGATE_FN.

Definition partial_value (t : MetricPartialFunctionTypes) : string :=
  match t with
  | P_MAP_FN => "map_fn"
  | P_MAP_CONDITION_FN => "map_condition_fn"
  | P_WINDOW_FN => "window_fn"
  | P_WINDOW_CONDITION_FN => "window_condition_fn"
  | P_AGGREGATE_FN => "aggregate_fn"
  end.

(** Iteration order of [for t in MetricPartialFunctionTypes]. *)
Definition all_partial_types : list MetricPartialFunctionTypes :=
  [P_MAP_FN; P_MAP_CONDITION_FN; P_WINDOW_FN; P_WINDOW_CONDITION_FN; P_AGGREGATE_FN].

Inductive MetricFunctionTypes : Type :=
  | F_MAP_FN
  | F_MAP_CONDITION_FN
  | F_WINDOW_FN
  | F_WINDOW_CONDITION_FN
  | F_AGGREGATE_FN
  | F_VALUE
  | F_MAP_VALUES
  | F_WINDOW_VALUES
  | F_AGGREGATE_VALUE.

Definition function_value (t : MetricFunctionTypes) : string :=
  match t with
  | F_MAP_FN => "map_fn"
  | F_MAP_CONDITION_FN => "map_condition_fn"
  | F_WINDOW_FN => "window_fn"
  | F_WINDOW_CONDITION_FN => "window_condition_fn"
  | F_AGGREGATE_FN => "aggregate_fn"
  | F_VALUE => "value"
  | F_MAP_VALUES => "map_values"
  | F_WINDOW_VALUES => "window_values"
  | F_AGGREGATE_VALUE => "aggregate_value"
  end.

Inductive MetricDomainTypes : Type :=
  | D_COLUMN
  | D_COLUMN_PAIR
  | D_TABLE
  | D_OTHER.

Definition domain_value (t : MetricDomainTypes) : string :=
  match t with
  | D_COLUMN => "column"
  | D_COLUMN_PAIR => "column_pair"
  | D_TABLE => "table"
  | D_OTHER => "other"
  end.

(** [MetricPartialFunctionTypes(s)]: look an enum member up by value;
    a [ValueError] for an unknown string. *)
Definition partial_of_string (s : string) : result MetricPartialFunctionTypes :=
  match List.find (λ t, String.eqb (partial_value t) s) all_partial_types with
  | Some t => Ok t
  | None => Raise (ValueError "is not a valid MetricPartialFunctionTypes")
  end.

Definition domain_of_string (s : string) : result MetricDomainTypes :=
  match List.find (λ t, String.eqb (domain_value t) s)
                  [D_COLUMN; D_COLUMN_PAIR; D_TABLE; D_OTHER] with
  | Some t => Ok t
  | None => Raise (ValueError "is not a valid MetricDomainTypes")
  end.

(** ** The dependency resolver *)

(** The role-keyed dictionary a resolver returns. *)
Abbreviation dependencies := (gmap string MetricConfiguration).

(** The provider classes of the two source files, as far as
    [_get_evaluation_dependencies] is concerned: the base class and the
    map-metric class that overrides it (its subclasses inherit it). *)
Inductive provider_class : Type :=
  | MetricProvider
  | MapMetricProvider.

(** [{k: v for k, v in value_kwargs.items() if k != "result_format"}] *)
Definition base_metric_value_kwargs (vk : kwargs) : kwargs :=
  filter (λ kv, kv.1 ≠ "result_format") vk.

Definition strip (m : MetricConfiguration) (sfx : string) : dependencies :=
  {[ "unexpected_condition" :=
       mkMetricConfiguration
         (slice_to_neg (metric_name m) (String.length sfx))
         (metric_domain_kwargs m)
         (base_metric_value_kwargs (metric_value_kwargs m)) ]}.

(** [MapMetricProvider._get_evaluation_dependencies] *)
Definition map_get_evaluation_dependencies (m : MetricConfiguration) : dependencies :=
  let name := metric_name m in
  if endswith name ".unexpected_count" then strip m ".unexpected_count"
  else if endswith name ".unexpected_values" then strip m ".unexpected_values"
  else if endswith name ".unexpected_index_list" then strip m ".unexpected_index_list"
  else if endswith name ".unexpected_value_counts" then strip m ".unexpected_value_counts"
  else if endswith name ".unexpected_rows" then strip m ".unexpected_rows"
  else ∅.

(** [cls._get_evaluation_dependencies]: the base class returns [dict()]. *)
Definition _get_evaluation_dependencies
    (cls : provider_class) (m : MetricConfiguration) : dependencies :=
  match cls with
  | MetricProvider => ∅
  | MapMetricProvider => map_get_evaluation_dependencies m
  end.

(** Modelled from the spec: [nested_update] of [great_expectations.core.util]
    is not among the sources.  The resolver uses it to add the child
    dependencies to the dictionary built so far; a [MetricConfiguration] is
    not itself a mapping, so every entry of [u] is stored under its key
    ([d[k] = v]) and entries of [d] under other keys stay. *)
Definition nested_update (d u : dependencies) : dependencies := u ∪ d.

(** [MetricProvider.get_evaluation_dependencies]: the loop stores the same
    entry under "metric_partial_fn" at every enum value the name ends with. *)
Definition get_evaluation_dependencies
    (cls : provider_class) (m : MetricConfiguration) : dependencies :=
  let dependencies :=
    fold_left
      (λ (deps : dependencies) t,
         if endswith (metric_name m) (partial_value t)
         then <["metric_partial_fn" :=
                  mkMetricConfiguration (metric_name m)
                    (metric_domain_kwargs m) (metric_value_kwargs m)]> deps
         else deps)
      all_partial_types ∅ in
  let child_dependencies := _get_evaluation_dependencies cls m in
  nested_update dependencies child_dependencies.

(** The five derived-metric suffixes. *)
Definition derived_suffixes : list string :=
  [".unexpected_count"; ".unexpected_values"; ".unexpected_index_list";
   ".unexpected_value_counts"; ".unexpected_rows"].

(** Whether a name ends with the value of some partial function kind. *)
Definition ends_with_partial (name : string) : bool :=
  existsb (λ t, endswith name (partial_value t)) all_partial_types.

(** The configuration of the suffix-stripping example. *)
Definition spec_example_metric : MetricConfiguration :=
  mkMetricConfiguration "col.unique.unexpected_count"
    {[ "column" := VStr "a" ]}
    {[ "result_format" := VStr "BASIC"; "threshold" := VInt 5 ]}.

(** ** Stateful code: state that survives a raised exception *)

(** A computation over a mutable state [S] that returns or raises.  The
    state reached when the exception is raised is kept, as a module-level
    dictionary keeps the entries stored before a failure. *)
Definition M (S A : Type) : Type := S → result A * S.

Definition sret {S A} (a : A) : M S A := λ s, (Ok a, s).
Definition sraise {S A} (e : exn) : M S A := λ s, (Raise e, s).
Definition sbind {S A B} (m : M S A) (k : A → M S B) : M S B :=
  λ s, match m s with
       | (Ok a, s') => k a s'
       | (Raise e, s') => (Raise e, s')
       end.
Definition slift {S A} (r : result A) : M S A := λ s, (r, s).

Notation "'let*' x ':=' m 'in' k" := (sbind m (λ x, k))
  (at level 10, x pattern, m at level 100, k at level 200).

(** [for x in xs: body x] *)
Fixpoint sfor {S A} (xs : list A) (body : A → M S unit) : M S unit :=
  match xs with
  | [] => sret tt
  | x :: xs' => let* _ := body x in sfor xs' body
  end.

(** ** The metric registry and the registration hooks *)

Inductive engine_class : Type :=
  | PandasExecutionEngine
  | SqlAlchemyExecutionEngine
  | SparkDFExecutionEngine
  | OtherExecutionEngine      (* some other subclass of ExecutionEngine *)
  | NotAnExecutionEngine.     (* a class outside the hierarchy *)

Definition engine_name (e : engine_class) : string :=
  match e with
  | PandasExecutionEngine => "PandasExecutionEngine"
  | SqlAlchemyExecutionEngine => "SqlAlchemyExecutionEngine"
  | SparkDFExecutionEngine => "SparkDFExecutionEngine"
  | OtherExecutionEngine => "OtherExecutionEngine"
  | NotAnExecutionEngine => "object"
  end.

(** [issubclass(engine, ExecutionEngine)] and the per-backend tests. *)
Definition is_execution_engine (e : engine_class) : bool :=
  match e with NotAnExecutionEngine => false | _ => true end.
Definition is_pandas (e : engine_class) : bool :=
  match e with PandasExecutionEngine => true | _ => false end.
Definition is_sqlalchemy (e : engine_class) : bool :=
  match e with SqlAlchemyExecutionEngine => true | _ => false end.
Definition is_spark (e : engine_class) : bool :=
  match e with SparkDFExecutionEngine => true | _ => false end.

(** The object found in a [metric_fn_type] attribute or argument: a plain
    string, or a member of one of the two enumerations.  Neither
    enumeration derives from [str]. *)
Inductive fn_type_obj : Type :=
  | FnStr (s : string)
  | FnPartial (t : MetricPartialFunctionTypes)
  | FnFunction (t : MetricFunctionTypes).

(** [obj == "literal"]: an enum member is equal only to itself, never to
    the string that is its value. *)
Definition fn_type_eq_str (o : fn_type_obj) (s : string) : bool :=
  match o with
  | FnStr s' => String.eqb s' s
  | _ => false
  end.

(** [obj.value]: a string has no such attribute. *)
Definition fn_type_value (o : fn_type_obj) : result string :=
  match o with
  | FnStr _ => Raise AttributeError
  | FnPartial t => Ok (partial_value t)
  | FnFunction t => Ok (function_value t)
  end.

(** The function kind an object stands for. *)
Definition fn_kind (o : fn_type_obj) : string :=
  match o with
  | FnStr s => s
  | FnPartial t => partial_value t
  | FnFunction t => function_value t
  end.

Definition is_partial_kind (kind : string) : bool :=
  existsb (λ t, String.eqb (partial_value t) kind) all_partial_types.

Inductive domain_type_obj : Type :=
  | DomEnum (t : MetricDomainTypes)
  | DomVal (v : pyval).

Definition domain_type_eq_str (o : domain_type_obj) (s : string) : bool :=
  match o with
  | DomEnum _ => false
  | DomVal v => py_eqb v (VStr s)
  end.

(** What the hooks read off an attribute of a provider class; [None] is
    [hasattr(obj, ...) == False]. *)
Record attr_obj : Type := mkAttr {
  a_metric_engine : option engine_class;
  a_metric_fn_type : option fn_type_obj;
  a_domain_type : option domain_type_obj;
  a_metric_definition_kwargs : option kwargs;
  a_metric_name : option string;
  a_renderer_type : option string;
}.

Definition plain_attr : attr_obj := mkAttr None None None None None None.

(** The provider function stored in a registry entry. *)
Inductive provider_fn : Type :=
  | ProvMethod (cls attr : string)
  | Prov_pandas_map_unexpected_count
  | Prov_pandas_column_map_index
  | Prov_pandas_column_map_values
  | Prov_pandas_column_map_value_counts
  | Prov_pandas_column_map_rows
  | Prov_sqlalchemy_map_unexpected_count
  | Prov_sqlalchemy_column_map_values
  | Prov_sqlalchemy_column_map_value_counts
  | Prov_sqlalchemy_column_map_rows
  | Prov_spark_map_unexpected_count
  | Prov_spark_map_unexpected_count_data
  | Prov_spark_column_map_values
  | Prov_spark_column_map_value_counts
  | Prov_spark_column_map_rows.

Record ProviderEntry : Type := mkEntry {
  e_domain_keys : list string;
  e_value_keys : list string;
  e_class : string;
  e_provider : option provider_fn;
  e_fn_type : fn_type_obj;
}.

Record registry : Type := mkRegistry {
  metrics : gmap (string * string) ProviderEntry;
  renderers : list (option string * string * string);
}.

Definition empty_registry : registry := mkRegistry ∅ [].

(** Modelled from the spec: [register_metric] of
    [great_expectations.expectations.registry] is not among the sources.
    It keeps one entry per (metric name, backend) pair, recording the key
    whitelists, the provider and the function kind, and registering a pair
    that is already present is an error. *)
Definition register_metric
    (name : string) (dkeys vkeys : list string) (engine : engine_class)
    (cls : string) (provider : option provider_fn) (fn_type : fn_type_obj)
    : M registry unit :=
  λ r, match metrics r !! (name, engine_name engine) with
       | Some _ => (Raise (ValueError "metric is already registered"), r)
       | None =>
           (Ok tt,
            mkRegistry
              (<[(name, engine_name engine) :=
                   mkEntry dkeys vkeys cls provider fn_type]> (metrics r))
              (renderers r))
       end.

(** Modelled from the spec: [lookup(metric_name, backend_kind)], failing on
    an unregistered pair. *)
Definition lookup_metric (r : registry) (name : string) (engine : engine_class)
    : result ProviderEntry :=
  match metrics r !! (name, engine_name engine) with
  | Some e => Ok e
  | None => Raise (MetricError "unregistered metric")
  end.

(** Modelled from the spec: [register_renderer] is not among the sources;
    it keeps renderers apart from the metric providers. *)
Definition register_renderer
    (object_name : option string) (parent_class renderer : string)
    : M registry unit :=
  λ r, (Ok tt, mkRegistry (metrics r) (renderers r ++ [(object_name, parent_class, renderer)])).

(** A provider class, as the hooks see it. *)
Record provider_cls : Type := mkCls {
  c_name : string;
  c_kind : provider_class;
  c_metric_name : option string;
  c_condition_metric_name : option string;
  c_function_metric_name : option string;
  c_domain_keys : list string;
  c_value_keys : list string;
  c_condition_domain_keys : list string;
  c_condition_value_keys : list string;
  c_function_domain_keys : list string;
  c_function_value_keys : list string;
  c_metric_fn_type : option fn_type_obj;
  c_filter_column_isnull : option pyval;
  (** [cls.__dict__.items()], in definition order *)
  c_dict : list (string * attr_obj);
  (** [(name, getattr(cls, name)) for name in dir(cls)] *)
  c_dir : list (string * attr_obj);
}.

(** [metric_value_fn(engine, metric_fn_type, **kwargs)] applied to a method:
    the attributes set on the wrapped function. *)
Definition function_of_string (s : string) : result MetricFunctionTypes :=
  match List.find (λ t, String.eqb (function_value t) s)
          [F_MAP_FN; F_MAP_CONDITION_FN; F_WINDOW_FN; F_WINDOW_CONDITION_FN;
           F_AGGREGATE_FN; F_VALUE; F_MAP_VALUES; F_WINDOW_VALUES;
           F_AGGREGATE_VALUE] with
  | Some t => Ok t
  | None => Raise (ValueError "is not a valid MetricFunctionTypes")
  end.

Definition metric_value_fn
    (engine : engine_class) (metric_fn_type : string) (kw : kwargs)
    : result attr_obj :=
  t ← function_of_string metric_fn_type;
  Ok (mkAttr (Some engine) (Some (FnFunction t)) None (Some kw) None None).

(** [metric_partial_fn(engine, partial_fn_type, domain_type, **kwargs)] *)
Definition metric_partial_fn
    (engine : engine_class) (partial_fn_type domain_type : string) (kw : kwargs)
    : result attr_obj :=
  t ← partial_of_string partial_fn_type;
  d ← domain_of_string domain_type;
  Ok (mkAttr (Some engine) (Some (FnPartial t)) (Some (DomEnum d)) (Some kw) None None).

(** [column_function_partial(engine, partial_fn_type, **kwargs)]: the checks
    made and the tagging of the wrapped function. *)
Definition column_function_partial_decl
    (engine : engine_class) (partial_fn_type : string) (kw : kwargs)
    : result attr_obj :=
  if is_pandas engine then
    if negb (String.eqb partial_fn_type "map_series") then
      Raise (ValueError "PandasExecutionEngine only supports map_series for column_function_partial partial_fn_type")
    else metric_partial_fn engine partial_fn_type "column" kw
  else if is_sqlalchemy engine then
    if negb (String.eqb partial_fn_type "map_fn") then
      Raise (ValueError "SqlAlchemyExecutionEngine only supports map_fn for column_function_partial partial_fn_type")
    else metric_partial_fn engine partial_fn_type "column" kw
  else if is_spark engine then
    if negb (String.eqb partial_fn_type "map_fn" || String.eqb partial_fn_type "window_fn") then
      Raise (ValueError "SparkDFExecutionEngine only supports map_fn and window_fn for column_function_partial partial_fn_type")
    else metric_partial_fn engine partial_fn_type "column" kw
  else Raise (ValueError "Unsupported engine for column_function_partial").

(** [column_condition_partial(engine, partial_fn_type, **kwargs)] *)
Definition column_condition_partial_decl
    (engine : engine_class) (partial_fn_type : string) (kw : kwargs)
    : result attr_obj :=
  if is_pandas engine then
    if negb (String.eqb partial_fn_type "map_condition_series") then
      Raise (ValueError "PandasExecutionEngine only supports map_condition_series for column_condition_partial partial_fn_type")
    else metric_partial_fn engine partial_fn_type "column" kw
  else if is_sqlalchemy engine then
    if negb (String.eqb partial_fn_type "map_condition_fn") then
      Raise (ValueError "SqlAlchemyExecutionEngine only supports map_condition_fn for column_condition_partial partial_fn_type")
    else metric_partial_fn engine partial_fn_type "column" kw
  else if is_spark engine then
    if negb (String.eqb partial_fn_type "map_condition_fn"
             || String.eqb partial_fn_type "window_condition_fn") then
      Raise (ValueError "SparkDFExecutionEngine only supports map_condition_fn and window_condition_fn for column_condition_partial partial_fn_type")
    else metric_partial_fn engine partial_fn_type "column" kw
  else Raise (ValueError "Unsupported engine for column_condition_partial").

(** [name + suffix] where the suffix comes out of a dictionary. *)
Definition str_add (s : string) (v : pyval) : result string :=
  match v with
  | VStr t => Ok (s +:+ t)
  | _ => Raise TypeError
  end.

(** One iteration of the loop of [MetricProvider._register_metric_functions];
    the local variable [metric_name] is carried from one iteration to the
    next. *)
Definition base_register_one (cls : provider_cls)
    (metric_name : option string) (attr : string * attr_obj)
    : M registry (option string) :=
  let '(attr_name, obj) := attr in
  match a_metric_engine obj, a_renderer_type obj with
  | None, None => sret metric_name
  | Some engine, _ =>
      if negb (is_execution_engine engine) then
        sraise (ValueError "metric functions must be defined with an Execution Engine")
      else
        let metric_name := match a_metric_name obj with
                           | Some n => Some n
                           | None => metric_name
                           end in
        match metric_name with
        | None => sret metric_name
        | Some name =>
            let kw := default ∅ (a_metric_definition_kwargs obj) in
            let* declared := slift (str_add name (default (VStr "") (kw !! "metric_name_suffix"))) in
            let fn_type :=
              default (default (FnStr "value") (c_metric_fn_type cls))
                      (a_metric_fn_type obj) in
            if fn_type_eq_str fn_type "value" then
              let* _ := register_metric declared (c_domain_keys cls) (c_value_keys cls)
                          engine (c_name cls)
                          (Some (ProvMethod (c_name cls) attr_name)) fn_type in
              sret metric_name
            else
              let* v := slift (fn_type_value fn_type) in
              let* _ := register_metric (declared +:+ "." +:+ v)
                          (c_domain_keys cls) (c_value_keys cls)
                          engine (c_name cls)
                          (Some (ProvMethod (c_name cls) attr_name)) fn_type in
              let* _ := register_metric declared (c_domain_keys cls) (c_value_keys cls)
                          engine (c_name cls) None fn_type in
              sret metric_name
        end
  | None, Some _ =>
      let* _ := register_renderer metric_name (c_name cls) attr_name in
      sret metric_name
  end.

Fixpoint base_register_loop (cls : provider_cls)
    (metric_name : option string) (attrs : list (string * attr_obj))
    : M registry unit :=
  match attrs with
  | [] => sret tt
  | a :: rest =>
      let* metric_name := base_register_one cls metric_name a in
      base_register_loop cls metric_name rest
  end.

(** [MetricProvider._register_metric_functions] *)
Definition base_register_metric_functions (cls : provider_cls) : M registry unit :=
  base_register_loop cls (c_metric_name cls) (c_dir cls).

(** The registrations made for one condition method
    ([metric_fn_type in ["window_condition_fn", "map_condition_fn"]]). *)
Definition register_condition (cls : provider_cls) (attr_name : string)
    (obj : attr_obj) (engine : engine_class) (metric_fn_type : fn_type_obj)
    (metric_name : string) : M registry unit :=
  let metric_domain_keys := c_condition_domain_keys cls in
  let metric_value_keys := c_condition_value_keys cls in
  let with_format := metric_value_keys ++ ["result_format"] in
  let condition_provider := Some (ProvMethod (c_name cls) attr_name) in
  let metric_definition_kwargs := default ∅ (a_metric_definition_kwargs obj) in
  let domain_type :=
    default (DomVal (default (VStr "other") (metric_definition_kwargs !! "domain_type")))
            (a_domain_type obj) in
  let reg name vkeys provider fn_type :=
    register_metric name metric_domain_keys vkeys engine (c_name cls) provider fn_type in
  let* _ :=
    if is_pandas engine then
      let* _ := reg metric_name metric_value_keys condition_provider (FnStr "map_condition_fn") in
      let* _ := reg (metric_name +:+ ".unexpected_count") metric_value_keys
                  (Some Prov_pandas_map_unexpected_count) (FnStr "value") in
      let* _ := reg (metric_name +:+ ".unexpected_index_list") with_format
                  (Some Prov_pandas_column_map_index) (FnStr "value") in
      if domain_type_eq_str domain_type "column" then
        let* _ := reg (metric_name +:+ ".unexpected_values") with_format
                    (Some Prov_pandas_column_map_values) (FnStr "value") in
        let* _ := reg (metric_name +:+ ".unexpected_value_counts") with_format
                    (Some Prov_pandas_column_map_value_counts) (FnStr "value") in
        reg (metric_name +:+ ".unexpected_rows") with_format
          (Some Prov_pandas_column_map_rows) (FnStr "value")
      else sret tt
    else sret tt in
  if is_sqlalchemy engine then
    let* _ := reg metric_name metric_value_keys condition_provider (FnStr "map_condition_fn") in
    let* _ := reg (metric_name +:+ ".unexpected_count") metric_value_keys
                (Some Prov_sqlalchemy_map_unexpected_count) (FnStr "aggregate_fn") in
    if domain_type_eq_str domain_type "column" then
      let* _ := reg (metric_name +:+ ".unexpected_values") with_format
                  (Some Prov_sqlalchemy_column_map_values) (FnStr "value") in
      let* _ := reg (metric_name +:+ ".unexpected_value_counts") with_format
                  (Some Prov_sqlalchemy_column_map_value_counts) (FnStr "value") in
      reg (metric_name +:+ ".unexpected_rows") with_format
        (Some Prov_sqlalchemy_column_map_rows) (FnStr "value")
    else sret tt
  else if is_spark engine then
    let* _ := reg metric_name metric_value_keys condition_provider metric_fn_type in
    let* _ :=
      if fn_type_eq_str metric_fn_type "map_condition_fn" then
        reg (metric_name +:+ ".unexpected_count") metric_value_keys
          (Some Prov_spark_map_unexpected_count) (FnStr "aggregate_fn")
      else if fn_type_eq_str metric_fn_type "window_condition_fn" then
        reg (metric_name +:+ ".unexpected_count") metric_value_keys
          (Some Prov_spark_map_unexpected_count_data) (FnStr "value")
      else sret tt in
    if domain_type_eq_str domain_type "column" then
      let* _ := reg (metric_name +:+ ".unexpected_values") with_format
                  (Some Prov_spark_column_map_values) (FnStr "value") in
      let* _ := reg (metric_name +:+ ".unexpected_value_counts") with_format
                  (Some Prov_spark_column_map_value_counts) (FnStr "value") in
      reg (metric_name +:+ ".unexpected_rows") with_format
        (Some Prov_spark_column_map_rows) (FnStr "value")
    else sret tt
  else sret tt.

(** One iteration of the loop of
    [MapMetricProvider._register_metric_functions]. *)
Definition map_register_one (cls : provider_cls) (attr : string * attr_obj)
    : M registry unit :=
  let '(attr_name, obj) := attr in
  match a_metric_engine obj with
  | None => sret tt                         (* this is not a metric *)
  | Some engine =>
      match a_metric_fn_type obj with
      | None => sraise AttributeError
      | Some metric_fn_type =>
          if negb (is_execution_engine engine) then
            sraise (ValueError "metric functions must be defined with an Execution Engine")
          else if fn_type_eq_str metric_fn_type "window_condition_fn"
                  || fn_type_eq_str metric_fn_type "map_condition_fn" then
            match c_condition_metric_name cls with
            | None =>
                sraise (ValueError "A MapMetricProvider must have a metric_condition_name to have a decorated column_condition_partial method.")
            | Some metric_name =>
                register_condition cls attr_name obj engine metric_fn_type metric_name
            end
          else if fn_type_eq_str metric_fn_type "map_fn" then
            match c_function_metric_name cls with
            | None =>
                sraise (ValueError "A MapMetricProvider must have a function_metric_name to have a decorated column_function_partial method.")
            | Some metric_name =>
                register_metric metric_name
                  (c_function_domain_keys cls) (c_function_value_keys cls)
                  engine (c_name cls)
                  (Some (ProvMethod (c_name cls) attr_name)) (FnStr "map_fn")
            end
          else sret tt
      end
  end.

(** [MapMetricProvider._register_metric_functions] *)
Definition map_register_metric_functions (cls : provider_cls) : M registry unit :=
  match c_function_metric_name cls, c_condition_metric_name cls with
  | None, None => sret tt
  | _, _ => sfor (c_dict cls) (map_register_one cls)
  end.

(** [MetaMetricProvider.__new__]: defining a provider class runs the hook
    of that class. *)
Definition define_class (cls : provider_cls) : M registry unit :=
  match c_kind cls with
  | MetricProvider => base_register_metric_functions cls
  | MapMetricProvider => map_register_metric_functions cls
  end.

(** The class attributes [MapMetricProvider] gives its subclasses. *)
Definition map_provider_subclass
    (name : string) (condition_name function_name : option string)
    (methods : list (string * attr_obj)) : provider_cls :=
  {| c_name := name;
     c_kind := MapMetricProvider;
     c_metric_name := None;
     c_condition_metric_name := condition_name;
     c_function_metric_name := function_name;
     c_domain_keys := [];
     c_value_keys := [];
     c_condition_domain_keys := ["batch_id"; "table"; "row_condition"; "condition_parser"];
     c_condition_value_keys := [];
     c_function_domain_keys := ["batch_id"; "table"; "row_condition"; "condition_parser"];
     c_function_value_keys := [];
     c_metric_fn_type := Some (FnStr "value");
     c_filter_column_isnull := Some (VBool true);
     c_dict := methods;
     c_dir := methods |}.

(** A direct subclass of [MetricProvider]. *)
Definition provider_subclass
    (name : string) (metric_name : option string)
    (methods : list (string * attr_obj)) : provider_cls :=
  {| c_name := name;
     c_kind := MetricProvider;
     c_metric_name := metric_name;
     c_condition_metric_name := None;
     c_function_metric_name := None;
     c_domain_keys := [];
     c_value_keys := [];
     c_condition_domain_keys := [];
     c_condition_value_keys := [];
     c_function_domain_keys := [];
     c_function_value_keys := [];
     c_metric_fn_type := Some (FnStr "value");
     c_filter_column_isnull := None;
     c_dict := methods;
     c_dir := methods |}.

(** *** Example classes *)

(** A method tagged by [@metric_partial_fn(engine=SqlAlchemyExecutionEngine,
    partial_fn_type="aggregate_fn", domain_type="column")]. *)
Definition sql_aggregate_method : attr_obj :=
  mkAttr (Some SqlAlchemyExecutionEngine) (Some (FnPartial P_AGGREGATE_FN))
    (Some (DomEnum D_COLUMN)) (Some ∅) None None.

(** A direct [MetricProvider] subclass with [metric_name =
    "column.aggregate.sum"] and that one method. *)
Definition column_sum_cls : provider_cls :=
  provider_subclass "ColumnSum" (Some "column.aggregate.sum")
    [("_sqlalchemy", sql_aggregate_method)].

(** A method tagged by [@column_condition_partial(
    engine=SqlAlchemyExecutionEngine, partial_fn_type="map_condition_fn")]. *)
Definition sql_condition_method : attr_obj :=
  mkAttr (Some SqlAlchemyExecutionEngine) (Some (FnPartial P_MAP_CONDITION_FN))
    (Some (DomEnum D_COLUMN)) (Some ∅) None None.

(** A function given the attributes by hand, with the kind as a string. *)
Definition sql_condition_method_str : attr_obj :=
  mkAttr (Some SqlAlchemyExecutionEngine) (Some (FnStr "map_condition_fn"))
    (Some (DomVal (VStr "column"))) (Some ∅) None None.

(** A [MapMetricProvider] subclass that declares a condition method and
    neither [condition_metric_name] nor [function_metric_name]. *)
Definition nameless_map_cls : provider_cls :=
  map_provider_subclass "ColumnValuesUnique" None None
    [("_sqlalchemy", sql_condition_method_str)].

(** The same with [function_metric_name] only. *)
Definition function_named_map_cls : provider_cls :=
  map_provider_subclass "ColumnValuesUnique" None (Some "column_values.length")
    [("_sqlalchemy", sql_condition_method_str)].

(** The message of the [ValueError] raised for a method of kind [ft] whose
    base metric name is missing. *)
Definition missing_name_error (ft : fn_type_obj) : exn :=
  if fn_type_eq_str ft "window_condition_fn" || fn_type_eq_str ft "map_condition_fn"
  then ValueError "A MapMetricProvider must have a metric_condition_name to have a decorated column_condition_partial method."
  else ValueError "A MapMetricProvider must have a function_metric_name to have a decorated column_function_partial method.".

(** The base name a method of kind [ft] requires, as the class declares it:
    [Some None] when the required attribute is missing, [None] when the
    kind requires no name. *)
Definition required_name (cls : provider_cls) (ft : fn_type_obj) : option (option string) :=
  if fn_type_eq_str ft "window_condition_fn" || fn_type_eq_str ft "map_condition_fn"
  then Some (c_condition_metric_name cls)
  else if fn_type_eq_str ft "map_fn" then Some (c_function_metric_name cls)
  else None.

(** ** The in-memory backend: columns, frames and boolean indexing *)

(** Truth value of a plain value ([if x:]). *)
Definition truthy (v : pyval) : bool :=
  match v with
  | VNone => false
  | VBool b => b
  | VInt n => negb (n =? 0)
  | VStr s => negb (String.eqb s "")
  | VList l => match l with [] => false | _ => true end
  | VDict d => match d with [] => false | _ => true end
  end.

(** A column: its values with their row labels, in row order. *)
Abbreviation Series A := (list (Z * A)).

(** A frame: the column labels, and per row its label and its cells. *)
Record DataFrame : Type := mkDF {
  df_columns : list pyval;
  df_rows : list (Z * list (pyval * pyval));
}.

Fixpoint cell (k : pyval) (row : list (pyval * pyval)) : pyval :=
  match row with
  | [] => VNone
  | (k', v) :: row' => if py_eqb k k' then v else cell k row'
  end.

(** [df[label]]: the column, or a [KeyError]. *)
Definition df_column (df : DataFrame) (k : pyval) : result (Series pyval) :=
  if existsb (py_eqb k) (df_columns df)
  then Ok (map (λ r, (r.1, cell k r.2)) (df_rows df))
  else Raise KeyError.

Definition is_null (v : pyval) : bool :=
  match v with VNone => true | _ => false end.

(** [series.notnull()] *)
Definition notnull (s : Series pyval) : Series bool :=
  map (λ p, (p.1, negb (is_null p.2))) s.

(** A column without its null entries (what the author's function is to
    see when nulls are filtered). *)
Definition drop_nulls (s : Series pyval) : Series pyval :=
  List.filter (λ p, negb (is_null p.2)) s.

(** [~series] on a boolean column. *)
Definition series_not (s : Series bool) : Series bool :=
  map (λ p, (p.1, negb p.2)) s.

(** [series == True] *)
Definition series_eq_True (s : Series bool) : Series bool :=
  map (λ p, (p.1, Bool.eqb p.2 true)) s.

Fixpoint zlookup {A} (i : Z) (s : Series A) : option A :=
  match s with
  | [] => None
  | (j, x) :: s' => if Z.eqb i j then Some x else zlookup i s'
  end.

Fixpoint keep_by_position {A} (rows : list A) (mask : list bool) : list A :=
  match rows, mask with
  | x :: rows', b :: mask' =>
      if b then x :: keep_by_position rows' mask' else keep_by_position rows' mask'
  | _, _ => []
  end.

Fixpoint keep_by_label {A} (rows : Series A) (mask : Series bool) : result (Series A) :=
  match rows with
  | [] => Ok []
  | (i, x) :: rows' =>
      match zlookup i mask with
      | None => Raise IndexingError
      | Some b =>
          rest ← keep_by_label rows' mask;
          Ok (if b then (i, x) :: rest else rest)
      end
  end.

(** Indexing by a boolean column.  A mask with the labels of the indexed
    object is applied by position; any other mask is first aligned by
    label, which fails on a mask with repeated labels and on a row the
    mask does not cover. *)
Definition bool_index {A} (rows : Series A) (mask : Series bool) : result (Series A) :=
  if bool_decide (rows.*1 = mask.*1) then Ok (keep_by_position rows (mask.*2))
  else if bool_decide (NoDup (mask.*1)) then keep_by_label rows mask
  else Raise (ValueError "cannot reindex on an axis with duplicate labels").

(** [df[mask]] *)
Definition df_mask (df : DataFrame) (mask : Series bool) : result DataFrame :=
  rows ← bool_index (df_rows df) mask;
  Ok (mkDF (df_columns df) rows).

(** The key of a subscription: a boolean column selects rows, anything
    else is looked up as a label. *)
Inductive index_key : Type :=
  | KeyMask (m : Series bool)
  | KeyLabel (v : pyval).

(** [x == True] where [x] is the result of [metrics.get(...)]: elementwise
    for a column, and plain [False] for [None]. *)
Definition eq_True (x : option (Series bool)) : index_key :=
  match x with
  | Some m => KeyMask (series_eq_True m)
  | None => KeyLabel (VBool false)
  end.

Inductive pandas_obj : Type :=
  | PFrame (df : DataFrame)
  | PSeries (s : Series pyval)
  | PScalar (v : pyval).

(** [series[key]]: rows by mask, or the value at an integer row label; a
    boolean is not an integer label. *)
Definition series_getitem (s : Series pyval) (key : index_key) : result pandas_obj :=
  match key with
  | KeyMask m => sel ← bool_index s m; Ok (PSeries sel)
  | KeyLabel (VInt n) =>
      match zlookup n s with
      | Some v => Ok (PScalar v)
      | None => Raise KeyError
      end
  | KeyLabel _ => Raise KeyError
  end.

(** [df[key]]: rows by mask, or the column of that label. *)
Definition df_getitem (df : DataFrame) (key : index_key) : result pandas_obj :=
  match key with
  | KeyMask m => df' ← df_mask df m; Ok (PFrame df')
  | KeyLabel v => s ← df_column df v; Ok (PSeries s)
  end.

Definition obj_getitem (o : pandas_obj) (key : index_key) : result pandas_obj :=
  match o with
  | PFrame df => df_getitem df key
  | PSeries s => series_getitem s key
  | PScalar _ => Raise TypeError
  end.

(** The positional slice [xs[: n]]. *)
Definition slice_to {A} (xs : list A) (n : pyval) : result (list A) :=
  match n with
  | VNone => Ok xs
  | VInt k =>
      if 0 <=? k then Ok (take (Z.to_nat k) xs)
      else Ok (take (length xs - Z.to_nat (- k)) xs)
  | VBool b => Ok (take (Z.to_nat (bool_as_int b)) xs)
  | _ => Raise TypeError
  end.

(** The slice [series[: n]] of a column: as for a list, except that a
    boolean is refused as a bound. *)
Definition series_slice_to {A} (s : Series A) (n : pyval) : result (Series A) :=
  match n with
  | VBool _ => Raise TypeError
  | _ => slice_to s n
  end.

(** The engine, as the providers use it: [get_compute_domain(domain_kwargs,
    domain_type)], where [None] stands for an omitted [domain_type]. *)
Record PandasEngine : Type := mkPandasEngine {
  pd_get_compute_domain :
    kwargs → option string → result (DataFrame * kwargs * kwargs);
}.

(** [kwargs.get("filter_column_isnull", getattr(cls, "filter_column_isnull", dflt))] *)
Definition filter_column_isnull_flag
    (kw : kwargs) (cls : provider_cls) (dflt : bool) : pyval :=
  default (default (VBool dflt) (c_filter_column_isnull cls))
          (kw !! "filter_column_isnull").

(** [if filter_column_isnull: df = df[df[accessor["column"]].notnull()]] *)
Definition filter_nulls (flag : pyval) (df : DataFrame) (accessor : kwargs)
    : result DataFrame :=
  if truthy flag then
    col ← getitem accessor "column";
    s ← df_column df col;
    df_mask df (notnull s)
  else Ok df.

(** *** Derived metrics of the in-memory backend *)

(** [_pandas_column_map_values].  The dependency is unpacked as the triple
    a condition partial returns; [call_kw] are the call's [**kwargs]. *)
Definition _pandas_column_map_values
    (cls : provider_cls) (execution_engine : PandasEngine)
    (metric_domain_kwargs metric_value_kwargs : kwargs)
    (metrics : gmap string (Series bool * kwargs * kwargs)) (call_kw : kwargs)
    : result (list pyval) :=
  '(boolean_map_unexpected_values, compute_domain_kwargs, _) ←
     match metrics !! "unexpected_condition" with
     | Some t => Ok t
     | None => Raise TypeError
     end;
  '(df, _, accessor_domain_kwargs) ←
     pd_get_compute_domain execution_engine compute_domain_kwargs None;
  let filter_column_isnull := filter_column_isnull_flag call_kw cls false in
  df ← filter_nulls filter_column_isnull df accessor_domain_kwargs;
  col ← getitem accessor_domain_kwargs "column";
  data ← df_column df col;
  result_format ← getitem metric_value_kwargs "result_format";
  fmt ← subscript result_format "result_format";
  if py_eqb fmt (VStr "COMPLETE") then
    sel ← bool_index data (series_eq_True boolean_map_unexpected_values);
    Ok (sel.*2)
  else
    sel ← bool_index data (series_eq_True boolean_map_unexpected_values);
    n ← subscript result_format "partial_unexpected_count";
    cut ← series_slice_to sel n;
    Ok (cut.*2).

(** [_pandas_column_map_rows].  The dependency is used as the mask itself. *)
Definition _pandas_column_map_rows
    (cls : provider_cls) (execution_engine : PandasEngine)
    (metric_domain_kwargs metric_value_kwargs : kwargs)
    (metrics : gmap string (Series bool)) (call_kw : kwargs)
    : result pandas_obj :=
  '(df, _, accessor_domain_kwargs) ←
     pd_get_compute_domain execution_engine metric_domain_kwargs None;
  let filter_column_isnull := filter_column_isnull_flag call_kw cls false in
  df ← filter_nulls filter_column_isnull df accessor_domain_kwargs;
  result_format ← getitem metric_value_kwargs "result_format";
  let boolean_mapped_unexpected_values := metrics !! "unexpected_condition" in
  fmt ← subscript result_format "result_format";
  if py_eqb fmt (VStr "COMPLETE") then
    df_getitem df (eq_True boolean_mapped_unexpected_values)
  else
    rows ← df_getitem df (eq_True boolean_mapped_unexpected_values);
    n ← subscript result_format "partial_unexpected_count";
    obj_getitem rows (KeyLabel n).

(** A value histogram: the distinct values with their numbers of
    occurrences, as the column [value_counts()] returns. *)
Abbreviation Histogram := (list (pyval * Z)).

(** The two column operations of the data-frame library that
    [_pandas_column_map_value_counts] calls; when they raise, and what,
    is the library's business. *)
Record PandasLib : Type := mkPandasLib {
  pd_value_counts : Series pyval → result Histogram;
  pd_apply_tuple : Series pyval → result (Series pyval);
}.

(** [obj.value_counts()] and [obj.apply(tuple)]: column methods. *)
Definition obj_value_counts (lib : PandasLib) (o : pandas_obj) : result Histogram :=
  match o with
  | PSeries s => pd_value_counts lib s
  | _ => Raise AttributeError
  end.

Definition obj_apply_tuple (lib : PandasLib) (o : pandas_obj) : result pandas_obj :=
  match o with
  | PSeries s => t ← pd_apply_tuple lib s; Ok (PSeries t)
  | _ => Raise AttributeError
  end.

(** [try: body  except ValueError: handler] *)
Definition except_ValueError {A} (body handler : result A) : result A :=
  match body with
  | Raise (ValueError _) => handler
  | r => r
  end.

(** Truth value of [value_counts] in [if not value_counts:].  [None] is
    false.  A column of the data-frame library has no truth value: its
    [__bool__] raises this [ValueError] whatever the column holds. *)
Definition truth_of_counts (vc : option Histogram) : result bool :=
  match vc with
  | None => Ok false
  | Some _ => Raise (ValueError "The truth value of a Series is ambiguous. Use a.empty, a.bool(), a.item(), a.any() or a.all().")
  end.

Inductive counts_result : Type :=
  | CountsAll (h : Histogram)
  | CountsAt (n : Z).

(** [value_counts[n]]: the count stored under label [n]. *)
Fixpoint counts_getitem (h : Histogram) (n : pyval) : result counts_result :=
  match h with
  | [] => Raise KeyError
  | (v, c) :: h' => if py_eqb v n then Ok (CountsAt c) else counts_getitem h' n
  end.

(** [_pandas_column_map_value_counts] *)
Definition _pandas_column_map_value_counts
    (lib : PandasLib) (cls : provider_cls) (execution_engine : PandasEngine)
    (metric_domain_kwargs metric_value_kwargs : kwargs)
    (metrics : gmap string (Series bool)) (call_kw : kwargs)
    : result counts_result :=
  '(df, _, accessor_domain_kwargs) ←
     pd_get_compute_domain execution_engine metric_domain_kwargs None;
  let filter_column_isnull := filter_column_isnull_flag call_kw cls false in
  df ← filter_nulls filter_column_isnull df accessor_domain_kwargs;
  col ← getitem accessor_domain_kwargs "column";
  data ← df_column df col;
  result_format ← getitem metric_value_kwargs "result_format";
  let boolean_mapped_unexpected_values := metrics !! "unexpected_condition" in
  value_counts ←
    except_ValueError
      (sel ← series_getitem data (eq_True boolean_mapped_unexpected_values);
       h ← obj_value_counts lib sel;
       Ok (Some h))
      (except_ValueError
         (sel ← series_getitem data (eq_True boolean_mapped_unexpected_values);
          tup ← obj_apply_tuple lib sel;
          h ← obj_value_counts lib tup;
          Ok (Some h))
         (Ok None));
  b ← truth_of_counts value_counts;
  if negb b then Raise (MetricError "Unable to compute value counts")
  else
    fmt ← subscript result_format "result_format";
    match value_counts with
    | Some h =>
        if py_eqb fmt (VStr "COMPLETE") then Ok (CountsAll h)
        else n ← subscript result_format "partial_unexpected_count";
             counts_getitem h n
    | None => Raise TypeError
    end.

(** *** Example data *)

(** An engine over one table: the compute domain of any domain kwargs is
    that table; the "column" entry is the accessor part of the kwargs. *)
Definition table_engine (df : DataFrame) : PandasEngine :=
  mkPandasEngine (λ dk _,
    Ok (df, dk, filter (λ kv, kv.1 = "column") dk)).

Definition one_column (name : string) (values : list pyval) : DataFrame :=
  mkDF [VStr name]
       (imap (λ i v, (Z.of_nat i, [(VStr name, v)])) values).

(** A map-metric provider class and a class without the
    [filter_column_isnull] attribute. *)
Definition some_map_provider : provider_cls :=
  map_provider_subclass "ColumnValuesGreater" (Some "column_values.greater") None [].
Definition some_plain_provider : provider_cls :=
  provider_subclass "ColumnLength" (Some "column.length") [].

Definition column_a : kwargs := {[ "column" := VStr "a" ]}.

Definition basic_format (n : Z) : pyval :=
  VDict [("result_format", VStr "BASIC"); ("partial_unexpected_count", VInt n)].
Definition complete_format : pyval :=
  VDict [("result_format", VStr "COMPLETE")].

(** Twelve rows, of which ten are unexpected. *)
Definition twelve_frame : DataFrame :=
  one_column "a" (map VInt [10; 11; 12; 13; 14; 15; 16; 17; 18; 19; 20; 21]).
Definition twelve_column : Series pyval :=
  imap (λ i v, (Z.of_nat i, v))
    (map VInt [10; 11; 12; 13; 14; 15; 16; 17; 18; 19; 20; 21]).
Definition ten_of_twelve : Series bool :=
  imap (λ i b, (Z.of_nat i, b))
    [true; true; false; true; true; true; true; false; true; true; true; true].

(** Counting by first occurrence, for hashable values. *)
Fixpoint count_value (v : pyval) (h : Histogram) : Histogram :=
  match h with
  | [] => [(v, 1)]
  | (w, c) :: h' => if py_eqb w v then (w, c + 1) :: h' else (w, c) :: count_value v h'
  end.

Definition hashable (v : pyval) : bool :=
  match v with VList _ | VDict _ => false | _ => true end.

Definition example_lib : PandasLib :=
  mkPandasLib
    (λ s, if forallb hashable (s.*2)
          then Ok (fold_left (λ h v, count_value v h) (s.*2) [])
          else Raise TypeError)
    (λ s, if forallb (λ v, match v with VList _ | VStr _ | VDict _ => true | _ => false end) (s.*2)
          then Ok s else Raise TypeError).

(** A library whose grouping always fails with a [ValueError]. *)
Definition failing_lib : PandasLib :=
  mkPandasLib (λ _, Raise (ValueError "cannot group")) (λ s, Ok s).

Definition three_frame : DataFrame := one_column "a" [VInt 1; VInt 1; VInt 2].
Definition all_three : Series bool := [(0, true); (1, true); (2, true)].

(** ** The SQL backend: derived metrics *)

(** Query fragments, as the providers build them. *)
Inductive sa_expr : Type :=
  | SaColumn (name : pyval)                 (* sa.column(name) *)
  | SaLabel (e : sa_expr) (l : string)      (* e.label(l) *)
  | SaText (s : string)                     (* sa.text(s) *)
  | SaFragment (id : string)                (* what an author's function returned *)
  | SaNot (e : sa_expr)
  | SaAnd (e1 e2 : sa_expr)
  | SaIsNone (e : sa_expr)
  | SaCount (e : sa_expr)
  | SaSumCase (cond : sa_expr).             (* sum(case([(cond, 1)], else_=0)) *)

Record sa_query : Type := mkQuery {
  q_select : list sa_expr;
  q_from : string;
  q_where : option sa_expr;
  q_group_by : option sa_expr;
  q_limit : option pyval;
}.

(** A fetched row: its labelled cells. *)
Abbreviation sa_row := (list (string * pyval)).

(** The engine as the providers and the decorators use it; a selectable is
    named by a string.  [add_column_row_condition(domain_kwargs)] returns
    domain kwargs that leave out the rows whose column is null. *)
Record SqlEngine : Type := mkSqlEngine {
  sql_get_compute_domain : kwargs → option string → result (string * kwargs * kwargs);
  sql_add_column_row_condition : kwargs → result kwargs;
  sql_fetchall : sa_query → result (list sa_row);
}.

(** [query.limit(n)] coerces its argument with [int]: [None] sets no
    limit, a value [int] rejects raises where the query is built. *)
Definition is_space (c : ascii) : bool :=
  match c with
  | " " | "009" | "010" | "011" | "012" | "013" | "028" | "029" | "030" | "031" => true
  | _ => false
  end%char.

Definition digit_value (c : ascii) : option Z :=
  let n := Z.of_N (N_of_ascii c) in
  if (48 <=? n) && (n <=? 57) then Some (n - 48) else None.

(** Decimal digits, single underscores allowed between digits; [acc] is
    the value read so far and [after_digit] tells whether the previous
    character was a digit. *)
Fixpoint read_digits (cs : list ascii) (acc : Z) (after_digit : bool) : option Z :=
  match cs with
  | [] => if after_digit then Some acc else None
  | c :: cs' =>
      match digit_value c with
      | Some d => read_digits cs' (10 * acc + d) true
      | None =>
          if Ascii.eqb c "_" && after_digit then read_digits cs' acc false else None
      end
  end.

Fixpoint lstrip (cs : list ascii) : list ascii :=
  match cs with
  | c :: cs' => if is_space c then lstrip cs' else cs
  | [] => []
  end.

(** [int(s)] for a string of ASCII characters. *)
Definition int_of_str (s : string) : result Z :=
  let body := reverse (lstrip (reverse (lstrip (chars s)))) in
  let parsed :=
    match body with
    | "-"%char :: ds => Z.opp <$> read_digits ds 0 false
    | "+"%char :: ds => read_digits ds 0 false
    | ds => read_digits ds 0 false
    end in
  match parsed with
  | Some n => Ok n
  | None => Raise (ValueError "invalid literal for int() with base 10")
  end.

Definition sa_asint (v : pyval) : result (option pyval) :=
  match v with
  | VNone => Ok None
  | VInt n => Ok (Some (VInt n))
  | VBool b => Ok (Some (VInt (bool_as_int b)))
  | VStr s => n ← int_of_str s; Ok (Some (VInt n))
  | VList _ | VDict _ => Raise TypeError
  end.

(** [query.limit(n)] *)
Definition sa_limit (query : sa_query) (n : pyval) : result sa_query :=
  lim ← sa_asint n;
  Ok (mkQuery (q_select query) (q_from query) (q_where query) (q_group_by query) lim).

(** [execution_engine.engine.execute(query).fetchall()]: the queries sent
    to the database are the state. *)
Definition execute (eng : SqlEngine) (q : sa_query) : M (list sa_query) (list sa_row) :=
  λ log, (sql_fetchall eng q, log ++ [q]).

(** [assert cond, msg] *)
Definition assert {S} (cond : bool) (msg : string) : M S unit :=
  if cond then sret tt else sraise (AssertionError msg).

(** [condition, fn_domain_kwargs = metrics.get("unexpected_condition")] *)
Definition unpack_pair {A B} (x : option (A * B)) : result (A * B) :=
  match x with
  | Some p => Ok p
  | None => Raise TypeError
  end.

(** [row.label] *)
Definition row_attr (row : sa_row) (l : string) : result pyval :=
  match assoc l row with
  | Some v => Ok v
  | None => Raise AttributeError
  end.

Fixpoint mapM {A B} (f : A → result B) (xs : list A) : result (list B) :=
  match xs with
  | [] => Ok []
  | x :: xs' => y ← f x; ys ← mapM f xs'; Ok (y :: ys)
  end.

Definition domain_mismatch : string :=
  "compute domain should be equivalent to the function domain".

(** [_sqlalchemy_column_map_values] *)
Definition _sqlalchemy_column_map_values
    (execution_engine : SqlEngine)
    (metric_domain_kwargs metric_value_kwargs : kwargs)
    (metrics : gmap string (sa_expr * kwargs))
    : M (list sa_query) (list pyval) :=
  let* (selectable, compute_domain_kwargs, accessor_domain_kwargs) :=
    slift (sql_get_compute_domain execution_engine metric_domain_kwargs None) in
  let* result_format := slift (getitem metric_value_kwargs "result_format") in
  let* (unexpected_condition, fn_domain_kwargs) :=
    slift (unpack_pair (metrics !! "unexpected_condition")) in
  let* _ := assert (kwargs_eqb fn_domain_kwargs compute_domain_kwargs) domain_mismatch in
  let query :=
    mkQuery
      [SaLabel (SaColumn (default VNone (accessor_domain_kwargs !! "column")))
               "unexpected_values"]
      selectable (Some unexpected_condition) None None in
  let* fmt := slift (subscript result_format "result_format") in
  let* query :=
    if negb (py_eqb fmt (VStr "COMPLETE")) then
      let* n := slift (subscript result_format "partial_unexpected_count") in
      slift (sa_limit query n)
    else sret query in
  let* rows := execute execution_engine query in
  slift (mapM (λ val, row_attr val "unexpected_values") rows).

(** [_sqlalchemy_column_map_value_counts] *)
Definition _sqlalchemy_column_map_value_counts
    (execution_engine : SqlEngine)
    (metric_domain_kwargs metric_value_kwargs : kwargs)
    (metrics : gmap string (sa_expr * kwargs))
    : M (list sa_query) (list sa_row) :=
  let* (selectable, compute_domain_kwargs, accessor_domain_kwargs) :=
    slift (sql_get_compute_domain execution_engine metric_domain_kwargs None) in
  let* (unexpected_condition, fn_domain_kwargs) :=
    slift (unpack_pair (metrics !! "unexpected_condition")) in
  let* _ := assert (kwargs_eqb fn_domain_kwargs compute_domain_kwargs) domain_mismatch in
  let* name := slift (getitem accessor_domain_kwargs "column") in
  let column := SaColumn name in
  execute execution_engine
    (mkQuery [column; SaCount column] selectable
             (Some unexpected_condition) (Some column) None).

(** [_sqlalchemy_column_map_rows] *)
Definition _sqlalchemy_column_map_rows
    (execution_engine : SqlEngine)
    (metric_domain_kwargs metric_value_kwargs : kwargs)
    (metrics : gmap string (sa_expr * kwargs))
    : M (list sa_query) (list sa_row) :=
  let* (selectable, compute_domain_kwargs, accessor_domain_kwargs) :=
    slift (sql_get_compute_domain execution_engine metric_domain_kwargs None) in
  let* result_format := slift (getitem metric_value_kwargs "result_format") in
  let* (unexpected_condition, fn_domain_kwargs) :=
    slift (unpack_pair (metrics !! "unexpected_condition")) in
  let* _ := assert (kwargs_eqb fn_domain_kwargs compute_domain_kwargs) domain_mismatch in
  let query := mkQuery [SaText "*"] selectable (Some unexpected_condition) None None in
  let* fmt := slift (subscript result_format "result_format") in
  let* query :=
    if negb (py_eqb fmt (VStr "COMPLETE")) then
      let* n := slift (subscript result_format "partial_unexpected_count") in
      slift (sa_limit query n)
    else sret query in
  execute execution_engine query.

(** ** The distributed backend: derived metrics *)

(** A data frame of the distributed engine: its rows, each an ordered list
    of named cells.  A column expression is a function of the row. *)
Abbreviation SparkRow := (list (string * pyval)).
Abbreviation SparkDF := (list SparkRow).
Abbreviation SparkColumn := (SparkRow → pyval).

Record SparkEngine : Type := mkSparkEngine {
  sp_get_compute_domain : kwargs → option string → result (SparkDF * kwargs * kwargs);
  sp_add_column_row_condition : kwargs → result kwargs;
}.

Fixpoint set_cell (name : string) (v : pyval) (row : SparkRow) : SparkRow :=
  match row with
  | [] => [(name, v)]
  | (k, w) :: row' =>
      if String.eqb k name then (k, v) :: row' else (k, w) :: set_cell name v row'
  end.

(** [data.withColumn(name, expr)] *)
Definition withColumn (data : SparkDF) (name : string) (e : SparkColumn) : SparkDF :=
  map (λ row, set_cell name (e row) row) data.

(** [data.filter(F.col(name) == True)] *)
Definition filter_true (data : SparkDF) (name : string) : SparkDF :=
  List.filter (λ row, match assoc name row with
                      | Some v => py_eqb v (VBool true)
                      | None => false
                      end) data.

(** [data.drop(F.col(name))] *)
Definition drop_column (data : SparkDF) (name : string) : SparkDF :=
  map (List.filter (λ c, negb (String.eqb c.1 name))) data.

(** The rows on which the condition holds:
    [data.withColumn("__unexpected", condition)
         .filter(F.col("__unexpected") == True).drop(F.col("__unexpected"))] *)
Definition unexpected_rows (data : SparkDF) (condition : SparkColumn) : SparkDF :=
  drop_column (filter_true (withColumn data "__unexpected" condition) "__unexpected")
              "__unexpected".

(** [data.select(F.col(name))]: the column must be a name every row has. *)
Definition select_column (data : SparkDF) (name : pyval) : result SparkDF :=
  match name with
  | VStr n =>
      mapM (λ row, match assoc n row with
                   | Some v => Ok [(n, v)]
                   | None => Raise (AnalysisException "cannot resolve column")
                   end) data
  | _ => Raise TypeError
  end.

(** [data.limit(n)]: the count goes to the engine's [limit(int)]; a
    negative count is refused when the plan is analysed, and a value that
    is not an integer (a boolean included) finds no such method. *)
Definition limit (data : SparkDF) (n : pyval) : result SparkDF :=
  match n with
  | VInt k => if 0 <=? k then Ok (take (Z.to_nat k) data)
              else Raise (AnalysisException "The limit expression must be equal to or greater than 0")
  | _ => Raise Py4JError
  end.

(** [row[name]] *)
Definition row_getitem (row : SparkRow) (name : pyval) : result pyval :=
  match name with
  | VStr n => match assoc n row with
              | Some v => Ok v
              | None => Raise (ValueError "no such field")
              end
  | _ => Raise TypeError
  end.

(** [_spark_column_map_values] *)
Definition _spark_column_map_values
    (execution_engine : SparkEngine)
    (metric_domain_kwargs metric_value_kwargs : kwargs)
    (metrics : gmap string (SparkColumn * kwargs))
    : result (list pyval) :=
  '(condition, fn_domain_kwargs) ← unpack_pair (metrics !! "unexpected_condition");
  '(data, _, _) ← sp_get_compute_domain execution_engine fn_domain_kwargs None;
  result_format ← getitem metric_value_kwargs "result_format";
  column_name ← getitem metric_domain_kwargs "column";
  let filtered := unexpected_rows data condition in
  fmt ← subscript result_format "result_format";
  rows ← (if py_eqb fmt (VStr "COMPLETE") then select_column filtered column_name
          else sel ← select_column filtered column_name;
               n ← subscript result_format "partial_unexpected_count";
               limit sel n);
  mapM (λ row, row_getitem row column_name) rows.

(** [filtered.groupBy(F.col(name)).count()], collected. *)
Definition group_count (data : SparkDF) (name : pyval) : result (list SparkRow) :=
  match name with
  | VStr n =>
      vs ← mapM (λ row, match assoc n row with
                        | Some v => Ok v
                        | None => Raise (AnalysisException "cannot resolve column")
                        end) data;
      Ok (map (λ p, [(n, p.1); ("count", VInt p.2)])
              (fold_left (λ h v, count_value v h) vs []))
  | _ => Raise TypeError
  end.

(** [_spark_column_map_value_counts] *)
Definition _spark_column_map_value_counts
    (execution_engine : SparkEngine)
    (metric_domain_kwargs metric_value_kwargs : kwargs)
    (metrics : gmap string (SparkColumn * kwargs))
    : result (list SparkRow) :=
  '(condition, fn_domain_kwargs) ← unpack_pair (metrics !! "unexpected_condition");
  '(data, _, accessor_domain_kwargs) ←
     sp_get_compute_domain execution_engine fn_domain_kwargs None;
  result_format ← getitem metric_value_kwargs "result_format";
  column_name ← getitem accessor_domain_kwargs "column";
  let filtered := unexpected_rows data condition in
  value_counts ← group_count filtered column_name;
  fmt ← subscript result_format "result_format";
  if py_eqb fmt (VStr "COMPLETE") then Ok value_counts
  else n ← subscript result_format "partial_unexpected_count";
       slice_to value_counts n.

(** [_spark_column_map_rows] *)
Definition _spark_column_map_rows
    (execution_engine : SparkEngine)
    (metric_domain_kwargs metric_value_kwargs : kwargs)
    (metrics : gmap string (SparkColumn * kwargs))
    : result (list SparkRow) :=
  '(condition, fn_domain_kwargs) ← unpack_pair (metrics !! "unexpected_condition");
  '(data, _, accessor_domain_kwargs) ←
     sp_get_compute_domain execution_engine fn_domain_kwargs None;
  result_format ← getitem metric_value_kwargs "result_format";
  let filtered := unexpected_rows data condition in
  fmt ← subscript result_format "result_format";
  if py_eqb fmt (VStr "COMPLETE") then Ok filtered
  else n ← subscript result_format "partial_unexpected_count";
       limit filtered n.

(** *** Example engines *)

(** A distributed engine over one table; domain kwargs with a
    "row_condition" select the rows whose column "a" is not null, and
    [add_column_row_condition] adds that entry.  The compute domain kwargs
    are the domain kwargs themselves. *)
Definition spark_example_table : SparkDF :=
  [[("a", VInt 1)]; [("a", VNone)]; [("a", VInt 3)]].

Definition spark_example_engine : SparkEngine :=
  mkSparkEngine (λ dk _,
    let rows := match dk !! "row_condition" with
                | Some _ => List.filter (λ row, negb (is_null (default VNone (assoc "a" row))))
                                        spark_example_table
                | None => spark_example_table
                end in
    Ok (rows, dk, filter (λ kv, kv.1 = "column") dk))
    (λ dk, Ok (<["row_condition" := VStr "a IS NOT NULL"]> dk)).

(** The condition "a is not greater than 2" (nulls count as unexpected). *)
Definition not_greater_than_two : SparkColumn :=
  λ row, match assoc "a" row with
         | Some (VInt n) => VBool (n <=? 2)
         | _ => VBool true
         end.

Definition filtered_column_a : kwargs :=
  {[ "column" := VStr "a"; "row_condition" := VStr "a IS NOT NULL" ]}.

(** A SQL engine over one table, with the same convention. *)
Definition sql_example_engine : SqlEngine :=
  mkSqlEngine (λ dk _, Ok ("t", dk, filter (λ kv, kv.1 = "column") dk))
              (λ dk, Ok (<["row_condition" := VStr "a IS NOT NULL"]> dk))
              (λ _, Ok [[("unexpected_values", VInt 1)]]).

(** ** EvaluationParameterStore (store.py) *)

Module EvaluationParameterStore.
Section store.
(** Keys stand for hashable objects up to [==]; values are arbitrary. *)
Context {K : Type} `{EqDecision K} {V : Type}.

(** [self.store]: a dictionary, in insertion order. *)
Record t : Type := mk { store : list (K * V) }.

Fixpoint dict_get (d : list (K * V)) (k : K) : option V :=
  match d with
  | [] => None
  | (k', v) :: d' => if decide (k' = k) then Some v else dict_get d' k
  end.

(** [d[k] = v]: an existing key keeps its place, a new key goes last. *)
Fixpoint dict_set (d : list (K * V)) (k : K) (v : V) : list (K * V) :=
  match d with
  | [] => [(k, v)]
  | (k', v') :: d' =>
      if decide (k' = k) then (k', v) :: d' else (k', v') :: dict_set d' k v
  end.

(** [__init__] *)
Definition init : t := mk [].

(** [get]: [self.store[key]] *)
Definition get (s : t) (key : K) : result V :=
  match dict_get (store s) key with
  | Some v => Ok v
  | None => Raise KeyError
  end.

(** [set]: [self.store[key] = value]; the store after the call. *)
Definition set (s : t) (key : K) (value : V) : t :=
  mk (dict_set (store s) key value).

(** [has_key]: [key in self.store] *)
Definition has_key (s : t) (key : K) : bool :=
  bool_decide (is_Some (dict_get (store s) key)).

(** [list_keys]: [list(self.store.keys())] *)
Definition list_keys (s : t) : list K := (store s).*1.

(** A store after a sequence of [set] calls. *)
Definition set_all (s : t) (calls : list (K * V)) : t :=
  fold_left (λ s kv, set s kv.1 kv.2) calls s.
End store.
Arguments t : clear implicits.
End EvaluationParameterStore.

(** ** Execution environments: the [config] property *)

(** Configurations are mutable objects: dictionaries and lists on a heap,
    holding plain values and references to other objects. *)
Inductive hval : Type :=
  | HNone
  | HBool (b : bool)
  | HInt (n : Z)
  | HStr (s : string)
  | HRef (l : nat).

Inductive hobj : Type :=
  | ODict (items : list (string * hval))
  | OList (items : list hval).

(** The heap: the object of address [l] is at position [l]; a new object
    goes at the end. *)
Abbreviation heap := (list hobj).

Definition obj_values (o : hobj) : list hval :=
  match o with
  | ODict items => items.*2
  | OList items => items
  end.

(** [d[k] = v] on the items of a dictionary. *)
Fixpoint items_set (d : list (string * hval)) (k : string) (v : hval)
    : list (string * hval) :=
  match d with
  | [] => [(k, v)]
  | (k', w) :: d' =>
      if String.eqb k' k then (k', v) :: d' else (k', w) :: items_set d' k v
  end.

(** *** [copy.deepcopy] *)

(** The memo dictionary of a deep copy: the copy made of each object met
    so far. *)
Abbreviation memo := (gmap nat nat).

(** [y[k] = v] on a dictionary [y] being filled. *)
Definition push_dict (o : hobj) (item : string * hval) (v : hval) : option hobj :=
  match o with
  | ODict d => Some (ODict (items_set d item.1 v))
  | OList _ => None
  end.

(** [y.append(v)] on a list [y] being filled. *)
Definition push_list (o : hobj) (item : hval) (v : hval) : option hobj :=
  match o with
  | OList xs => Some (OList (xs ++ [v]))
  | ODict _ => None
  end.

(** The loop of [_deepcopy_dict] and of [_deepcopy_list]: copy the value
    of each item, in order, and store the copy in the object at [y]. *)
Fixpoint copy_each {I} (copy : hval → heap * memo → option (hval * (heap * memo)))
    (value_of : I → hval) (push : hobj → I → hval → option hobj)
    (y : nat) (items : list I) (st : heap * memo) : option (heap * memo) :=
  match items with
  | [] => Some st
  | i :: rest =>
      '(v, st') ← copy (value_of i) st;
      o ← st'.1 !! y;
      o' ← push o i v;
      copy_each copy value_of push y rest (<[y := o']> st'.1, st'.2)
  end.

(** [deepcopy(x, memo)].  Plain values are their own copies; an object
    already in the memo is answered from it; another object gets a new,
    empty copy, which is entered in the memo before its items are copied
    into it.  The fuel bounds the nesting of calls. *)
Fixpoint deepcopy (fuel : nat) (x : hval) (st : heap * memo)
    : option (hval * (heap * memo)) :=
  match x with
  | HRef l =>
      match st.2 !! l with
      | Some y => Some (HRef y, st)
      | None =>
          match fuel with
          | O => None
          | S fuel' =>
              match st.1 !! l with
              | None => None
              | Some (ODict items) =>
                  let y := length st.1 in
                  st' ← copy_each (deepcopy fuel') snd push_dict y items
                          (st.1 ++ [ODict []], <[l := y]> st.2);
                  Some (HRef y, st')
              | Some (OList items) =>
                  let y := length st.1 in
                  st' ← copy_each (deepcopy fuel') id push_list y items
                          (st.1 ++ [OList []], <[l := y]> st.2);
                  Some (HRef y, st')
              end
          end
      end
  | _ => Some (x, st)
  end.

(** *** BaseExecutionEnvironment *)

Record BaseExecutionEnvironment : Type := mkEnv {
  _name : string;
  _execution_engine : hval;
  (** address of the dictionary [self._execution_environment_config] *)
  _execution_environment_config : nat;
  (** address of the dictionary [self._data_connectors] *)
  _data_connectors : nat;
}.

(** [__init__(name, execution_engine)]: the configuration dictionary holds
    the very object passed as [execution_engine]. *)
Definition env_init (name : string) (execution_engine : hval) (h : heap)
    : BaseExecutionEnvironment * heap :=
  let cfg := length h in
  let conns := S (length h) in
  (mkEnv name execution_engine cfg conns,
   h ++ [ODict [("execution_engine", execution_engine)]; ODict []]).

(** The [config] property: [copy.deepcopy(self._execution_environment_config)],
    with a fresh memo.  An object is entered at most once, so the nesting
    of calls never exceeds the number of objects. *)
Definition config (self : BaseExecutionEnvironment) (h : heap) : option (hval * heap) :=
  '(v, st) ← deepcopy (length h) (HRef (_execution_environment_config self)) (h, ∅);
  Some (v, st.1).

(** *** What the holder of a value can do *)

Definition is_ref_in (roots : list hval) (v : hval) : Prop :=
  match v with
  | HRef _ => v ∈ roots
  | _ => True
  end.

(** One action of a caller who holds the values [roots]: read an item of
    an object it holds, replace the contents of an object it holds by
    values it holds (item assignment, deletion, append, clear, ...), or
    create an object from values it holds. *)
Inductive caller_step : heap * list hval → heap * list hval → Prop :=
  | step_read h roots l o v :
      HRef l ∈ roots → h !! l = Some o → v ∈ obj_values o →
      caller_step (h, roots) (h, v :: roots)
  | step_write h roots l o :
      HRef l ∈ roots → (l < length h)%nat →
      Forall (is_ref_in roots) (obj_values o) →
      caller_step (h, roots) (<[l := o]> h, roots)
  | step_alloc h roots o :
      Forall (is_ref_in roots) (obj_values o) →
      caller_step (h, roots) (h ++ [o], HRef (length h) :: roots).

(** A heap is closed when every reference in it is the address of one of
    its objects, and well-keyed when no dictionary repeats a key. *)
Definition val_below (n : nat) (v : hval) : Prop :=
  match v with
  | HRef l => (l < n)%nat
  | _ => True
  end.

Definition closed (h : heap) : Prop :=
  ∀ l o, h !! l = Some o → Forall (val_below (length h)) (obj_values o).

Definition well_keyed (h : heap) : Prop :=
  ∀ l items, h !! l = Some (ODict items) → NoDup items.*1.

(** [v'] is the copy of [v] under the memo [mu]. *)
Definition copied (mu : memo) (v v' : hval) : Prop :=
  match v with
  | HRef l => ∃ y, mu !! l = Some y ∧ v' = HRef y
  | _ => v' = v
  end.

(** [o'] is the copy of [o]: the same keys in the same order, each value
    replaced by its copy. *)
Definition obj_copied (mu : memo) (o o' : hobj) : Prop :=
  match o, o' with
  | ODict items, ODict items' =>
      Forall2 (λ i i', i.1 = i'.1 ∧ copied mu i.2 i'.2) items items'
  | OList items, OList items' => Forall2 (copied mu) items items'
  | _, _ => False
  end.

(** *** Example heap *)

(** [{"execution_engine": {"class_name": "PandasExecutionEngine",
      "options": ["a", "b"]}}] at address 2, built by [env_init]. *)
Definition example_heap0 : heap :=
  [ODict [("class_name", HStr "PandasExecutionEngine"); ("options", HRef 1)];
   OList [HStr "a"; HStr "b"]].
Definition example_env : BaseExecutionEnvironment := (env_init "env" (HRef 0) example_heap0).1.
Definition example_heap : heap := (env_init "env" (HRef 0) example_heap0).2.

(** *** The state of a deep copy in progress *)

(** A value held by the copy: a plain value or a reference to an object
    created since the copy began ([n0] objects existed then, [n] exist now). *)
Definition fresh_val (n0 n : nat) (v : hval) : Prop :=
  match v with
  | HRef l => (n0 ≤ l < n)%nat
  | _ => True
  end.

(** Every state a deep copy of a heap [h0] goes through: the objects of
    [h0] are in place and untouched, the memo sends objects of [h0] to
    objects created since, and the latter refer only to one another. *)
Record copy_inv (h0 : heap) (st : heap * memo) : Prop := mkCopyInv {
  inv_length : (length h0 ≤ length st.1)%nat;
  inv_prefix : ∀ l, (l < length h0)%nat → st.1 !! l = h0 !! l;
  inv_memo : ∀ l y, st.2 !! l = Some y →
               (l < length h0)%nat ∧ (length h0 ≤ y < length st.1)%nat;
  inv_new : ∀ a o, (length h0 ≤ a)%nat → st.1 !! a = Some o →
              Forall (fresh_val (length h0) (length st.1)) (obj_values o);
}.

(** The object at [y] is a finished copy of the object of [h0] at [l]. *)
Definition completed (h0 : heap) (st : heap * memo) (l y : nat) : Prop :=
  ∃ o o', h0 !! l = Some o ∧ st.1 !! y = Some o' ∧ obj_copied st.2 o o'.

(** What one call of [deepcopy] does to the state. *)
Record copy_post (h0 : heap) (st st' : heap * memo) : Prop := mkCopyPost {
  post_inv : copy_inv h0 st';
  post_memo : st.2 ⊆ st'.2;
  post_length : (length st.1 ≤ length st'.1)%nat;
  post_frame : ∀ a, (a < length st.1)%nat → st'.1 !! a = st.1 !! a;
  post_fresh : ∀ l y, st'.2 !! l = Some y → st.2 !! l = None →
                 (length st.1 ≤ y)%nat;
  post_done : ∀ l y, st'.2 !! l = Some y → st.2 !! l = None →
                completed h0 st' l y;
}.

(** The objects of a heap of [n0] objects not yet entered in the memo. *)
Definition unvisited (n0 : nat) (mu : memo) : nat :=
  size (set_seq (C := gset nat) 0 n0 ∖ dom mu).

(** What a caller holding only new values can see and touch. *)
Record caller_inv (h0 : heap) (st : heap * list hval) : Prop := mkCallerInv {
  cinv_length : (length h0 ≤ length st.1)%nat;
  cinv_prefix : ∀ l, (l < length h0)%nat → st.1 !! l = h0 !! l;
  cinv_roots : Forall (fresh_val (length h0) (length st.1)) st.2;
  cinv_new : ∀ a o, (length h0 ≤ a)%nat → st.1 !! a = Some o →
               Forall (fresh_val (length h0) (length st.1)) (obj_values o);
}.

(** The object holding the copies [dl] made for a dictionary, for a list. *)
Definition dict_of (dl : list ((string * hval) * hval)) : hobj :=
  ODict (map (λ p, (p.1.1, p.2)) dl).
Definition list_of (dl : list (hval * hval)) : hobj := OList (dl.*2).

(** ** Further definitions *)

(** A method tagged by one of the decorators of metric_provider.py: its
    [metric_fn_type] is a member of an enumeration. *)
Definition enum_tagged (o : fn_type_obj) : Prop :=
  match o with
  | FnStr _ => False
  | _ => True
  end.

(** An attribute the map-metric hook either skips as "not a metric" or
    finds tagged by a decorator, on a proper execution engine. *)
Definition decorated_or_plain (a : attr_obj) : Prop :=
  match a_metric_engine a with
  | None => True
  | Some e =>
      is_execution_engine e = true ∧
      ∃ o, a_metric_fn_type a = Some o ∧ enum_tagged o
  end.

(** The entry the map-metric hook stores for a condition metric or one of
    its derived metrics. *)
Definition condition_entry (cls : provider_cls) (with_format : bool)
    (provider : provider_fn) (kind : string) : ProviderEntry :=
  mkEntry (c_condition_domain_keys cls)
          (if with_format then c_condition_value_keys cls ++ ["result_format"]
           else c_condition_value_keys cls)
          (c_name cls) (Some provider) (FnStr kind).

Definition sql_key (name : string) : string * string :=
  (name, engine_name SqlAlchemyExecutionEngine).

(** A map-metric provider class with a SQL condition method whose kind is
    given as a string. *)
Definition unique_values_cls : provider_cls :=
  map_provider_subclass "ColumnValuesUnique" (Some "column_values.unique") None
    [("_sqlalchemy", sql_condition_method_str)].

(** A method tagged by [@metric_value_fn(engine=PandasExecutionEngine)]. *)
Definition pandas_value_method : attr_obj :=
  mkAttr (Some PandasExecutionEngine) (Some (FnFunction F_VALUE)) None (Some ∅) None None.

Definition row_count_cls : provider_cls :=
  provider_subclass "TableRowCount" (Some "table.row_count")
    [("_pandas", pandas_value_method)].

(** A method whose [metric_engine] is not an execution engine. *)
Definition stray_method : attr_obj :=
  mkAttr (Some NotAnExecutionEngine) (Some (FnStr "value")) None None None None.

(** [obj.index]: the row labels of a column. *)
Definition obj_index (o : pandas_obj) : result (list Z) :=
  match o with
  | PSeries s => Ok (s.*1)
  | PFrame df => Ok ((df_rows df).*1)
  | PScalar _ => Raise AttributeError
  end.

(** [_pandas_column_map_index].  The dependency is used as the mask itself. *)
Definition _pandas_column_map_index
    (cls : provider_cls) (execution_engine : PandasEngine)
    (metric_domain_kwargs metric_value_kwargs : kwargs)
    (metrics : gmap string (Series bool)) (call_kw : kwargs)
    : result (list Z) :=
  '(df, _, accessor_domain_kwargs) ←
     pd_get_compute_domain execution_engine metric_domain_kwargs None;
  let filter_column_isnull := filter_column_isnull_flag call_kw cls false in
  df ← filter_nulls filter_column_isnull df accessor_domain_kwargs;
  col ← getitem accessor_domain_kwargs "column";
  data ← df_column df col;
  result_format ← getitem metric_value_kwargs "result_format";
  let boolean_mapped_unexpected_values := metrics !! "unexpected_condition" in
  fmt ← subscript result_format "result_format";
  if py_eqb fmt (VStr "COMPLETE") then
    sel ← series_getitem data (eq_True boolean_mapped_unexpected_values);
    obj_index sel
  else
    sel ← series_getitem data (eq_True boolean_mapped_unexpected_values);
    labels ← obj_index sel;
    n ← subscript result_format "partial_unexpected_count";
    slice_to labels n.

(** A result format other than COMPLETE, with a count. *)
Definition summary_format (n : Z) : pyval :=
  VDict [("result_format", VStr "SUMMARY"); ("partial_unexpected_count", VInt n)].

(** [_spark_map_unexpected_count_data]: the number of rows on which the
    condition holds, over the domain recorded with the condition. *)
Definition _spark_map_unexpected_count_data
    (execution_engine : SparkEngine)
    (metric_domain_kwargs metric_value_kwargs : kwargs)
    (metrics : gmap string (SparkColumn * kwargs))
    : result Z :=
  '(condition, fn_domain_kwargs) ← unpack_pair (metrics !! "unexpected_condition");
  '(data, _, accessor_domain_kwargs) ←
     sp_get_compute_domain execution_engine fn_domain_kwargs None;
  let filtered := unexpected_rows data condition in
  Ok (Z.of_nat (length filtered)).

(** The query [_sqlalchemy_column_map_values] builds. *)
Definition values_query (selectable : string) (accessor : kwargs)
    (condition : sa_expr) (limit : option pyval) : sa_query :=
  mkQuery [SaLabel (SaColumn (default VNone (accessor !! "column"))) "unexpected_values"]
          selectable (Some condition) None limit.

(** The query [_sqlalchemy_column_map_rows] builds. *)
Definition rows_query (selectable : string) (condition : sa_expr)
    (limit : option pyval) : sa_query :=
  mkQuery [SaText "*"] selectable (Some condition) None limit.

(** A row has no cell of that name. *)
Definition lacks_column (name : string) (row : SparkRow) : Prop :=
  assoc name row = None.

(** ** The serializing stores (store.py) *)

(** The three store classes, as far as [_validate_key], [_get] and [_set]
    differ. *)
Inductive store_class : Type :=
  | WriteOnlyStore
  | ReadWriteStore
  | BasicInMemoryStore.

(** The (de)serializers of the libraries the stores call: [json.dumps],
    [json.loads], and [convert_to_csv], which asserts that its argument is
    a data frame and returns [df.to_csv(index=None)]. *)
Record Serializers (V : Type) : Type := mkSerializers {
  json_dumps : V → result V;
  json_loads : V → result V;
  convert_to_csv : V → result V;
}.
Arguments json_dumps {V}.
Arguments json_loads {V}.
Arguments convert_to_csv {V}.

(** The store backend a [BasicInMemoryStore] is built on, over a state [B];
    its keys are tuples. *)
Record StoreBackend (B V : Type) : Type := mkStoreBackend {
  sb_get : list pyval → M B V;
  sb_set : list pyval → V → M B unit;
  sb_has_key : list pyval → M B bool;
  sb_list_keys : M B (list (list pyval));
}.
Arguments sb_get {B V}.
Arguments sb_set {B V}.
Arguments sb_has_key {B V}.
Arguments sb_list_keys {B V}.

Section serializing_stores.
Context {B V : Type}.
Variable lib : Serializers V.
Variable store_backend : StoreBackend B V.

(** [_get_serialization_method]: [None] stands for the method falling off
    its end, which returns [None]. *)
Definition _get_serialization_method (serialization_type : pyval)
    : option (V → result V) :=
  if py_eqb serialization_type VNone then Some (λ x, Ok x)
  else if py_eqb serialization_type (VStr "json") then Some (json_dumps lib)
  else if py_eqb serialization_type (VStr "pandas_csv") then Some (convert_to_csv lib)
  else None.

(** [_get_deserialization_method]: raises for "pandas_csv". *)
Definition _get_deserialization_method (serialization_type : pyval)
    : result (option (V → result V)) :=
  if py_eqb serialization_type VNone then Ok (Some (λ x, Ok x))
  else if py_eqb serialization_type (VStr "json") then Ok (Some (json_loads lib))
  else if py_eqb serialization_type (VStr "pandas_csv") then Raise NotImplementedError
  else Ok None.

(** Calling what a lookup of a method returned: [None] is not callable. *)
Definition call_method (f : option (V → result V)) (x : V) : result V :=
  match f with
  | Some g => g x
  | None => Raise TypeError
  end.

(** [_validate_key]: not implemented by the two base classes; the
    in-memory store asserts that the key is a string. *)
Definition _validate_key (cls : store_class) (key : pyval) : result unit :=
  match cls with
  | BasicInMemoryStore =>
      match key with
      | VStr _ => Ok tt
      | _ => Raise (AssertionError "")
      end
  | _ => Raise NotImplementedError
  end.

Definition _set (cls : store_class) (key : pyval) (value : V) : M B unit :=
  match cls with
  | BasicInMemoryStore => sb_set store_backend [key] value
  | _ => sraise NotImplementedError
  end.

Definition _get (cls : store_class) (key : pyval) : M B V :=
  match cls with
  | BasicInMemoryStore => sb_get store_backend [key]
  | _ => sraise NotImplementedError
  end.

(** [WriteOnlyStore.set(key, value, serialization_type)]; [own_type] is
    [self.serialization_type]. *)
Definition store_set (cls : store_class) (own_type : pyval)
    (key : pyval) (value : V) (serialization_type : pyval) : M B unit :=
  let* _ := slift (_validate_key cls key) in
  let serialization_method :=
    if truthy serialization_type then _get_serialization_method serialization_type
    else _get_serialization_method own_type in
  let* serialized_value := slift (call_method serialization_method value) in
  _set cls key serialized_value.

(** [ReadWriteStore.get(key, serialization_type)] *)
Definition store_get (cls : store_class) (own_type : pyval)
    (key : pyval) (serialization_type : pyval) : M B V :=
  let* _ := slift (_validate_key cls key) in
  let* value := _get cls key in
  let* deserialization_method :=
    slift (if truthy serialization_type
           then _get_deserialization_method serialization_type
           else _get_deserialization_method own_type) in
  slift (call_method deserialization_method value).

(** [BasicInMemoryStore.has_key] *)
Definition store_has_key (key : pyval) : M B bool :=
  sb_has_key store_backend [key].

(** [BasicInMemoryStore.list_keys]: [[key for key, in backend.list_keys()]],
    which unpacks one-element tuples. *)
Definition store_list_keys : M B (list pyval) :=
  let* keys := sb_list_keys store_backend in
  slift (mapM (λ t, match t with
                    | [key] => Ok key
                    | _ => Raise (ValueError "not enough or too many values to unpack")
                    end) keys).
End serializing_stores.

(** *** Example backend and serializers *)

(** A backend that is a dictionary from key tuples to values. *)
Definition same_key (k k' : list pyval) : bool :=
  bool_decide (length k = length k') && forallb (λ p, py_eqb p.1 p.2) (zip k k').

Definition dict_backend_get (k : list pyval) : M (list (list pyval * pyval)) pyval :=
  λ b, (match List.find (λ e, same_key (fst e) k) b with
        | Some e => Ok (snd e)
        | None => Raise KeyError
        end, b).

Definition dict_backend_set (k : list pyval) (v : pyval)
    : M (list (list pyval * pyval)) unit :=
  λ b, (Ok tt, (k, v) :: b).

Definition dict_backend : StoreBackend (list (list pyval * pyval)) pyval :=
  mkStoreBackend _ _
    dict_backend_get dict_backend_set
    (λ k b, (Ok (existsb (λ e, same_key (fst e) k) b), b))
    (λ b, (Ok (map fst b), b)).

(** Serializers that wrap a value in a tagged list and unwrap it. *)
Definition tagging_serializers : Serializers pyval :=
  mkSerializers _
    (λ v, Ok (VList [VStr "json"; v]))
    (λ v, match v with
          | VList [VStr "json"; w] => Ok w
          | _ => Raise (ValueError "Expecting value")
          end)
    (λ v, Raise (AssertionError "")).

(** * Batches: [execution_environment.py] *)

(** Modelled from the spec: the batch classes ([BatchRequest],
    [BatchDefinition], [Batch]) and the data connectors belong to modules
    that are not among the sources, and the specification leaves the batch
    layer to external collaborators.  The methods of the execution
    environment use them only through four attribute reads of a request,
    one attribute read and one attribute write of a definition, the [Batch]
    constructor and three connector methods; the model is parametric in
    exactly that interface.  A slot that may hold [None] is an [option].
    Connector methods may have effects: they act on a state [W]. *)
Record DataConnector (W Request BatchDef Data Spec Markers AssetNames : Type)
    : Type := mkDataConnector {
  get_batch_definition_list_from_batch_request : Request → M W (list BatchDef);
  (** [get_batch_data_and_metadata(batch_definition, batch_data=None)] *)
  get_batch_data_and_metadata :
    BatchDef → option Data → M W (option Data * option Spec * option Markers);
  connector_asset_names : M W AssetNames;
}.
Arguments get_batch_definition_list_from_batch_request {_ _ _ _ _ _ _} _ _ _.
Arguments get_batch_data_and_metadata {_ _ _ _ _ _ _} _ _ _ _.
Arguments connector_asset_names {_ _ _ _ _ _ _} _ _.

(** Python's [str] of a length. *)
Definition str_of_nat (n : nat) : string :=
  NilEmpty.string_of_uint (Nat.to_uint n).

Definition double_quote : string := String "034" "".
Definition newline : string := String "010" "".

(** The message of [_validate_batch_request], an f-string over three
    source lines. *)
Definition name_mismatch_message (requested own : string) : string :=
  "execution_envrironment_name in BatchRequest: " +:+ double_quote +:+ requested
  +:+ double_quote +:+ " does not" +:+ newline
  +:+ "                match ExecutionEnvironment name: " +:+ double_quote +:+ own
  +:+ double_quote +:+ "." +:+ newline
  +:+ "                ".

(** The argument [data_connector_names] of
    [get_available_data_asset_names]: [None], one name, or a list. *)
Inductive connector_names : Type :=
  | AllConnectors
  | OneName (n : string)
  | Names (ns : list string).

Section batches.
Context {W Request BatchDef Data Spec Markers Pass AssetNames Batch : Type}.

(** Attribute reads of a batch request. *)
Variable execution_environment_name : Request → option string.
Variable data_connector_name : Request → string.
Variable batch_data : Request → option Data.
Variable batch_spec_passthrough : Request → option Pass.
(** [batch_definition.data_connector_name] and the assignment
    [batch_definition.batch_spec_passthrough = ...]. *)
Variable definition_connector_name : BatchDef → string.
Variable set_batch_spec_passthrough : BatchDef → option Pass → BatchDef.
(** [Batch(data, batch_request, batch_definition, batch_spec, batch_markers)] *)
Variable new_Batch :
  option Data → option Request → BatchDef → option Spec → option Markers → Batch.

(** [self.name] and [self.data_connectors], a dictionary in insertion
    order. *)
Variable self_name : string.
Variable data_connectors :
  list (string * DataConnector W Request BatchDef Data Spec Markers AssetNames).

(** [self.data_connectors[n]] *)
Definition connector_of (n : string)
    : result (DataConnector W Request BatchDef Data Spec Markers AssetNames) :=
  match assoc n data_connectors with
  | Some c => Ok c
  | None => Raise KeyError
  end.

Definition _validate_batch_request (batch_request : Request) : result unit :=
  match execution_environment_name batch_request with
  | None => Ok tt
  | Some n =>
      if String.eqb n self_name then Ok tt
      else Raise (ValueError (name_mismatch_message n self_name))
  end.

Definition get_batch_from_batch_definition
    (batch_definition : BatchDef) (data : option Data) : M W Batch :=
  match data with
  | Some d => sret (new_Batch (Some d) None batch_definition None None)
  | None =>
      let* data_connector :=
        slift (connector_of (definition_connector_name batch_definition)) in
      let* (loaded, batch_spec, batch_markers) :=
        get_batch_data_and_metadata data_connector batch_definition None in
      sret (new_Batch loaded None batch_definition batch_spec batch_markers)
  end.

(** The loop of the branch without batch data; [batches] is the list built
    so far.  The assignment of [batch_spec_passthrough] is made on the
    definition the connector returned; here it yields the updated
    definition, which is what the rest of the call uses. *)
Fixpoint load_batches
    (data_connector : DataConnector W Request BatchDef Data Spec Markers AssetNames)
    (batch_request : Request) (batch_definition_list : list BatchDef)
    (batches : list Batch) : M W (list Batch) :=
  match batch_definition_list with
  | [] => sret batches
  | batch_definition :: rest =>
      let batch_definition :=
        set_batch_spec_passthrough batch_definition
          (batch_spec_passthrough batch_request) in
      let* (loaded, batch_spec, batch_markers) :=
        get_batch_data_and_metadata data_connector batch_definition None in
      load_batches data_connector batch_request rest
        (batches ++ [new_Batch loaded (Some batch_request) batch_definition
                       batch_spec batch_markers])
  end.

Definition get_batch_list_from_batch_request (batch_request : Request)
    : M W (list Batch) :=
  let* _ := slift (_validate_batch_request batch_request) in
  let* data_connector := slift (connector_of (data_connector_name batch_request)) in
  let* batch_definition_list :=
    get_batch_definition_list_from_batch_request data_connector batch_request in
  match batch_data batch_request with
  | None => load_batches data_connector batch_request batch_definition_list []
  | Some data =>
      (* [len(batch_definition_list) != 1], then element 0 *)
      match batch_definition_list with
      | [batch_definition] =>
          let* (typed_batch_data, batch_spec, batch_markers) :=
            get_batch_data_and_metadata data_connector batch_definition (Some data) in
          sret [new_Batch typed_batch_data (Some batch_request) batch_definition
                  batch_spec batch_markers]
      | _ =>
          sraise (ValueError "When batch_request includes batch_data, it must specify exactly one corresponding BatchDefinition")
      end
  end.

Definition get_single_batch_from_batch_request (batch_request : Request)
    : M W Batch :=
  let* batch_list := get_batch_list_from_batch_request batch_request in
  match batch_list with
  | [batch] => sret batch
  | _ =>
      sraise (ValueError ("Got " +:+ str_of_nat (length batch_list)
                          +:+ " batches instead of a single batch."))
  end.

Definition get_available_batch_definitions (batch_request : Request)
    : M W (list BatchDef) :=
  let* _ := slift (_validate_batch_request batch_request) in
  let* data_connector := slift (connector_of (data_connector_name batch_request)) in
  get_batch_definition_list_from_batch_request data_connector batch_request.

(** The loop of [get_available_data_asset_names]. *)
Fixpoint collect_asset_names (names : list string)
    (available_data_asset_names : gmap string AssetNames)
    : M W (gmap string AssetNames) :=
  match names with
  | [] => sret available_data_asset_names
  | data_connector_name :: rest =>
      let* data_connector := slift (connector_of data_connector_name) in
      let* asset_names := connector_asset_names data_connector in
      collect_asset_names rest
        (<[data_connector_name := asset_names]> available_data_asset_names)
  end.

Definition get_available_data_asset_names (data_connector_names : connector_names)
    : M W (gmap string AssetNames) :=
  let names :=
    match data_connector_names with
    | AllConnectors => data_connectors.*1
    | OneName n => [n]
    | Names ns => ns
    end in
  collect_asset_names names ∅.

End batches.

(** ** An instance *)

(** Requests, definitions and batches as plain containers, and a connector
    that serves a fixed list of definitions and records each call it
    receives. *)
Record ExampleRequest : Type := mkRequest {
  rq_execution_environment_name : option string;
  rq_data_connector_name : string;
  rq_batch_data : option pyval;
  rq_batch_spec_passthrough : option pyval;
}.

Record ExampleDefinition : Type := mkDefinition {
  df_data_connector_name : string;
  df_data_asset_name : string;
  df_batch_spec_passthrough : option pyval;
}.

Record ExampleBatch : Type := mkBatch {
  bt_data : option pyval;
  bt_batch_request : option ExampleRequest;
  bt_batch_definition : ExampleDefinition;
  bt_batch_spec : option pyval;
  bt_batch_markers : option pyval;
}.

Definition with_passthrough (d : ExampleDefinition) (p : option pyval)
    : ExampleDefinition :=
  mkDefinition (df_data_connector_name d) (df_data_asset_name d) p.

Definition serving_connector (defs : list ExampleDefinition)
    : DataConnector (list string) ExampleRequest ExampleDefinition pyval pyval pyval
        (list string) :=
  mkDataConnector _ _ _ _ _ _ _
    (λ _ log, (Ok defs, log ++ ["list"]))
    (λ d data log,
       (Ok (Some (default (VStr (df_data_asset_name d)) data),
            df_batch_spec_passthrough d, Some (VStr "loaded")),
        log ++ ["load " +:+ df_data_asset_name d]))
    (λ log, (Ok (df_data_asset_name <$> defs), log ++ ["names"])).

Definition asset (n : string) : ExampleDefinition := mkDefinition "files" n None.

Definition example_connectors :=
  [("files", serving_connector [asset "a"; asset "b"]);
   ("single", serving_connector [asset "c"])].

Definition example_get_batch_list :=
  get_batch_list_from_batch_request rq_execution_environment_name
    rq_data_connector_name rq_batch_data rq_batch_spec_passthrough
    with_passthrough mkBatch "my_env" example_connectors.

Definition example_get_single_batch :=
  get_single_batch_from_batch_request rq_execution_environment_name
    rq_data_connector_name rq_batch_data rq_batch_spec_passthrough
    with_passthrough mkBatch "my_env" example_connectors.

(** ** The two authoring shapes on the SQL and distributed backends *)

(** [column_function_partial] and [column_condition_partial] return, for a
    declaration they accept, the author's function wrapped in an
    [inner_func].  For the in-memory engine no declaration is accepted
    (the only type names let through are not members of
    [MetricPartialFunctionTypes], so the tagging raises), and that
    branch's [inner_func] never comes to exist; the branches below are the
    ones a class can declare. *)

(** [metric_fn(..., **metric_value_kwargs, name=..., ...)]: a value kwarg
    that has the name of a keyword the call passes itself is a
    [TypeError]; otherwise the function receives the value kwargs. *)
Definition spread (metric_value_kwargs : kwargs) (named : list string) : result kwargs :=
  if existsb (λ k, bool_decide (is_Some (metric_value_kwargs !! k))) named
  then Raise TypeError
  else Ok metric_value_kwargs.

(** [inner_func] of [column_function_partial] for the SQL engine.
    [decl_kw] are the decorator's keyword arguments; [metric_fn] is the
    author's function, as a function of the column expression, the value
    kwargs and the selectable [_table] (the class, the dialect and the
    metrics it also receives are fixed during a call). *)
Definition sqlalchemy_function_partial
    (decl_kw : kwargs) (metric_fn : sa_expr → kwargs → string → result sa_expr)
    (cls : provider_cls) (execution_engine : SqlEngine)
    (metric_domain_kwargs metric_value_kwargs : kwargs)
    : result (sa_expr * kwargs * kwargs) :=
  let filter_column_isnull := filter_column_isnull_flag decl_kw cls false in
  compute_domain_kwargs ←
    (if truthy filter_column_isnull
     then sql_add_column_row_condition execution_engine metric_domain_kwargs
     else Ok metric_domain_kwargs);
  '(selectable, compute_domain_kwargs, accessor_domain_kwargs) ←
     sql_get_compute_domain execution_engine compute_domain_kwargs (Some "column");
  column_name ← getitem accessor_domain_kwargs "column";
  value_kwargs ← spread metric_value_kwargs ["_dialect"; "_table"; "_metrics"];
  column_function ← metric_fn (SaColumn column_name) value_kwargs selectable;
  Ok (column_function, compute_domain_kwargs, accessor_domain_kwargs).

(** [inner_func] of [column_condition_partial] for the SQL engine; it
    returns the condition and the compute domain kwargs. *)
Definition sqlalchemy_condition_partial
    (decl_kw : kwargs) (metric_fn : sa_expr → kwargs → string → result sa_expr)
    (cls : provider_cls) (execution_engine : SqlEngine)
    (metric_domain_kwargs metric_value_kwargs : kwargs)
    : result (sa_expr * kwargs) :=
  let filter_column_isnull := filter_column_isnull_flag decl_kw cls true in
  '(selectable, compute_domain_kwargs, accessor_domain_kwargs) ←
     sql_get_compute_domain execution_engine metric_domain_kwargs (Some "column");
  column_name ← getitem accessor_domain_kwargs "column";
  value_kwargs ←
    spread metric_value_kwargs ["_dialect"; "_table"; "_sqlalchemy_engine"; "_metrics"];
  expected_condition ← metric_fn (SaColumn column_name) value_kwargs selectable;
  let unexpected_condition :=
    if truthy filter_column_isnull
    then SaAnd (SaNot (SaIsNone (SaColumn column_name))) (SaNot expected_condition)
    else SaNot expected_condition in
  Ok (unexpected_condition, compute_domain_kwargs).

(** A boolean column expression of the distributed engine: per row true,
    false or null. *)
Abbreviation BoolColumn := (SparkRow → option bool).

(** [data[name]] for a column name. *)
Definition spark_getitem (data : SparkDF) (name : pyval) : result SparkColumn :=
  match name with
  | VStr n =>
      if forallb (λ row, bool_decide (is_Some (assoc n row))) data
      then Ok (λ row, default VNone (assoc n row))
      else Raise (AnalysisException "cannot resolve column")
  | _ => Raise TypeError
  end.

(** [column.isNotNull()], [~c] and [a & b]; a null operand makes the result
    null unless the other operand of [&] is false. *)
Definition isNotNull (column : SparkColumn) : BoolColumn :=
  λ row, Some (negb (is_null (column row))).

Definition col_not (c : BoolColumn) : BoolColumn :=
  λ row, negb <$> c row.

Definition col_and (a b : BoolColumn) : BoolColumn :=
  λ row, match a row, b row with
         | Some false, _ | _, Some false => Some false
         | Some true, Some true => Some true
         | _, _ => None
         end.

(** A boolean column as the derived providers evaluate it. *)
Definition as_cells (c : BoolColumn) : SparkColumn :=
  λ row, match c row with
         | Some b => VBool b
         | None => VNone
         end.

(** [inner_func] of [column_function_partial] for the distributed engine;
    the author's function receives the column, the value kwargs and
    [_compute_domain_kwargs]. *)
Definition spark_function_partial
    (decl_kw : kwargs) (metric_fn : SparkColumn → kwargs → kwargs → result SparkColumn)
    (cls : provider_cls) (execution_engine : SparkEngine)
    (metric_domain_kwargs metric_value_kwargs : kwargs)
    : result (SparkColumn * kwargs * kwargs) :=
  let filter_column_isnull := filter_column_isnull_flag decl_kw cls false in
  compute_domain_kwargs ←
    (if truthy filter_column_isnull
     then sp_add_column_row_condition execution_engine metric_domain_kwargs
     else Ok metric_domain_kwargs);
  '(data, compute_domain_kwargs, accessor_domain_kwargs) ←
     sp_get_compute_domain execution_engine compute_domain_kwargs (Some "column");
  column_name ← getitem accessor_domain_kwargs "column";
  column ← spark_getitem data column_name;
  value_kwargs ←
    spread metric_value_kwargs ["column"; "_metrics"; "_compute_domain_kwargs"];
  column_function ← metric_fn column value_kwargs compute_domain_kwargs;
  Ok (column_function, compute_domain_kwargs, accessor_domain_kwargs).

(** [inner_func] of [column_condition_partial] for the distributed engine;
    [partial_fn_type] is the decorator's argument.  The author's function
    receives the column, the value kwargs, the data [_table] and the two
    kinds of domain kwargs. *)
Definition spark_condition_partial
    (partial_fn_type : string) (decl_kw : kwargs)
    (metric_fn : SparkColumn → kwargs → SparkDF → kwargs → kwargs → result BoolColumn)
    (cls : provider_cls) (execution_engine : SparkEngine)
    (metric_domain_kwargs metric_value_kwargs : kwargs)
    : result (BoolColumn * kwargs) :=
  let filter_column_isnull := filter_column_isnull_flag decl_kw cls true in
  '(data, compute_domain_kwargs, accessor_domain_kwargs) ←
     sp_get_compute_domain execution_engine metric_domain_kwargs (Some "column");
  column_name ← getitem accessor_domain_kwargs "column";
  column ← spark_getitem data column_name;
  value_kwargs ←
    spread metric_value_kwargs
      ["_table"; "_metrics"; "_compute_domain_kwargs"; "_accessor_domain_kwargs"];
  expected_condition ←
    metric_fn column value_kwargs data compute_domain_kwargs accessor_domain_kwargs;
  if String.eqb partial_fn_type "window_condition_fn" then
    compute_domain_kwargs ←
      (if truthy filter_column_isnull
       then sp_add_column_row_condition execution_engine metric_domain_kwargs
       else Ok compute_domain_kwargs);
    Ok (col_not expected_condition, compute_domain_kwargs)
  else
    let unexpected_condition :=
      if truthy filter_column_isnull
      then col_and (isNotNull column) (col_not expected_condition)
      else col_not expected_condition in
    Ok (unexpected_condition, compute_domain_kwargs).

(** *** Example functions *)

(** "the value is greater than 2", false on a null cell
    ([coalesce(column > 2, false)]). *)
Definition spark_greater_than_two
    (column : SparkColumn) (_ : kwargs) (_ : SparkDF) (_ _ : kwargs)
    : result BoolColumn :=
  Ok (λ row, match column row with
             | VInt n => Some (2 <? n)
             | _ => Some false
             end).

(** A function partial that returns the column itself. *)
Definition spark_identity (column : SparkColumn) (_ _ : kwargs) : result SparkColumn :=
  Ok column.

(** A SQL function and a SQL condition, as named fragments. *)
Definition sql_length (column : sa_expr) (_ : kwargs) (_ : string) : result sa_expr :=
  Ok (SaFragment "length(a)").
Definition sql_greater_than_two (column : sa_expr) (_ : kwargs) (_ : string)
    : result sa_expr :=
  Ok (SaFragment "a > 2").

(** *** A column with a null row, and conditions with other row labels *)

(** Thirteen rows, labelled 0 to 12; row 0 is null. *)
Definition thirteen_frame : DataFrame :=
  one_column "a" (VNone :: map VInt [10; 11; 12; 13; 14; 15; 16; 17; 18; 19; 20; 21]).

(** A condition over the twelve non-null rows (labels 1 to 12), true on ten
    of them. *)
Definition ten_of_nonnull : Series bool :=
  imap (λ i b, (Z.of_nat (S i), b))
    [true; true; false; true; true; true; true; false; true; true; true; true].

(** A condition over all thirteen rows, true on the first ten (the null
    row included). *)
Definition first_ten_of_thirteen : Series bool :=
  imap (λ i b, (Z.of_nat i, b))
    [true; true; true; true; true; true; true; true; true; true; false; false; false].

(** * Properties *)

(** ** Strings *)

Lemma chars_app (s t : string) : chars (s +:+ t) = chars s ++ chars t.
Proof.
  unfold chars. induction s as [|a s IH]; simpl; [done|]. by rewrite IH.
Qed.

Lemma chars_length (s : string) : length (chars s) = String.length s.
Proof. unfold chars. induction s; simpl; auto. Qed.

Lemma endswith_true (s sfx : string) :
  endswith s sfx = true ↔ ∃ p, s = p +:+ sfx.
Proof.
  unfold endswith. rewrite bool_decide_eq_true. split.
  - intros [k Hk]. exists (string_of_list_ascii k).
    rewrite <- (string_of_list_ascii_of_string s).
    rewrite <- (string_of_list_ascii_of_string (_ +:+ _)).
    f_equal. fold (chars s). fold (chars (string_of_list_ascii k +:+ sfx)).
    rewrite chars_app, Hk. f_equal.
    unfold chars. by rewrite list_ascii_of_string_of_list_ascii.
  - intros [p ->]. exists (chars p). apply chars_app.
Qed.

Lemma slice_to_neg_app (p sfx : string) :
  sfx ≠ "" → slice_to_neg (p +:+ sfx) (String.length sfx) = p.
Proof.
  intros Hne. unfold slice_to_neg.
  destruct (String.length sfx) eqn:Hlen.
  { destruct sfx; simpl in *; congruence. }
  rewrite <- Hlen, chars_app, length_app, !chars_length.
  replace (String.length p + String.length sfx - String.length sfx)%nat
    with (length (chars p)) by (rewrite chars_length; lia).
  rewrite take_app_length. apply string_of_list_ascii_of_string.
Qed.

Lemma not_dot_suffix_agree (base a b : string) :
  "."%char ∉ chars a → "."%char ∉ chars b →
  endswith (base +:+ String "." a) (String "." b) = true → b = a.
Proof.
  intros Ha Hb. unfold endswith. rewrite bool_decide_eq_true, chars_app.
  change (chars (String "." b)) with ([] ++ "."%char :: chars b).
  change (chars (String "." a)) with ("."%char :: chars a).
  intros H. apply suffix_not_elem_of_app_cons_inv in H as (_ & _ & H); [|done..].
  rewrite <- (string_of_list_ascii_of_string a), <- (string_of_list_ascii_of_string b).
  unfold chars in H. by rewrite H.
Qed.

Lemma endswith_app (base sfx : string) : endswith (base +:+ sfx) sfx = true.
Proof. apply endswith_true. by exists base. Qed.

Ltac no_dot := apply (bool_decide_unpack _); vm_compute; exact I.

(** A name built on one derived suffix ends with no other derived suffix. *)
Lemma endswith_other_suffix (base a b : string) :
  "."%char ∉ chars a → "."%char ∉ chars b → a ≠ b →
  endswith (base +:+ String "." a) (String "." b) = false.
Proof.
  intros Ha Hb Hne. destruct (endswith _ _) eqn:E; [|done].
  apply not_dot_suffix_agree in E; [congruence|done..].
Qed.

Lemma base_metric_value_kwargs_delete (vk : kwargs) :
  base_metric_value_kwargs vk = delete "result_format" vk.
Proof.
  unfold base_metric_value_kwargs. apply map_eq. intros k.
  destruct (decide (k = "result_format")) as [->|Hk].
  - rewrite lookup_delete_eq. apply map_lookup_filter_None. right.
    intros x _ Hx. by apply Hx.
  - rewrite lookup_delete_ne by done.
    destruct (vk !! k) as [x|] eqn:E.
    + apply map_lookup_filter_Some. done.
    + apply map_lookup_filter_None. by left.
Qed.

Lemma strip_app (base sfx : string) (dk vk : kwargs) :
  sfx ≠ "" →
  strip (mkMetricConfiguration (base +:+ sfx) dk vk) sfx =
  {[ "unexpected_condition" :=
       mkMetricConfiguration base dk (delete "result_format" vk) ]}.
Proof.
  intros Hne. unfold strip. simpl.
  by rewrite slice_to_neg_app, base_metric_value_kwargs_delete.
Qed.

Lemma map_deps_derived (base sfx : string) (dk vk : kwargs) :
  sfx ∈ derived_suffixes →
  map_get_evaluation_dependencies (mkMetricConfiguration (base +:+ sfx) dk vk) =
  {[ "unexpected_condition" :=
       mkMetricConfiguration base dk (delete "result_format" vk) ]}.
Proof.
  unfold derived_suffixes. intros Hin.
  repeat (apply elem_of_cons in Hin as [->|Hin]); [..|by apply elem_of_nil in Hin];
    unfold map_get_evaluation_dependencies; cbn [metric_name];
    repeat first
      [ rewrite endswith_app; by apply strip_app
      | rewrite endswith_other_suffix by (try no_dot; discriminate) ].
Qed.

Lemma map_deps_none (m : MetricConfiguration) :
  (∀ sfx, sfx ∈ derived_suffixes → endswith (metric_name m) sfx = false) →
  map_get_evaluation_dependencies m = ∅.
Proof.
  intros H. unfold map_get_evaluation_dependencies.
  rewrite !H; [done|unfold derived_suffixes; set_solver..].
Qed.

(** The "metric_partial_fn" loop, in closed form. *)
Lemma partial_loop (m : MetricConfiguration) :
  fold_left
    (λ (deps : dependencies) t,
       if endswith (metric_name m) (partial_value t)
       then <["metric_partial_fn" :=
                mkMetricConfiguration (metric_name m)
                  (metric_domain_kwargs m) (metric_value_kwargs m)]> deps
       else deps)
    all_partial_types ∅ =
  if ends_with_partial (metric_name m)
  then {[ "metric_partial_fn" := m ]} else ∅.
Proof.
  unfold ends_with_partial, all_partial_types. destruct m as [n dk vk]. simpl.
  repeat match goal with
         | |- context [endswith n ?s] => destruct (endswith n s)
         end; simpl;
    rewrite ?insert_insert_eq; try done; by rewrite insert_empty.
Qed.

Lemma endswith_last_neq (base sfx p : string) (a b : ascii) (l k : list ascii) :
  reverse (chars sfx) = a :: l → reverse (chars p) = b :: k → a ≠ b →
  endswith (base +:+ sfx) p = false.
Proof.
  intros Hs Hp Hne. apply bool_decide_eq_false.
  rewrite chars_app, suffix_prefix_reverse, reverse_app, Hs, Hp. simpl.
  intros H. by apply prefix_cons_inv_1 in H.
Qed.

Lemma ends_with_partial_false (name : string) :
  (∀ t, endswith name (partial_value t) = false) → ends_with_partial name = false.
Proof.
  intros H. apply not_true_is_false. intros Hx.
  apply existsb_exists in Hx as (t & _ & Ht). by rewrite H in Ht.
Qed.

(** A derived suffix ends in "t" or "s", every partial kind in "n". *)
Lemma derived_not_partial (base sfx : string) :
  sfx ∈ derived_suffixes → ends_with_partial (base +:+ sfx) = false.
Proof.
  unfold derived_suffixes. intros Hin.
  assert (∀ t, endswith (base +:+ sfx) (partial_value t) = false) as H.
  { intros t.
    repeat (apply elem_of_cons in Hin as [->|Hin]); [..|by apply elem_of_nil in Hin];
      destruct t;
      (eapply endswith_last_neq;
       [vm_compute; reflexivity | vm_compute; reflexivity | discriminate]). }
  by apply ends_with_partial_false.
Qed.

Lemma resolver_unfold (cls : provider_class) (m : MetricConfiguration) :
  get_evaluation_dependencies cls m =
  _get_evaluation_dependencies cls m ∪
  (if ends_with_partial (metric_name m)
   then {[ "metric_partial_fn" := m ]} else ∅).
Proof. unfold get_evaluation_dependencies, nested_update. by rewrite partial_loop. Qed.

Lemma child_no_partial_role (cls : provider_class) (m : MetricConfiguration) :
  _get_evaluation_dependencies cls m !! "metric_partial_fn" = None.
Proof.
  destruct cls; simpl; [done|]. unfold map_get_evaluation_dependencies, strip.
  repeat case_match; by simplify_map_eq.
Qed.

(** C1. A metric whose name ends with a derived-metric suffix has exactly one
    dependency, under role "unexpected_condition": the configuration with the
    suffix stripped, the same domain kwargs, and the value kwargs without the
    "result_format" key.  This holds of the map provider's own resolver and
    of the full resolver built on it.  A name that ends with no derived
    suffix and no partial kind has no dependency at all. *)
Theorem derived_metric_dependency (m : MetricConfiguration) :
  (∀ base sfx,
     sfx ∈ derived_suffixes → metric_name m = base +:+ sfx →
     let dep := mkMetricConfiguration base (metric_domain_kwargs m)
                  (delete "result_format" (metric_value_kwargs m)) in
     _get_evaluation_dependencies MapMetricProvider m
       = {[ "unexpected_condition" := dep ]} ∧
     get_evaluation_dependencies MapMetricProvider m
       = {[ "unexpected_condition" := dep ]}) ∧
  ((∀ sfx, sfx ∈ derived_suffixes → endswith (metric_name m) sfx = false) →
   (∀ t, endswith (metric_name m) (partial_value t) = false) →
   _get_evaluation_dependencies MapMetricProvider m = ∅ ∧
   get_evaluation_dependencies MapMetricProvider m = ∅).
Proof.
  split.
  - intros base sfx Hin Hname dep. destruct m as [n dk vk]. simpl in *. subst n.
    rewrite resolver_unfold. simpl.
    rewrite derived_not_partial by done.
    rewrite map_deps_derived by done. split; [done|].
    by rewrite (right_id_L ∅ (∪)).
  - intros Hs Hp. rewrite resolver_unfold. simpl.
    rewrite map_deps_none by done. split; [done|].
    rewrite ends_with_partial_false by done.
    by rewrite (right_id_L ∅ (∪)).
Qed.

Lemma derived_metric_dependency_witness :
  get_evaluation_dependencies MapMetricProvider spec_example_metric
    = {[ "unexpected_condition" :=
           mkMetricConfiguration "col.unique" {[ "column" := VStr "a" ]}
             (delete "result_format"
                {[ "result_format" := VStr "BASIC"; "threshold" := VInt 5 ]}) ]}
  ∧ get_evaluation_dependencies MapMetricProvider
      (mkMetricConfiguration "table.row_count" ∅ ∅) = ∅.
Proof.
  split.
  - apply (proj1 (derived_metric_dependency spec_example_metric)
             "col.unique" ".unexpected_count").
    + unfold derived_suffixes. apply elem_of_cons. by left.
    + reflexivity.
  - apply (proj2 (derived_metric_dependency
                    (mkMetricConfiguration "table.row_count" ∅ ∅))).
    + intros sfx Hin. unfold derived_suffixes in Hin.
      repeat (apply elem_of_cons in Hin as [->|Hin]); [..|by apply elem_of_nil in Hin];
        by vm_compute.
    + intros t. destruct t; by vm_compute.
Defined.

(** C3 (as amended). The resolver decides by the metric's name: a
    configuration whose name ends with the value of a partial function kind
    gets the dependency "metric_partial_fn", which is the configuration
    itself; a configuration whose name ends with none of them gets no
    dependency under that role. *)
Theorem partial_fn_dependency_by_name (cls : provider_class) (m : MetricConfiguration) :
  ((∃ t, endswith (metric_name m) (partial_value t) = true) →
   get_evaluation_dependencies cls m !! "metric_partial_fn" = Some m) ∧
  ((∀ t, endswith (metric_name m) (partial_value t) = false) →
   get_evaluation_dependencies cls m !! "metric_partial_fn" = None).
Proof.
  rewrite resolver_unfold. split.
  - intros [t Ht].
    assert (ends_with_partial (metric_name m) = true) as ->.
    { unfold ends_with_partial. apply existsb_exists. exists t. split; [|done].
      destruct t; unfold all_partial_types; simpl; tauto. }
    rewrite lookup_union_r by apply child_no_partial_role.
    by rewrite lookup_singleton_eq.
  - intros Hp.
    rewrite ends_with_partial_false by done.
    rewrite (right_id_L ∅ (∪)). apply child_no_partial_role.
Qed.

Lemma partial_fn_dependency_by_name_witness :
  get_evaluation_dependencies MetricProvider
    (mkMetricConfiguration "column.aggregate.sum.aggregate_fn" ∅ ∅)
    !! "metric_partial_fn"
  = Some (mkMetricConfiguration "column.aggregate.sum.aggregate_fn" ∅ ∅)
  ∧ get_evaluation_dependencies MetricProvider
      (mkMetricConfiguration "column.aggregate.sum" ∅ ∅)
      !! "metric_partial_fn" = None.
Proof.
  split.
  - apply (proj1 (partial_fn_dependency_by_name MetricProvider
                    (mkMetricConfiguration "column.aggregate.sum.aggregate_fn" ∅ ∅))).
    exists P_AGGREGATE_FN. by vm_compute.
  - apply (proj2 (partial_fn_dependency_by_name MetricProvider
                    (mkMetricConfiguration "column.aggregate.sum" ∅ ∅))).
    intros t. destruct t; by vm_compute.
Defined.

(** ** Registration *)

Example metric_partial_fn_tags :
  metric_partial_fn SqlAlchemyExecutionEngine "aggregate_fn" "column" ∅
    = Ok sql_aggregate_method
  ∧ column_condition_partial_decl SqlAlchemyExecutionEngine "map_condition_fn" ∅
    = Ok sql_condition_method.
Proof. split; reflexivity. Qed.

(** The in-memory backend admits only "map_condition_series", which is not a
    value of [MetricPartialFunctionTypes]. *)
Example pandas_condition_partial_decl (ty : string) (kw : kwargs) :
  ∃ msg, column_condition_partial_decl PandasExecutionEngine ty kw = Raise (ValueError msg).
Proof.
  unfold column_condition_partial_decl. simpl.
  destruct (String.eqb ty "map_condition_series") eqn:E; simpl; [|eauto].
  apply String.eqb_eq in E as ->. eauto.
Qed.

(** C3, counterexample.  Defining [ColumnSum] registers
    "column.aggregate.sum" for the SQL backend with function kind
    [aggregate_fn], a partial kind; the resolver gives that metric no
    "metric_partial_fn" dependency, because its name does not end with the
    kind. *)
Lemma partial_kind_without_dependency :
  let r := (define_class column_sum_cls empty_registry).2 in
  let m := mkMetricConfiguration "column.aggregate.sum" ∅ ∅ in
  (define_class column_sum_cls empty_registry).1 = Ok tt ∧
  (∃ e, lookup_metric r (metric_name m) SqlAlchemyExecutionEngine = Ok e ∧
        fn_kind (e_fn_type e) = "aggregate_fn") ∧
  is_partial_kind "aggregate_fn" = true ∧
  get_evaluation_dependencies MetricProvider m !! "metric_partial_fn" = None ∧
  get_evaluation_dependencies MetricProvider m = ∅.
Proof.
  split; [by vm_compute|]. split; [eexists; split; by vm_compute|].
  repeat split; by vm_compute.
Qed.

Lemma sfor_raises {S A} (body : A → M S unit) (pre post : list A) (x : A) :
  (∀ s, ∃ e, (body x s).1 = Raise e) →
  ∀ s, ∃ e, (sfor (pre ++ x :: post) body s).1 = Raise e.
Proof.
  intros Hx. induction pre as [|y pre IH]; intros s; simpl.
  - unfold sbind. destruct (Hx s) as [e He].
    destruct (body x s) as [[[]|e'] s']; simpl in *; [done|eauto].
  - unfold sbind. destruct (body y s) as [[[]|e'] s']; simpl; [apply IH|eauto].
Qed.

Lemma sfor_skip {S A} (body : A → M S unit) (pre rest : list A) (s : S) :
  Forall (λ y, body y s = (Ok tt, s)) pre →
  sfor (pre ++ rest) body s = sfor rest body s.
Proof.
  induction 1 as [|y pre Hy _ IH]; simpl; [done|].
  unfold sbind at 1. by rewrite Hy.
Qed.

Lemma map_register_one_missing (cls : provider_cls) (name : string)
    (obj : attr_obj) (engine : engine_class) (ft : fn_type_obj) (r : registry) :
  a_metric_engine obj = Some engine → is_execution_engine engine = true →
  a_metric_fn_type obj = Some ft →
  required_name cls ft = Some None →
  map_register_one cls (name, obj) r = (Raise (missing_name_error ft), r).
Proof.
  intros He Hsub Hft Hreq. unfold map_register_one, required_name, missing_name_error in *.
  rewrite He, Hft, Hsub. simpl.
  destruct (fn_type_eq_str ft "window_condition_fn" || fn_type_eq_str ft "map_condition_fn").
  - injection Hreq as ->. done.
  - destruct (fn_type_eq_str ft "map_fn"); [|done]. injection Hreq as ->. done.
Qed.

(** C8 (as amended).  For a map-metric provider class that declares at least
    one of [condition_metric_name] and [function_metric_name]: if the class
    has a method with an execution engine whose [metric_fn_type] attribute
    equals "window_condition_fn" or "map_condition_fn" while
    [condition_metric_name] is missing, or equals "map_fn" while
    [function_metric_name] is missing, then defining the class raises; when
    no attribute before that method is a metric, the error is the
    [ValueError] about the missing name and nothing has been registered. *)
Theorem missing_base_name_raises (cls : provider_cls)
    (pre post : list (string * attr_obj)) (name : string) (obj : attr_obj)
    (engine : engine_class) (ft : fn_type_obj) (r : registry) :
  c_kind cls = MapMetricProvider →
  is_Some (c_condition_metric_name cls) ∨ is_Some (c_function_metric_name cls) →
  c_dict cls = pre ++ (name, obj) :: post →
  a_metric_engine obj = Some engine → is_execution_engine engine = true →
  a_metric_fn_type obj = Some ft →
  required_name cls ft = Some None →
  (∃ e, (define_class cls r).1 = Raise e) ∧
  (Forall (λ a, a_metric_engine a.2 = None) pre →
   define_class cls r = (Raise (missing_name_error ft), r)).
Proof.
  intros Hk Hname Hd He Hsub Hft Hreq.
  assert (define_class cls r = sfor (c_dict cls) (map_register_one cls) r) as ->.
  { unfold define_class, map_register_metric_functions. rewrite Hk.
    destruct Hname as [[n Hn]|[n Hn]]; rewrite Hn; [|by destruct (c_function_metric_name cls)].
    by destruct (c_function_metric_name cls). }
  rewrite Hd. split.
  - apply (sfor_raises (map_register_one cls) pre post (name, obj)).
    intros s. exists (missing_name_error ft).
    by rewrite (map_register_one_missing cls name obj engine ft s).
  - intros Hpre. rewrite sfor_skip.
    + cbn [sfor]. unfold sbind.
      by rewrite (map_register_one_missing cls name obj engine ft r).
    + eapply Forall_impl; [exact Hpre|]. intros [n o] Ho. simpl in *.
      unfold map_register_one. by rewrite Ho.
Qed.

Lemma missing_base_name_raises_witness :
  define_class function_named_map_cls empty_registry
  = (Raise (ValueError "A MapMetricProvider must have a metric_condition_name to have a decorated column_condition_partial method."),
     empty_registry).
Proof.
  apply (proj2 (missing_base_name_raises function_named_map_cls [] []
                  "_sqlalchemy" sql_condition_method_str
                  SqlAlchemyExecutionEngine (FnStr "map_condition_fn")
                  empty_registry
                  eq_refl (or_intror (mk_is_Some _ _ eq_refl))
                  eq_refl eq_refl eq_refl eq_refl eq_refl)).
  constructor.
Defined.

(** C8, counterexample.  A map-metric provider class that declares a
    condition method and neither base metric name is defined without any
    error, and nothing is registered for its method. *)
Lemma nameless_class_defined_silently :
  c_condition_metric_name nameless_map_cls = None ∧
  (∃ obj, c_dict nameless_map_cls = [("_sqlalchemy", obj)] ∧
          a_metric_engine obj = Some SqlAlchemyExecutionEngine ∧
          (fn_kind <$> a_metric_fn_type obj) = Some "map_condition_fn") ∧
  define_class nameless_map_cls empty_registry = (Ok tt, empty_registry).
Proof. split; [done|]. split; [|done]. eexists. repeat split. Qed.

(** ** The in-memory backend *)

Lemma getitem_Some {A} (d : gmap string A) (k : string) (v : A) :
  d !! k = Some v → getitem d k = Ok v.
Proof. intros H. unfold getitem. by rewrite H. Qed.

Lemma series_eq_True_id (m : Series bool) : series_eq_True m = m.
Proof.
  unfold series_eq_True. induction m as [|[i b] m IH]; simpl; [done|].
  rewrite IH. by destruct b.
Qed.

Lemma bool_index_aligned {A} (rows : Series A) (mask : Series bool) :
  rows.*1 = mask.*1 → bool_index rows mask = Ok (keep_by_position rows (mask.*2)).
Proof. intros H. unfold bool_index. by rewrite bool_decide_eq_true_2. Qed.

Lemma keep_by_position_zip {A} (rows : list A) (mask : list bool) :
  keep_by_position rows mask = (List.filter snd (zip rows mask)).*1.
Proof.
  revert mask. induction rows as [|x rows IH]; intros [|b mask]; simpl; try done.
  destruct b; simpl; by rewrite IH.
Qed.

(** Masking a frame by the non-null test of one of its columns, then reading
    that column, gives the column without its null entries. *)
Lemma notnull_column_values (col : pyval) (rows : list (Z * list (pyval * pyval))) :
  (notnull (map (λ r, (r.1, cell col r.2)) rows)).*2
  = map (λ r, negb (is_null (cell col r.2))) rows.
Proof. unfold notnull. by rewrite <- !list_fmap_compose. Qed.

Lemma keep_notnull (col : pyval) (rows : list (Z * list (pyval * pyval))) :
  map (λ r, (r.1, cell col r.2))
    (keep_by_position rows (notnull (map (λ r, (r.1, cell col r.2)) rows)).*2)
  = drop_nulls (map (λ r, (r.1, cell col r.2)) rows).
Proof.
  rewrite notnull_column_values. unfold drop_nulls.
  induction rows as [|[i r] rows IH]; [done|].
  cbn [map keep_by_position List.filter fst snd].
  destruct (is_null (cell col r)); cbn [negb map]; by rewrite IH.
Qed.

Lemma column_of_notnull (df : DataFrame) (col : pyval) (s : Series pyval) :
  df_column df col = Ok s →
  ∃ df', df_mask df (notnull s) = Ok df' ∧ df_column df' col = Ok (drop_nulls s).
Proof.
  unfold df_column, df_mask. destruct df as [cols rows]. simpl.
  destruct (existsb (py_eqb col) cols) eqn:Hc; [|done]. intros [= <-].
  rewrite bool_index_aligned.
  2:{ unfold notnull. rewrite <- !list_fmap_compose. done. }
  eexists. split; [done|]. cbn [df_columns df_rows]. rewrite Hc. f_equal.
  apply keep_notnull.
Qed.

Lemma filter_nulls_column (flag : pyval) (df : DataFrame) (adk : kwargs)
    (col : pyval) (s : Series pyval) :
  adk !! "column" = Some col → df_column df col = Ok s →
  ∃ df', filter_nulls flag df adk = Ok df' ∧
         df_column df' col = Ok (if truthy flag then drop_nulls s else s).
Proof.
  intros Hcol Hs. unfold filter_nulls. destruct (truthy flag).
  - rewrite (getitem_Some _ _ _ Hcol). simpl. rewrite Hs. simpl.
    by apply column_of_notnull.
  - eauto.
Qed.

(** *** The null-filter flag of the two authoring shapes *)

Lemma filter_flag_given (kw : kwargs) (cls : provider_cls) (dflt : bool) (flag : pyval) :
  kw !! "filter_column_isnull" = Some flag →
  filter_column_isnull_flag kw cls dflt = flag.
Proof. intros H. unfold filter_column_isnull_flag. by rewrite H. Qed.

Lemma filter_flag_absent (kw : kwargs) (cls : provider_cls) (dflt : bool) :
  kw !! "filter_column_isnull" = None →
  filter_column_isnull_flag kw cls dflt
  = default (VBool dflt) (c_filter_column_isnull cls).
Proof. intros H. unfold filter_column_isnull_flag. by rewrite H. Qed.

Lemma filter_flag_off (kw : kwargs) (cls : provider_cls) (dflt : bool) :
  filter_column_isnull_flag (<["filter_column_isnull" := VBool false]> kw) cls dflt
  = VBool false.
Proof. apply filter_flag_given, lookup_insert_eq. Qed.

(** Each partial in terms of the same partial declared with
    [filter_column_isnull=False], by the value of its flag. *)
Lemma sqlalchemy_function_by_flag
    (kw : kwargs) (fn : sa_expr → kwargs → string → result sa_expr)
    (cls : provider_cls) (eng : SqlEngine) (dk vk : kwargs) :
  sqlalchemy_function_partial kw fn cls eng dk vk
  = if truthy (filter_column_isnull_flag kw cls false)
    then d ← sql_add_column_row_condition eng dk;
         sqlalchemy_function_partial (<["filter_column_isnull" := VBool false]> kw)
           fn cls eng d vk
    else sqlalchemy_function_partial (<["filter_column_isnull" := VBool false]> kw)
           fn cls eng dk vk.
Proof.
  unfold sqlalchemy_function_partial. rewrite filter_flag_off.
  by destruct (truthy (filter_column_isnull_flag kw cls false)).
Qed.

Lemma spark_function_by_flag
    (kw : kwargs) (fn : SparkColumn → kwargs → kwargs → result SparkColumn)
    (cls : provider_cls) (eng : SparkEngine) (dk vk : kwargs) :
  spark_function_partial kw fn cls eng dk vk
  = if truthy (filter_column_isnull_flag kw cls false)
    then d ← sp_add_column_row_condition eng dk;
         spark_function_partial (<["filter_column_isnull" := VBool false]> kw)
           fn cls eng d vk
    else spark_function_partial (<["filter_column_isnull" := VBool false]> kw)
           fn cls eng dk vk.
Proof.
  unfold spark_function_partial. rewrite filter_flag_off.
  by destruct (truthy (filter_column_isnull_flag kw cls false)).
Qed.

Lemma sqlalchemy_condition_by_flag
    (kw : kwargs) (fn : sa_expr → kwargs → string → result sa_expr)
    (cls : provider_cls) (eng : SqlEngine) (dk vk : kwargs)
    (sel : string) (cdk adk : kwargs) (name : pyval) :
  sql_get_compute_domain eng dk (Some "column") = Ok (sel, cdk, adk) →
  adk !! "column" = Some name →
  sqlalchemy_condition_partial kw fn cls eng dk vk
  = if truthy (filter_column_isnull_flag kw cls true)
    then '(c, k) ← sqlalchemy_condition_partial
                     (<["filter_column_isnull" := VBool false]> kw) fn cls eng dk vk;
         Ok (SaAnd (SaNot (SaIsNone (SaColumn name))) c, k)
    else sqlalchemy_condition_partial (<["filter_column_isnull" := VBool false]> kw)
           fn cls eng dk vk.
Proof.
  intros Hdom Hcol. unfold sqlalchemy_condition_partial.
  rewrite filter_flag_off, Hdom. simpl. rewrite (getitem_Some _ _ _ Hcol). simpl.
  destruct (spread vk _) as [vk'|e]; simpl;
    [|by destruct (truthy (filter_column_isnull_flag kw cls true))].
  destruct (fn (SaColumn name) vk' sel) as [c|e]; simpl;
    by destruct (truthy (filter_column_isnull_flag kw cls true)).
Qed.

Lemma spark_condition_by_flag
    (kw : kwargs)
    (fn : SparkColumn → kwargs → SparkDF → kwargs → kwargs → result BoolColumn)
    (cls : provider_cls) (eng : SparkEngine) (dk vk : kwargs)
    (data : SparkDF) (cdk adk : kwargs) (name : pyval) (column : SparkColumn) :
  sp_get_compute_domain eng dk (Some "column") = Ok (data, cdk, adk) →
  adk !! "column" = Some name →
  spark_getitem data name = Ok column →
  spark_condition_partial "map_condition_fn" kw fn cls eng dk vk
  = (if truthy (filter_column_isnull_flag kw cls true)
     then '(c, k) ← spark_condition_partial "map_condition_fn"
                      (<["filter_column_isnull" := VBool false]> kw) fn cls eng dk vk;
          Ok (col_and (isNotNull column) c, k)
     else spark_condition_partial "map_condition_fn"
            (<["filter_column_isnull" := VBool false]> kw) fn cls eng dk vk)
  ∧
  spark_condition_partial "window_condition_fn" kw fn cls eng dk vk
  = (if truthy (filter_column_isnull_flag kw cls true)
     then '(c, _) ← spark_condition_partial "window_condition_fn"
                      (<["filter_column_isnull" := VBool false]> kw) fn cls eng dk vk;
          k ← sp_add_column_row_condition eng dk;
          Ok (c, k)
     else spark_condition_partial "window_condition_fn"
            (<["filter_column_isnull" := VBool false]> kw) fn cls eng dk vk).
Proof.
  intros Hdom Hcol Hget. unfold spark_condition_partial.
  rewrite filter_flag_off, Hdom. simpl. rewrite (getitem_Some _ _ _ Hcol). simpl.
  rewrite Hget. simpl.
  destruct (spread vk _) as [vk'|e]; simpl;
    [|by destruct (truthy (filter_column_isnull_flag kw cls true))].
  destruct (fn column vk' data cdk adk) as [c|e]; simpl;
    by destruct (truthy (filter_column_isnull_flag kw cls true)).
Qed.

(** The conjunction with the non-null test is false on a null cell. *)
Lemma col_and_isNotNull_null (column : SparkColumn) (c : BoolColumn) (row : SparkRow) :
  column row = VNone → col_and (isNotNull column) c row = Some false.
Proof. intros H. unfold col_and, isNotNull. by rewrite H. Qed.

(** C4 (as amended).  On the SQL and distributed backends, a partial
    declared without [filter_column_isnull] takes the flag from the
    [filter_column_isnull] attribute of the provider class if the class has
    one; the shape default applies only to a class without the attribute:
    true for a condition partial, false for a function partial.  With a
    false flag a partial behaves as one declared with
    [filter_column_isnull=False].  With a true flag a function partial does
    the same on the domain kwargs [add_column_row_condition] returns; a
    condition partial of the SQL engine, or of kind "map_condition_fn" on
    the distributed engine, conjoins the non-null test of the column to
    the condition, so that no row whose column is null is unexpected; and
    one of kind "window_condition_fn" returns the kwargs of
    [add_column_row_condition] as compute domain kwargs. *)
Theorem null_filter_default_by_shape (decl_kw : kwargs) (cls : provider_cls) :
  decl_kw !! "filter_column_isnull" = None →
  let unfiltered := <["filter_column_isnull" := VBool false]> decl_kw in
  let condition_flag := truthy (default (VBool true) (c_filter_column_isnull cls)) in
  let function_flag := truthy (default (VBool false) (c_filter_column_isnull cls)) in
  (∀ fn eng dk vk,
     sqlalchemy_function_partial decl_kw fn cls eng dk vk
     = if function_flag
       then d ← sql_add_column_row_condition eng dk;
            sqlalchemy_function_partial unfiltered fn cls eng d vk
       else sqlalchemy_function_partial unfiltered fn cls eng dk vk) ∧
  (∀ fn eng dk vk,
     spark_function_partial decl_kw fn cls eng dk vk
     = if function_flag
       then d ← sp_add_column_row_condition eng dk;
            spark_function_partial unfiltered fn cls eng d vk
       else spark_function_partial unfiltered fn cls eng dk vk) ∧
  (∀ fn eng dk vk sel cdk adk name,
     sql_get_compute_domain eng dk (Some "column") = Ok (sel, cdk, adk) →
     adk !! "column" = Some name →
     sqlalchemy_condition_partial decl_kw fn cls eng dk vk
     = if condition_flag
       then '(c, k) ← sqlalchemy_condition_partial unfiltered fn cls eng dk vk;
            Ok (SaAnd (SaNot (SaIsNone (SaColumn name))) c, k)
       else sqlalchemy_condition_partial unfiltered fn cls eng dk vk) ∧
  (∀ fn eng dk vk data cdk adk name column,
     sp_get_compute_domain eng dk (Some "column") = Ok (data, cdk, adk) →
     adk !! "column" = Some name →
     spark_getitem data name = Ok column →
     spark_condition_partial "map_condition_fn" decl_kw fn cls eng dk vk
     = (if condition_flag
        then '(c, k) ← spark_condition_partial "map_condition_fn" unfiltered
                         fn cls eng dk vk;
             Ok (col_and (isNotNull column) c, k)
        else spark_condition_partial "map_condition_fn" unfiltered fn cls eng dk vk)
     ∧
     (condition_flag = true →
      ∀ c k row,
        spark_condition_partial "map_condition_fn" decl_kw fn cls eng dk vk = Ok (c, k) →
        column row = VNone → c row = Some false)
     ∧
     spark_condition_partial "window_condition_fn" decl_kw fn cls eng dk vk
     = (if condition_flag
        then '(c, _) ← spark_condition_partial "window_condition_fn" unfiltered
                         fn cls eng dk vk;
             k ← sp_add_column_row_condition eng dk;
             Ok (c, k)
        else spark_condition_partial "window_condition_fn" unfiltered fn cls eng dk vk)).
Proof.
  intros Hkw unfiltered condition_flag function_flag.
  subst unfiltered condition_flag function_flag.
  rewrite <- (filter_flag_absent decl_kw cls true Hkw),
          <- (filter_flag_absent decl_kw cls false Hkw).
  split; [|split; [|split]].
  - intros. apply sqlalchemy_function_by_flag.
  - intros. apply spark_function_by_flag.
  - intros. by eapply sqlalchemy_condition_by_flag.
  - intros fn eng dk vk data cdk adk name column Hdom Hcol Hget.
    destruct (spark_condition_by_flag decl_kw fn cls eng dk vk data cdk adk name column
                Hdom Hcol Hget) as [Hmap Hwin].
    split; [exact Hmap|]. split; [|exact Hwin].
    intros Hflag c k row Hres Hnull. rewrite Hmap, Hflag in Hres.
    destruct (spark_condition_partial "map_condition_fn"
                (<["filter_column_isnull" := VBool false]> decl_kw) fn cls eng dk vk)
      as [[c0 k0]|e]; simpl in Hres; [|discriminate Hres].
    injection Hres as <- _. by apply col_and_isNotNull_null.
Qed.

Lemma null_filter_default_by_shape_witness :
  (* a class without the attribute: the function partial keeps the domain *)
  (∃ f, spark_function_partial ∅ spark_identity some_plain_provider
          spark_example_engine column_a ∅
        = Ok (f, column_a, column_a)) ∧
  (* a map-metric provider: the class attribute, also for the function partial *)
  (∃ f, spark_function_partial ∅ spark_identity some_map_provider
          spark_example_engine column_a ∅
        = Ok (f, filtered_column_a, column_a)).
Proof.
  split.
  - rewrite (proj1 (proj2 (null_filter_default_by_shape ∅ some_plain_provider
                             (lookup_empty _)))).
    eexists. vm_compute. reflexivity.
  - rewrite (proj1 (proj2 (null_filter_default_by_shape ∅ some_map_provider
                             (lookup_empty _)))).
    eexists. vm_compute. reflexivity.
Defined.

(** On the column [[1, None, 3]] and a class without the attribute, the
    condition "greater than 2" declared without [filter_column_isnull]
    reports row 1 only, and the count over it is 1; declared with
    [filter_column_isnull=False] it reports the null row too. *)
Example condition_partial_on_nullable_column :
  ('(c, k) ← spark_condition_partial "map_condition_fn" ∅ spark_greater_than_two
               some_plain_provider spark_example_engine column_a ∅;
   n ← _spark_map_unexpected_count_data spark_example_engine column_a ∅
          {[ "unexpected_condition" := (as_cells c, k) ]};
   Ok (map c spark_example_table, n))
  = Ok ([Some true; Some false; Some false], 1)
  ∧
  ('(c, k) ← spark_condition_partial "map_condition_fn"
               {[ "filter_column_isnull" := VBool false ]} spark_greater_than_two
               some_plain_provider spark_example_engine column_a ∅;
   n ← _spark_map_unexpected_count_data spark_example_engine column_a ∅
          {[ "unexpected_condition" := (as_cells c, k) ]};
   Ok (map c spark_example_table, n))
  = Ok ([Some true; Some true; Some false], 2)
  ∧
  sqlalchemy_condition_partial ∅ sql_greater_than_two some_plain_provider
    sql_example_engine column_a ∅
  = Ok (SaAnd (SaNot (SaIsNone (SaColumn (VStr "a")))) (SaNot (SaFragment "a > 2")),
        column_a).
Proof. repeat split; vm_compute; reflexivity. Qed.

(** C4, counterexample.  The decorator accepts a function partial of kind
    "map_fn" for the distributed and the SQL engine.  Declared without
    [filter_column_isnull] on a map-metric provider class, whose
    [filter_column_isnull] is [True], it does filter nulls: the compute
    domain kwargs it returns carry the row condition, and of the column
    [[1, None, 3]] they select the rows 1 and 3 only. *)
Lemma function_partial_filters_nulls :
  (∃ tag, column_function_partial_decl SparkDFExecutionEngine "map_fn" ∅ = Ok tag) ∧
  (∃ tag, column_function_partial_decl SqlAlchemyExecutionEngine "map_fn" ∅ = Ok tag) ∧
  c_filter_column_isnull some_map_provider = Some (VBool true) ∧
  sp_get_compute_domain spark_example_engine column_a (Some "column")
  = Ok ([[("a", VInt 1)]; [("a", VNone)]; [("a", VInt 3)]], column_a, column_a) ∧
  (∃ f, spark_function_partial ∅ spark_identity some_map_provider
          spark_example_engine column_a ∅
        = Ok (f, filtered_column_a, column_a)) ∧
  sp_get_compute_domain spark_example_engine filtered_column_a (Some "column")
  = Ok ([[("a", VInt 1)]; [("a", VInt 3)]], filtered_column_a, column_a) ∧
  sqlalchemy_function_partial ∅ sql_length some_map_provider
    sql_example_engine column_a ∅
  = Ok (SaFragment "length(a)", filtered_column_a, column_a).
Proof.
  split; [by eexists|]. split; [by eexists|]. split; [reflexivity|].
  split; [vm_compute; reflexivity|]. split; [eexists; vm_compute; reflexivity|].
  split; vm_compute; reflexivity.
Qed.

(** *** unexpected_values *)

Lemma pandas_values_by_format
    (cls : provider_cls) (engine : PandasEngine) (dk vk : kwargs)
    (metrics : gmap string (Series bool * kwargs * kwargs)) (call_kw : kwargs)
    (mask : Series bool) (cdk adk0 cdk' adk : kwargs) (df : DataFrame)
    (col : pyval) (s : Series pyval) (rf : list (string * pyval)) (fmt : pyval) :
  metrics !! "unexpected_condition" = Some (mask, cdk, adk0) →
  pd_get_compute_domain engine cdk None = Ok (df, cdk', adk) →
  adk !! "column" = Some col →
  df_column df col = Ok s →
  let data := if truthy (filter_column_isnull_flag call_kw cls false)
              then drop_nulls s else s in
  data.*1 = mask.*1 →
  vk !! "result_format" = Some (VDict rf) →
  assoc "result_format" rf = Some fmt →
  let sel := (List.filter snd (zip data (mask.*2))).*1 in
  _pandas_column_map_values cls engine dk vk metrics call_kw
  = if py_eqb fmt (VStr "COMPLETE") then Ok (sel.*2)
    else n ← subscript (VDict rf) "partial_unexpected_count";
         cut ← series_slice_to sel n; Ok (cut.*2).
Proof.
  intros Hdep Hdom Hcol Hs data Halign Hrf Hfmt sel.
  unfold _pandas_column_map_values. rewrite Hdep. simpl. rewrite Hdom. simpl.
  destruct (filter_nulls_column (filter_column_isnull_flag call_kw cls false)
              df adk col s Hcol Hs) as (df' & -> & Hc). simpl.
  rewrite (getitem_Some _ _ _ Hcol). simpl. rewrite Hc. simpl.
  rewrite (getitem_Some _ _ _ Hrf). simpl. rewrite Hfmt. simpl.
  fold data. rewrite series_eq_True_id, bool_index_aligned by done.
  rewrite keep_by_position_zip. fold sel. simpl.
  by destruct (py_eqb fmt (VStr "COMPLETE")).
Qed.

(** C7 (as amended).  When the condition carries exactly the row labels of
    the column the provider itself selects (the column of the recorded
    compute domain, without its null rows if the provider filters them),
    and is true on ten of its values: with result format BASIC and
    [partial_unexpected_count] 3 the in-memory [unexpected_values]
    provider returns the first three of them in row order; with result
    format COMPLETE it returns all ten. *)
Theorem unexpected_values_truncation
    (cls : provider_cls) (engine : PandasEngine) (dk vk : kwargs)
    (metrics : gmap string (Series bool * kwargs * kwargs)) (call_kw : kwargs)
    (mask : Series bool) (cdk adk0 cdk' adk : kwargs) (df : DataFrame)
    (col : pyval) (s : Series pyval) :
  metrics !! "unexpected_condition" = Some (mask, cdk, adk0) →
  pd_get_compute_domain engine cdk None = Ok (df, cdk', adk) →
  adk !! "column" = Some col →
  df_column df col = Ok s →
  let data := if truthy (filter_column_isnull_flag call_kw cls false)
              then drop_nulls s else s in
  data.*1 = mask.*1 →
  let unexpected := (List.filter snd (zip data (mask.*2))).*1.*2 in
  length unexpected = 10%nat →
  (vk !! "result_format" = Some (basic_format 3) →
   _pandas_column_map_values cls engine dk vk metrics call_kw
   = Ok (take 3 unexpected)) ∧
  (vk !! "result_format" = Some complete_format →
   _pandas_column_map_values cls engine dk vk metrics call_kw
   = Ok unexpected ∧
   ∃ vs, _pandas_column_map_values cls engine dk vk metrics call_kw = Ok vs
         ∧ length vs = 10%nat).
Proof.
  intros Hdep Hdom Hcol Hs data Halign unexpected Hten. split.
  - intros Hrf.
    rewrite (pandas_values_by_format cls engine dk vk metrics call_kw mask
               cdk adk0 cdk' adk df col s _ (VStr "BASIC")
               Hdep Hdom Hcol Hs Halign Hrf eq_refl).
    simpl. by rewrite fmap_take.
  - intros Hrf.
    rewrite (pandas_values_by_format cls engine dk vk metrics call_kw mask
               cdk adk0 cdk' adk df col s _ (VStr "COMPLETE")
               Hdep Hdom Hcol Hs Halign Hrf eq_refl).
    simpl. eauto.
Qed.

Lemma unexpected_values_truncation_witness :
  _pandas_column_map_values some_map_provider (table_engine twelve_frame)
    column_a {[ "result_format" := basic_format 3 ]}
    {[ "unexpected_condition" := (ten_of_twelve, column_a, column_a) ]} ∅
  = Ok [VInt 10; VInt 11; VInt 13]
  ∧
  _pandas_column_map_values some_map_provider (table_engine twelve_frame)
    column_a {[ "result_format" := complete_format ]}
    {[ "unexpected_condition" := (ten_of_twelve, column_a, column_a) ]} ∅
  = Ok (map VInt [10; 11; 13; 14; 15; 16; 18; 19; 20; 21]).
Proof.
  destruct (unexpected_values_truncation some_map_provider
              (table_engine twelve_frame) column_a
              {[ "result_format" := basic_format 3 ]}
              {[ "unexpected_condition" := (ten_of_twelve, column_a, column_a) ]}
              ∅ ten_of_twelve column_a column_a column_a column_a
              twelve_frame (VStr "a") twelve_column) as [Hbasic _];
    [vm_compute; reflexivity..|].
  destruct (unexpected_values_truncation some_map_provider
              (table_engine twelve_frame) column_a
              {[ "result_format" := complete_format ]}
              {[ "unexpected_condition" := (ten_of_twelve, column_a, column_a) ]}
              ∅ ten_of_twelve column_a column_a column_a column_a
              twelve_frame (VStr "a") twelve_column) as [_ Hcomplete];
    [vm_compute; reflexivity..|].
  split.
  - rewrite Hbasic by (vm_compute; reflexivity). reflexivity.
  - destruct Hcomplete as [-> _]; [vm_compute; reflexivity|]. reflexivity.
Defined.

(** C7, counterexample.  A condition whose row labels differ from those of
    the provider's column.  On a class without [filter_column_isnull] the
    provider selects all thirteen rows; a condition over the twelve
    non-null rows, true on ten of them, does not cover row 0 and both
    result formats raise.  On a map-metric provider the provider drops the
    null row; of a condition over all thirteen rows that is true on the
    first ten it keeps the nine non-null ones: COMPLETE returns nine
    values, and BASIC with count 3 returns the values of rows 1 to 3, not
    those of the first three rows on which the condition is true. *)
Lemma unexpected_values_misaligned :
  length (List.filter snd ten_of_nonnull) = 10%nat ∧
  _pandas_column_map_values some_plain_provider (table_engine thirteen_frame)
    column_a {[ "result_format" := basic_format 3 ]}
    {[ "unexpected_condition" := (ten_of_nonnull, column_a, column_a) ]} ∅
  = Raise IndexingError ∧
  _pandas_column_map_values some_plain_provider (table_engine thirteen_frame)
    column_a {[ "result_format" := complete_format ]}
    {[ "unexpected_condition" := (ten_of_nonnull, column_a, column_a) ]} ∅
  = Raise IndexingError ∧
  length (List.filter snd first_ten_of_thirteen) = 10%nat ∧
  _pandas_column_map_values some_map_provider (table_engine thirteen_frame)
    column_a {[ "result_format" := complete_format ]}
    {[ "unexpected_condition" := (first_ten_of_thirteen, column_a, column_a) ]} ∅
  = Ok (map VInt [10; 11; 12; 13; 14; 15; 16; 17; 18]) ∧
  _pandas_column_map_values some_map_provider (table_engine thirteen_frame)
    column_a {[ "result_format" := basic_format 3 ]}
    {[ "unexpected_condition" := (first_ten_of_thirteen, column_a, column_a) ]} ∅
  = Ok [VInt 10; VInt 11; VInt 12].
Proof. repeat split; vm_compute; reflexivity. Qed.

(** *** unexpected_rows *)

(** Outside result format COMPLETE the provider subscripts the selected
    rows with the count itself, [rows[n]], which is a column lookup. *)
Lemma pandas_rows_by_format
    (cls : provider_cls) (engine : PandasEngine) (dk vk : kwargs)
    (metrics : gmap string (Series bool)) (call_kw : kwargs)
    (mask : Series bool) (cdk adk : kwargs) (df df' : DataFrame)
    (rf : list (string * pyval)) (fmt : pyval) :
  metrics !! "unexpected_condition" = Some mask →
  pd_get_compute_domain engine dk None = Ok (df, cdk, adk) →
  filter_nulls (filter_column_isnull_flag call_kw cls false) df adk = Ok df' →
  (df_rows df').*1 = mask.*1 →
  vk !! "result_format" = Some (VDict rf) →
  assoc "result_format" rf = Some fmt →
  let sel := mkDF (df_columns df') (List.filter snd (zip (df_rows df') (mask.*2))).*1 in
  _pandas_column_map_rows cls engine dk vk metrics call_kw
  = if py_eqb fmt (VStr "COMPLETE") then Ok (PFrame sel)
    else n ← subscript (VDict rf) "partial_unexpected_count";
         c ← df_column sel n; Ok (PSeries c).
Proof.
  intros Hdep Hdom Hflt Halign Hrf Hfmt sel.
  unfold _pandas_column_map_rows. rewrite Hdom. simpl. rewrite Hflt. simpl.
  rewrite (getitem_Some _ _ _ Hrf). simpl. rewrite Hfmt, Hdep. simpl.
  unfold df_mask. rewrite series_eq_True_id, bool_index_aligned by done.
  rewrite keep_by_position_zip. simpl. fold sel.
  by destruct (py_eqb fmt (VStr "COMPLETE")).
Qed.

(** C6, at the failing input.  Twelve rows of one column "a", ten of them
    unexpected, result format BASIC with [partial_unexpected_count] 3: the
    provider raises a [KeyError] (no column is labelled 3) where the first
    three unexpected rows are due; the sibling for values truncates, and
    the COMPLETE call returns the ten rows. *)
Theorem unexpected_rows_basic_raises :
  _pandas_column_map_rows some_map_provider (table_engine twelve_frame)
    column_a {[ "result_format" := basic_format 3 ]}
    {[ "unexpected_condition" := ten_of_twelve ]} ∅
  = Raise KeyError
  ∧
  _pandas_column_map_values some_map_provider (table_engine twelve_frame)
    column_a {[ "result_format" := basic_format 3 ]}
    {[ "unexpected_condition" := (ten_of_twelve, column_a, column_a) ]} ∅
  = Ok [VInt 10; VInt 11; VInt 13]
  ∧
  _pandas_column_map_rows some_map_provider (table_engine twelve_frame)
    column_a {[ "result_format" := complete_format ]}
    {[ "unexpected_condition" := ten_of_twelve ]} ∅
  = Ok (PFrame (mkDF [VStr "a"]
                  (map (λ p, (p.1, [(VStr "a", VInt p.2)]))
                     [(0, 10); (1, 11); (3, 13); (4, 14); (5, 15); (6, 16);
                      (8, 18); (9, 19); (10, 20); (11, 21)]))).
Proof. repeat split; reflexivity. Qed.

(** *** unexpected_value_counts *)

Lemma pandas_value_counts_steps
    (lib : PandasLib) (cls : provider_cls) (engine : PandasEngine) (dk vk : kwargs)
    (metrics : gmap string (Series bool)) (call_kw : kwargs)
    (mask : Series bool) (cdk adk : kwargs) (df : DataFrame)
    (col rf : pyval) (s : Series pyval) :
  metrics !! "unexpected_condition" = Some mask →
  pd_get_compute_domain engine dk None = Ok (df, cdk, adk) →
  adk !! "column" = Some col →
  df_column df col = Ok s →
  let data := if truthy (filter_column_isnull_flag call_kw cls false)
              then drop_nulls s else s in
  data.*1 = mask.*1 →
  vk !! "result_format" = Some rf →
  let unexpected := (List.filter snd (zip data (mask.*2))).*1 in
  (* the direct grouping succeeds: the truth test of the histogram raises *)
  (∀ h, pd_value_counts lib unexpected = Ok h →
     ∃ msg, _pandas_column_map_value_counts lib cls engine dk vk metrics call_kw
            = Raise (ValueError msg)) ∧
  (* it fails with a ValueError: one retry on the tuple-coerced column *)
  (∀ msg, pd_value_counts lib unexpected = Raise (ValueError msg) →
     (∀ t h, pd_apply_tuple lib unexpected = Ok t → pd_value_counts lib t = Ok h →
        ∃ msg', _pandas_column_map_value_counts lib cls engine dk vk metrics call_kw
                = Raise (ValueError msg')) ∧
     (∀ t msg', pd_apply_tuple lib unexpected = Ok t →
        pd_value_counts lib t = Raise (ValueError msg') →
        _pandas_column_map_value_counts lib cls engine dk vk metrics call_kw
        = Raise (MetricError "Unable to compute value counts")) ∧
     (∀ msg', pd_apply_tuple lib unexpected = Raise (ValueError msg') →
        _pandas_column_map_value_counts lib cls engine dk vk metrics call_kw
        = Raise (MetricError "Unable to compute value counts"))).
Proof.
  intros Hdep Hdom Hcol Hs data Halign Hrf unexpected.
  assert (_pandas_column_map_value_counts lib cls engine dk vk metrics call_kw
            = (value_counts ←
                 except_ValueError
                   (h ← pd_value_counts lib unexpected; Ok (Some h))
                   (except_ValueError
                      (tup ← (t ← pd_apply_tuple lib unexpected; Ok (PSeries t));
                       h ← obj_value_counts lib tup; Ok (Some h))
                      (Ok None));
               b ← truth_of_counts value_counts;
               if negb b then Raise (MetricError "Unable to compute value counts")
               else
                 fmt ← subscript rf "result_format";
                 match value_counts with
                 | Some h =>
                     if py_eqb fmt (VStr "COMPLETE") then Ok (CountsAll h)
                     else n ← subscript rf "partial_unexpected_count";
                          counts_getitem h n
                 | None => Raise TypeError
                 end)) as Hunfold.
  { unfold _pandas_column_map_value_counts. rewrite Hdom. simpl.
    destruct (filter_nulls_column (filter_column_isnull_flag call_kw cls false)
                df adk col s Hcol Hs) as (df' & -> & Hc). simpl.
    rewrite (getitem_Some _ _ _ Hcol). simpl. rewrite Hc. simpl.
    rewrite (getitem_Some _ _ _ Hrf), Hdep. simpl.
    fold data. rewrite series_eq_True_id, bool_index_aligned by done.
    rewrite keep_by_position_zip. fold unexpected. done. }
  rewrite Hunfold. clear Hunfold. split.
  - intros h ->. simpl. eauto.
  - intros msg ->. simpl. repeat split.
    + intros t h -> Hh. simpl. rewrite Hh. simpl. eauto.
    + intros t msg' -> Hh. simpl. by rewrite Hh.
    + intros msg' ->. done.
Qed.

(** C5, at the failing input.  The column [[1, 1, 2]], all of it unexpected,
    result format COMPLETE: the grouping succeeds with the histogram
    [1 ↦ 2, 2 ↦ 1], and the provider raises the [ValueError] of the truth
    test [not value_counts] where that histogram is due.  With a grouping
    that fails twice the hard error is raised. *)
Theorem value_counts_success_raises :
  pd_value_counts example_lib [(0, VInt 1); (1, VInt 1); (2, VInt 2)]
  = Ok [(VInt 1, 2); (VInt 2, 1)]
  ∧
  _pandas_column_map_value_counts example_lib some_map_provider
    (table_engine three_frame) column_a {[ "result_format" := complete_format ]}
    {[ "unexpected_condition" := all_three ]} ∅
  = Raise (ValueError "The truth value of a Series is ambiguous. Use a.empty, a.bool(), a.item(), a.any() or a.all().")
  ∧
  _pandas_column_map_value_counts failing_lib some_map_provider
    (table_engine three_frame) column_a {[ "result_format" := complete_format ]}
    {[ "unexpected_condition" := all_three ]} ∅
  = Raise (MetricError "Unable to compute value counts").
Proof. repeat split; reflexivity. Qed.

(** ** Derived metrics of the SQL and distributed backends *)

Lemma assert_false {S} (msg : string) (s : S) :
  assert false msg s = (Raise (AssertionError msg), s).
Proof. done. Qed.

(** C2 (as amended).  On the SQL backend, when the compute domain kwargs
    recorded with the condition differ by value from those the provider
    resolves from its own domain kwargs, each of the three derived
    providers raises and sends no query: [unexpected_value_counts] always
    with the assertion error, [unexpected_values] and [unexpected_rows]
    with the assertion error whenever the value kwargs carry a
    "result_format" (they read it before the comparison).  The providers
    of the distributed backend make no comparison: what they compute is
    determined by the kwargs recorded with the condition, and of their own
    domain kwargs at most the "column" entry is read. *)
Theorem sql_domain_mismatch_raises
    (eng : SqlEngine) (dk vk : kwargs) (metrics : gmap string (sa_expr * kwargs))
    (cond : sa_expr) (fn_dk cdk adk : kwargs) (sel : string) (log : list sa_query) :
  sql_get_compute_domain eng dk None = Ok (sel, cdk, adk) →
  metrics !! "unexpected_condition" = Some (cond, fn_dk) →
  kwargs_eqb fn_dk cdk = false →
  ((∃ e, _sqlalchemy_column_map_values eng dk vk metrics log = (Raise e, log)) ∧
   (∃ e, _sqlalchemy_column_map_rows eng dk vk metrics log = (Raise e, log)) ∧
   _sqlalchemy_column_map_value_counts eng dk vk metrics log
   = (Raise (AssertionError domain_mismatch), log)) ∧
  (is_Some (vk !! "result_format") →
   _sqlalchemy_column_map_values eng dk vk metrics log
   = (Raise (AssertionError domain_mismatch), log) ∧
   _sqlalchemy_column_map_rows eng dk vk metrics log
   = (Raise (AssertionError domain_mismatch), log)) ∧
  (∀ (sp : SparkEngine) (sp_metrics : gmap string (SparkColumn * kwargs))
     (dk' : kwargs),
     (dk !! "column" = dk' !! "column" →
      _spark_column_map_values sp dk vk sp_metrics
      = _spark_column_map_values sp dk' vk sp_metrics) ∧
     _spark_column_map_value_counts sp dk vk sp_metrics
     = _spark_column_map_value_counts sp dk' vk sp_metrics ∧
     _spark_column_map_rows sp dk vk sp_metrics
     = _spark_column_map_rows sp dk' vk sp_metrics).
Proof.
  intros Hdom Hdep Hne.
  unfold _sqlalchemy_column_map_values, _sqlalchemy_column_map_rows,
    _sqlalchemy_column_map_value_counts, sbind, slift.
  rewrite Hdom, Hdep. cbn [unpack_pair]. rewrite Hne, assert_false.
  split; [|split].
  - unfold getitem. destruct (vk !! "result_format"); eauto.
  - intros [rf Hrf]. unfold getitem. by rewrite Hrf.
  - intros sp sp_metrics dk'. split; [|done].
    intros Hcol. unfold _spark_column_map_values, getitem. by rewrite Hcol.
Qed.

Lemma sql_domain_mismatch_raises_witness :
  _sqlalchemy_column_map_values sql_example_engine column_a
    {[ "result_format" := complete_format ]}
    {[ "unexpected_condition" := (SaFragment "a > 2", filtered_column_a) ]} []
  = (Raise (AssertionError domain_mismatch), []).
Proof.
  destruct (sql_domain_mismatch_raises sql_example_engine column_a
              {[ "result_format" := complete_format ]}
              {[ "unexpected_condition" := (SaFragment "a > 2", filtered_column_a) ]}
              (SaFragment "a > 2") filtered_column_a column_a
              (filter (λ kv, kv.1 = "column") column_a) "t" [])
    as (_ & H & _); [vm_compute; reflexivity..|].
  apply H. eexists. vm_compute. reflexivity.
Defined.

(** With agreeing kwargs the SQL provider sends its query. *)
Example sql_values_agreeing :
  _sqlalchemy_column_map_values sql_example_engine column_a
    {[ "result_format" := basic_format 3 ]}
    {[ "unexpected_condition" := (SaFragment "a > 2", column_a) ]} []
  = (Ok [VInt 1],
     [mkQuery [SaLabel (SaColumn (VStr "a")) "unexpected_values"] "t"
              (Some (SaFragment "a > 2")) None (Some (VInt 3))]).
Proof. vm_compute. reflexivity. Qed.

(** C2, counterexample.  On the distributed backend the kwargs recorded with
    the condition carry a row condition that the provider's own domain
    kwargs lack, so they differ from the compute domain kwargs resolved
    from the latter; [unexpected_values] raises nothing and returns the
    values found over the condition's domain. *)
Lemma spark_values_without_domain_check :
  (∃ data adk,
     sp_get_compute_domain spark_example_engine column_a None = Ok (data, column_a, adk)) ∧
  kwargs_eqb filtered_column_a column_a = false ∧
  _spark_column_map_values spark_example_engine column_a
    {[ "result_format" := complete_format ]}
    {[ "unexpected_condition" := (not_greater_than_two, filtered_column_a) ]}
  = Ok [VInt 1].
Proof. split; [by eexists _, _|]. split; vm_compute; reflexivity. Qed.

(** ** EvaluationParameterStore *)

Section store_facts.
Import EvaluationParameterStore.
Context {K : Type} `{EqDecision K} {V : Type}.
Implicit Types (d : list (K * V)) (s : t K V) (k : K) (v : V).

Lemma dict_get_set_eq d k v : dict_get (dict_set d k v) k = Some v.
Proof.
  induction d as [|[k' v'] d IH]; simpl.
  - by rewrite decide_True.
  - destruct (decide (k' = k)) as [->|Hne]; simpl.
    + by rewrite decide_True.
    + by rewrite decide_False.
Qed.

Lemma dict_get_set_ne d k k' v : k ≠ k' → dict_get (dict_set d k v) k' = dict_get d k'.
Proof.
  intros Hne. induction d as [|[k0 v0] d IH]; simpl.
  - by rewrite decide_False.
  - destruct (decide (k0 = k)) as [->|Hk]; simpl.
    + by rewrite !decide_False.
    + destruct (decide (k0 = k')); [done|apply IH].
Qed.

Lemma dict_set_keys d k v : k ∈ (dict_set d k v).*1.
Proof.
  induction d as [|[k' v'] d IH]; simpl.
  - apply list_elem_of_here.
  - destruct (decide (k' = k)) as [->|Hne]; simpl.
    + apply list_elem_of_here.
    + by apply list_elem_of_further.
Qed.

Lemma get_set_all_other s (calls : list (K * V)) k :
  k ∉ calls.*1 → dict_get (store (set_all s calls)) k = dict_get (store s) k.
Proof.
  revert s. induction calls as [|[k' v'] calls IH]; intros s Hk; [done|].
  rewrite fmap_cons, not_elem_of_cons in Hk. destruct Hk as [Hne Hk].
  change (set_all s ((k', v') :: calls)) with (set_all (set s k' v') calls).
  rewrite IH by done. simpl. by apply dict_get_set_ne.
Qed.

(** C9.  After [set(k, v)], [get(k)] returns [v], [has_key(k)] is true and
    [k] is among [list_keys()]; in a store on which [k] was never set,
    [get(k)] raises [KeyError] and [has_key(k)] is false. *)
Theorem store_set_get s k v (calls : list (K * V)) :
  (get (set s k v) k = Ok v ∧
   has_key (set s k v) k = true ∧
   k ∈ list_keys (set s k v)) ∧
  (k ∉ calls.*1 →
   get (set_all init calls) k = Raise KeyError ∧
   has_key (set_all init calls) k = false).
Proof.
  split.
  - unfold get, has_key, list_keys, set. simpl.
    rewrite dict_get_set_eq. split; [done|]. split.
    + by apply bool_decide_eq_true_2.
    + apply dict_set_keys.
  - intros Hk. unfold get, has_key.
    rewrite get_set_all_other by done. done.
Qed.
End store_facts.

Lemma store_set_get_witness :
  let s := EvaluationParameterStore.set_all EvaluationParameterStore.init
             [("urn:a", 1); ("urn:b", 2)] in
  (EvaluationParameterStore.get (EvaluationParameterStore.set s "urn:c" 3) "urn:c" = Ok 3 ∧
   EvaluationParameterStore.has_key (EvaluationParameterStore.set s "urn:c" 3) "urn:c" = true ∧
   "urn:c" ∈ EvaluationParameterStore.list_keys (EvaluationParameterStore.set s "urn:c" 3)) ∧
  (EvaluationParameterStore.get s "urn:c" = Raise KeyError ∧
   EvaluationParameterStore.has_key s "urn:c" = false).
Proof.
  intros s.
  destruct (store_set_get s "urn:c" 3 [("urn:a", 1); ("urn:b", 2)]) as [H1 H2].
  split; [exact H1|]. apply H2.
  apply (bool_decide_unpack _). vm_compute. exact I.
Defined.

(** ** Deep copies and the [config] property *)

Lemma fresh_val_mono (n0 n n' : nat) (v : hval) :
  (n ≤ n')%nat → fresh_val n0 n v → fresh_val n0 n' v.
Proof. destruct v; simpl; lia. Qed.

Lemma copied_mono (mu mu' : memo) (v v' : hval) :
  mu ⊆ mu' → copied mu v v' → copied mu' v v'.
Proof.
  intros Hsub. destruct v; simpl; try done.
  intros (y & Hy & ->). exists y. split; [|done].
  by eapply lookup_weaken.
Qed.

Lemma obj_copied_mono (mu mu' : memo) (o o' : hobj) :
  mu ⊆ mu' → obj_copied mu o o' → obj_copied mu' o o'.
Proof.
  intros Hsub. destruct o, o'; simpl; try done; intros H;
    (eapply Forall2_impl; [exact H|]).
  - intros i i' [? ?]. eauto using copied_mono.
  - eauto using copied_mono.
Qed.

Lemma copied_fresh (h0 : heap) (st : heap * memo) (v v' : hval) :
  copy_inv h0 st → copied st.2 v v' → fresh_val (length h0) (length st.1) v'.
Proof.
  intros Hinv. destruct v; simpl; try (by intros ->).
  intros (y & Hy & ->). simpl. by destruct (inv_memo _ _ Hinv _ _ Hy).
Qed.

Lemma unvisited_mono (n0 : nat) (mu mu' : memo) :
  mu ⊆ mu' → (unvisited n0 mu' ≤ unvisited n0 mu)%nat.
Proof.
  intros Hsub. apply subseteq_size.
  apply subseteq_dom in Hsub. set_solver.
Qed.

Lemma unvisited_insert (n0 : nat) (mu : memo) (l y : nat) :
  (l < n0)%nat → mu !! l = None →
  (unvisited n0 (<[l := y]> mu) < unvisited n0 mu)%nat.
Proof.
  intros Hl Hnone. apply subset_size. rewrite dom_insert_L.
  apply not_elem_of_dom in Hnone.
  assert (l ∈ set_seq (C := gset nat) 0 n0) by (apply elem_of_set_seq; lia).
  set_solver.
Qed.

(** The loop that fills a new object, for either kind of object: [mk dl]
    is the object holding the copies made so far, [dl] pairing each item
    copied with its copy. *)
Section copy_loop.
Variable h0 : heap.
Variable fuel : nat.
Variable copy : hval → heap * memo → option (hval * (heap * memo)).
Hypothesis copy_spec : ∀ x st,
  copy_inv h0 st → val_below (length h0) x →
  (unvisited (length h0) st.2 ≤ fuel)%nat →
  ∃ x' st', copy x st = Some (x', st') ∧ copy_post h0 st st' ∧ copied st'.2 x x'.
Context {I : Type}.
Variable value_of : I → hval.
Variable push : hobj → I → hval → option hobj.
Variable mk : list (I * hval) → hobj.
Variable ok : list I → Prop.
Hypothesis push_mk : ∀ dl i rest v,
  ok (dl.*1 ++ i :: rest) → push (mk dl) i v = Some (mk (dl ++ [(i, v)])).
Hypothesis mk_values : ∀ dl, obj_values (mk dl) = dl.*2.

Lemma copy_each_spec (y : nat) (rest : list I) :
  ∀ (dl : list (I * hval)) (st : heap * memo),
  copy_inv h0 st →
  (length h0 ≤ y < length st.1)%nat →
  st.1 !! y = Some (mk dl) →
  ok (dl.*1 ++ rest) →
  Forall (λ i, val_below (length h0) (value_of i)) rest →
  (unvisited (length h0) st.2 ≤ fuel)%nat →
  Forall (λ p, copied st.2 (value_of p.1) p.2) dl →
  ∃ st' dl',
    copy_each copy value_of push y rest st = Some st' ∧
    copy_inv h0 st' ∧ st.2 ⊆ st'.2 ∧ (length st.1 ≤ length st'.1)%nat ∧
    (∀ a, (a < length st.1)%nat → a ≠ y → st'.1 !! a = st.1 !! a) ∧
    st'.1 !! y = Some (mk dl') ∧ dl'.*1 = dl.*1 ++ rest ∧
    Forall (λ p, copied st'.2 (value_of p.1) p.2) dl' ∧
    (∀ l2 y2, st'.2 !! l2 = Some y2 → st.2 !! l2 = None →
       (length st.1 ≤ y2)%nat ∧ completed h0 st' l2 y2).
Proof.
  induction rest as [|i rest IH]; intros dl st Hinv Hy Hobj Hok Hrest Hfuel Hdl.
  - exists st, dl. simpl. rewrite app_nil_r.
    do 8 (split; [done|]). intros l2 y2 H1 H2. congruence.
  - apply Forall_cons in Hrest as [Hi Hrest].
    destruct (copy_spec (value_of i) st Hinv Hi Hfuel) as (v & st1 & Hcopy & Hpost & Hv).
    destruct Hpost as [Hinv1 Hmemo1 Hlen1 Hframe1 Hfresh1 Hdone1].
    assert (st1.1 !! y = Some (mk dl)) as Hobj1.
    { rewrite Hframe1 by lia. done. }
    set (o' := mk (dl ++ [(i, v)])).
    set (st2 := (<[y := o']> st1.1, st1.2)).
    assert (copy_inv h0 st2) as Hinv2.
    { destruct Hinv1 as [Hl Hp Hm Hn]. split; simpl.
      - by rewrite length_insert.
      - intros l Hlt. rewrite list_lookup_insert_ne by lia. by apply Hp.
      - intros l z Hz. rewrite length_insert. by apply Hm.
      - intros a o Ha. rewrite length_insert.
        destruct (decide (a = y)) as [->|Hne].
        + rewrite list_lookup_insert_eq by lia. intros [= <-].
          unfold o'. rewrite mk_values, fmap_app. apply Forall_app. split.
          * rewrite <- mk_values. by eapply Hn.
          * apply Forall_singleton. simpl.
            apply (copied_fresh h0 st1 (value_of i) v); [by split|done].
        + rewrite list_lookup_insert_ne by done. by apply Hn. }
    destruct (IH (dl ++ [(i, v)]) st2) as (st' & dl' & Hrun & Hinv' & Hmemo' & Hlen'
                                           & Hframe' & Hobj' & Hkeys' & Hdl' & Hdone');
      try done.
    + unfold st2. simpl. rewrite length_insert. lia.
    + unfold st2. simpl. apply list_lookup_insert_eq. lia.
    + rewrite fmap_app. simpl. by rewrite <- app_assoc.
    + unfold st2. simpl. etrans; [|exact Hfuel]. by apply unvisited_mono.
    + unfold st2. simpl. apply Forall_app. split.
      * eapply Forall_impl; [exact Hdl|]. intros p. by apply copied_mono.
      * by apply Forall_singleton.
    + exists st', dl'. unfold st2 in *. simpl in *. rewrite length_insert in *.
      split.
      { rewrite Hcopy. simpl. rewrite Hobj1. simpl.
        rewrite (push_mk dl i rest v Hok). simpl. exact Hrun. }
      split; [done|]. split; [by etrans|]. split; [lia|]. split.
      { intros a Ha Hne. rewrite Hframe' by (done || lia).
        rewrite list_lookup_insert_ne by done. by apply Hframe1. }
      split; [done|]. split.
      { rewrite Hkeys', fmap_app. simpl. by rewrite <- app_assoc. }
      split; [done|].
      intros l2 y2 H2 Hnone.
      destruct (st1.2 !! l2) as [z|] eqn:Hz.
      * assert (z = y2) as -> by (eapply lookup_weaken in Hz; [|exact Hmemo']; congruence).
        pose proof (Hfresh1 _ _ Hz Hnone) as Hge. split; [done|].
        destruct (Hdone1 _ _ Hz Hnone) as (o & oc & Ho & Hoc & Hcop).
        exists o, oc. split; [done|]. split.
        -- rewrite Hframe'; [|by apply lookup_lt_Some in Hoc|lia].
           rewrite list_lookup_insert_ne by lia. done.
        -- by eapply obj_copied_mono.
      * destruct (Hdone' _ _ H2 Hz) as [Hge Hc]. split; [lia|done].
Qed.
End copy_loop.

Lemma items_set_new (d : list (string * hval)) (k : string) (v : hval) :
  k ∉ d.*1 → items_set d k v = d ++ [(k, v)].
Proof.
  induction d as [|[k' w] d IH]; simpl; [done|].
  rewrite not_elem_of_cons. intros [Hne Hk].
  destruct (String.eqb k' k) eqn:E.
  - apply String.eqb_eq in E. congruence.
  - by rewrite IH.
Qed.

Lemma push_dict_of (dl : list ((string * hval) * hval)) (i : string * hval)
    (rest : list (string * hval)) (v : hval) :
  NoDup (dl.*1 ++ i :: rest).*1 →
  push_dict (dict_of dl) i v = Some (dict_of (dl ++ [(i, v)])).
Proof.
  intros Hnd. unfold dict_of, push_dict. f_equal. f_equal.
  rewrite map_app. simpl. apply items_set_new.
  rewrite fmap_app, fmap_cons in Hnd. apply NoDup_app in Hnd as (_ & Hnd & _).
  intros Hin. apply (Hnd i.1).
  - rewrite <- list_fmap_compose in Hin. by rewrite <- list_fmap_compose.
  - apply list_elem_of_here.
Qed.

Lemma dict_of_values (dl : list ((string * hval) * hval)) :
  obj_values (dict_of dl) = dl.*2.
Proof. unfold dict_of. simpl. by rewrite <- list_fmap_compose. Qed.

Lemma push_list_of (dl : list (hval * hval)) (i : hval) (rest : list hval) (v : hval) :
  True → push_list (list_of dl) i v = Some (list_of (dl ++ [(i, v)])).
Proof. intros _. unfold list_of, push_list. by rewrite fmap_app. Qed.

Lemma list_of_values (dl : list (hval * hval)) : obj_values (list_of dl) = dl.*2.
Proof. done. Qed.

Lemma dict_of_copied (mu : memo) (items : list (string * hval))
    (dl : list ((string * hval) * hval)) :
  dl.*1 = items → Forall (λ p, copied mu (snd p.1) p.2) dl →
  obj_copied mu (ODict items) (dict_of dl).
Proof.
  intros <-. unfold dict_of. simpl.
  induction 1 as [|[[k w] v] dl Hp _ IH]; simpl; [constructor|].
  constructor; [done|apply IH].
Qed.

Lemma list_of_copied (mu : memo) (items : list hval) (dl : list (hval * hval)) :
  dl.*1 = items → Forall (λ p, copied mu (id p.1) p.2) dl →
  obj_copied mu (OList items) (list_of dl).
Proof.
  intros <-. unfold list_of. simpl.
  induction 1 as [|[w v] dl Hp _ IH]; simpl; [constructor|].
  constructor; [done|apply IH].
Qed.

Lemma copy_post_refl (h0 : heap) (st : heap * memo) :
  copy_inv h0 st → copy_post h0 st st.
Proof. intros Hinv. split; try done; intros l y H1 H2; congruence. Qed.

Lemma copy_inv_alloc (h0 : heap) (st : heap * memo) (l : nat) (o : hobj) :
  copy_inv h0 st → (l < length h0)%nat → obj_values o = [] →
  copy_inv h0 (st.1 ++ [o], <[l := length st.1]> st.2).
Proof.
  intros [Hl Hp Hm Hn] Hlt Hempty. split; simpl.
  - rewrite length_app. lia.
  - intros a Ha. rewrite lookup_app_l by lia. by apply Hp.
  - intros a y. rewrite length_app. simpl. rewrite lookup_insert.
    case_decide as Hal.
    + intros [= <-]. subst a. lia.
    + intros Hy. apply Hm in Hy. lia.
  - intros a o' Ha. rewrite length_app. simpl.
    destruct (decide (a < length st.1)%nat) as [Hlt'|Hge].
    + rewrite lookup_app_l by done. intros Ho.
      eapply Forall_impl; [by eapply Hn|]. intros v. apply fresh_val_mono. lia.
    + rewrite lookup_app_r by lia.
      destruct (a - length st.1)%nat as [|n] eqn:E; simpl; [|done].
      intros [= <-]. rewrite Hempty. constructor.
Qed.

(** What [deepcopy] does, for any state of a copy in progress. *)
Lemma deepcopy_spec (h0 : heap) :
  closed h0 → well_keyed h0 →
  ∀ (fuel : nat) (x : hval) (st : heap * memo),
    copy_inv h0 st → val_below (length h0) x →
    (unvisited (length h0) st.2 ≤ fuel)%nat →
    ∃ x' st', deepcopy fuel x st = Some (x', st') ∧
              copy_post h0 st st' ∧ copied st'.2 x x'.
Proof.
  intros Hclosed Hkeyed. induction fuel as [|fuel IH]; intros x st Hinv Hx Hfuel.
  all: destruct x as [| | | |l];
    try (eexists _, st; split; [reflexivity|]; split;
         [by apply copy_post_refl|done]).
  all: simpl in Hx; destruct (st.2 !! l) as [y|] eqn:Hmemo;
    [ exists (HRef y), st; simpl; rewrite Hmemo;
      split; [done|]; split; [by apply copy_post_refl|by exists y] |].
  { pose proof (unvisited_insert (length h0) st.2 l 0 Hx Hmemo). lia. }
  assert (unvisited (length h0) (<[l := length st.1]> st.2) ≤ fuel)%nat as Hfuel'.
  { pose proof (unvisited_insert (length h0) st.2 l (length st.1) Hx Hmemo). lia. }
  destruct (lookup_lt_is_Some_2 h0 l Hx) as [o Ho].
  assert (st.1 !! l = Some o) as Hl by (by rewrite (inv_prefix _ _ Hinv)).
  pose proof (Hclosed l o Ho) as Hvals.
  assert (∀ e : hobj, length h0 ≤ length st.1 < length (st.1 ++ [e]))%nat as Hy1.
  { intros e. rewrite length_app. simpl. pose proof (inv_length _ _ Hinv). lia. }
  assert (∀ e : hobj, (st.1 ++ [e]) !! length st.1 = Some e) as Hnew.
  { intros e. rewrite lookup_app_r by lia. by rewrite Nat.sub_diag. }
  simpl. rewrite Hmemo, Hl.
  destruct o as [items|items].
  - destruct (copy_each_spec h0 fuel (deepcopy fuel) IH snd push_dict dict_of
                (λ l, NoDup l.*1) push_dict_of dict_of_values
                (length st.1) items [] (st.1 ++ [ODict []], <[l := length st.1]> st.2))
      as (st' & dl' & Hrun & Hinv' & Hmemo' & Hlen' & Hframe' & Hobj' & Hkeys'
          & Hdl' & Hdone'); simpl; try done.
    + by apply copy_inv_alloc.
    + by eapply Hkeyed.
    + simpl in Hvals. rewrite Forall_fmap in Hvals.
      eapply Forall_impl; [exact Hvals|]. by intros [k v].
    + exists (HRef (length st.1)), st'. rewrite Hrun. simpl. split; [done|].
      simpl in *. rewrite length_app in Hlen'. simpl in Hlen'.
      assert (st'.2 !! l = Some (length st.1)) as Hly.
      { eapply lookup_weaken; [|exact Hmemo']. apply lookup_insert_eq. }
      split; [|by exists (length st.1)]. split; try done.
      * etrans; [|exact Hmemo']. by apply insert_subseteq.
      * lia.
      * intros a Ha. rewrite Hframe' by (rewrite ?length_app; simpl; lia).
        by rewrite lookup_app_l.
      * intros l2 y2 H2 Hnone. destruct (decide (l2 = l)) as [->|Hne].
        -- assert (y2 = length st.1) by congruence. lia.
        -- destruct (Hdone' l2 y2 H2) as [Hge _]; [by rewrite lookup_insert_ne|].
           rewrite length_app in Hge. lia.
      * intros l2 y2 H2 Hnone. destruct (decide (l2 = l)) as [->|Hne].
        -- assert (y2 = length st.1) as -> by congruence.
           exists (ODict items), (dict_of dl'). split; [done|]. split; [done|].
           by apply dict_of_copied.
        -- by destruct (Hdone' l2 y2 H2) as [_ Hc]; [by rewrite lookup_insert_ne|].
  - destruct (copy_each_spec h0 fuel (deepcopy fuel) IH id push_list list_of
                (λ _, True) push_list_of list_of_values
                (length st.1) items [] (st.1 ++ [OList []], <[l := length st.1]> st.2))
      as (st' & dl' & Hrun & Hinv' & Hmemo' & Hlen' & Hframe' & Hobj' & Hkeys'
          & Hdl' & Hdone'); simpl; try done.
    + by apply copy_inv_alloc.
    + exists (HRef (length st.1)), st'. rewrite Hrun. simpl. split; [done|].
      simpl in *. rewrite length_app in Hlen'. simpl in Hlen'.
      assert (st'.2 !! l = Some (length st.1)) as Hly.
      { eapply lookup_weaken; [|exact Hmemo']. apply lookup_insert_eq. }
      split; [|by exists (length st.1)]. split; try done.
      * etrans; [|exact Hmemo']. by apply insert_subseteq.
      * lia.
      * intros a Ha. rewrite Hframe' by (rewrite ?length_app; simpl; lia).
        by rewrite lookup_app_l.
      * intros l2 y2 H2 Hnone. destruct (decide (l2 = l)) as [->|Hne].
        -- assert (y2 = length st.1) by congruence. lia.
        -- destruct (Hdone' l2 y2 H2) as [Hge _]; [by rewrite lookup_insert_ne|].
           rewrite length_app in Hge. lia.
      * intros l2 y2 H2 Hnone. destruct (decide (l2 = l)) as [->|Hne].
        -- assert (y2 = length st.1) as -> by congruence.
           exists (OList items), (list_of dl'). split; [done|]. split; [done|].
           by apply list_of_copied.
        -- by destruct (Hdone' l2 y2 H2) as [_ Hc]; [by rewrite lookup_insert_ne|].
Qed.

Lemma copy_inv_start (h0 : heap) : copy_inv h0 (h0, ∅).
Proof.
  split; simpl; try done.
  intros a o Ha Ho. apply lookup_lt_Some in Ho. lia.
Qed.

Lemma unvisited_start (n0 : nat) : unvisited n0 ∅ = n0.
Proof.
  unfold unvisited. rewrite dom_empty_L, difference_empty_L.
  apply size_set_seq.
Qed.

Lemma caller_step_inv (h0 : heap) (s s' : heap * list hval) :
  caller_inv h0 s → caller_step s s' → caller_inv h0 s'.
Proof.
  intros [Hl Hp Hr Hn] Hstep. simpl in *.
  inversion Hstep as [h roots l o v Hin Ho Hv | h roots l o Hin Hlt Hvals
                     | h roots o Hvals]; subst; simpl in *.
  - split; simpl; try done. constructor; [|done].
    rewrite Forall_forall in Hr. specialize (Hr _ Hin). simpl in Hr.
    pose proof (Hn l o ltac:(lia) Ho) as Hfresh.
    rewrite Forall_forall in Hfresh. by apply Hfresh.
  - rewrite Forall_forall in Hr. pose proof (Hr _ Hin) as Hfl. simpl in Hfl.
    split; simpl; rewrite ?length_insert; try done.
    + intros a Ha. rewrite list_lookup_insert_ne by lia. by apply Hp.
    + by apply Forall_forall.
    + intros a o' Ha. destruct (decide (a = l)) as [->|Hne].
      * rewrite list_lookup_insert_eq by done. intros [= <-].
        eapply Forall_impl; [exact Hvals|]. intros v Hv.
        destruct v; try done. by apply Hr.
      * rewrite list_lookup_insert_ne by done. by apply Hn.
  - assert (∀ v, fresh_val (length h0) (length h) v →
                 fresh_val (length h0) (length (h ++ [o])) v) as Hmono.
    { intros v. apply fresh_val_mono. rewrite length_app. lia. }
    split; simpl.
    + rewrite length_app. lia.
    + intros a Ha. rewrite lookup_app_l by lia. by apply Hp.
    + constructor.
      * simpl. rewrite length_app. simpl. lia.
      * eapply Forall_impl; [exact Hr|]. exact Hmono.
    + intros a o' Ha. destruct (decide (a < length h)%nat) as [Hlt|Hge].
      * rewrite lookup_app_l by done. intros Ho.
        eapply Forall_impl; [by eapply Hn|]. exact Hmono.
      * rewrite lookup_app_r by lia.
        destruct (a - length h)%nat as [|n]; simpl; [|done]. intros [= <-].
        rewrite Forall_forall in Hr.
        eapply Forall_impl; [exact Hvals|]. intros v Hv. apply Hmono.
        destruct v; try done. by apply Hr.
Qed.

Lemma caller_steps_inv (h0 : heap) (s s' : heap * list hval) :
  caller_inv h0 s → rtc caller_step s s' → caller_inv h0 s'.
Proof. intros Hinv Hsteps. induction Hsteps; eauto using caller_step_inv. Qed.



(** The copy made of the example configuration, and a write through it. *)
Example config_example :
  config example_env example_heap
  = Some (HRef 4,
          example_heap ++
          [ODict [("execution_engine", HRef 5)];
           ODict [("class_name", HStr "PandasExecutionEngine"); ("options", HRef 6)];
           OList [HStr "a"; HStr "b"]]).
Proof. reflexivity. Qed.

(** * Further properties *)

(** ** The dependency resolver, read backwards *)

Lemma strip_endswith (m : MetricConfiguration) (sfx : string) :
  sfx ≠ "" → endswith (metric_name m) sfx = true →
  ∃ base, metric_name m = base +:+ sfx ∧
          strip m sfx = {[ "unexpected_condition" :=
                             mkMetricConfiguration base (metric_domain_kwargs m)
                               (delete "result_format" (metric_value_kwargs m)) ]}.
Proof.
  intros Hne Hend. apply endswith_true in Hend as [base Hbase].
  exists base. split; [done|]. destruct m as [n dk vk]. simpl in *. subst n.
  by apply strip_app.
Qed.

Lemma map_deps_cases (m : MetricConfiguration) :
  map_get_evaluation_dependencies m = ∅ ∨
  ∃ base sfx, sfx ∈ derived_suffixes ∧ metric_name m = base +:+ sfx ∧
    map_get_evaluation_dependencies m
    = {[ "unexpected_condition" :=
           mkMetricConfiguration base (metric_domain_kwargs m)
             (delete "result_format" (metric_value_kwargs m)) ]}.
Proof.
  unfold map_get_evaluation_dependencies.
  repeat match goal with
         | |- context [if endswith (metric_name m) ?s then _ else _] =>
             destruct (endswith (metric_name m) s) eqn:?;
               [ right;
                 destruct (strip_endswith m s ltac:(discriminate) ltac:(assumption))
                   as (base & Hn & Hs);
                 exists base, s; split; [unfold derived_suffixes; set_solver|];
                 by split
               | ]
         end.
  by left.
Qed.

(** The shape of the resolver's result.  It is empty, or the single entry
    "metric_partial_fn" holding the metric itself (the name ends with a
    partial kind), or, for a map-metric provider, the single entry
    "unexpected_condition" holding the configuration with one derived
    suffix stripped and "result_format" dropped. *)
Lemma resolver_shape (cls : provider_class) (m : MetricConfiguration) :
  get_evaluation_dependencies cls m = ∅ ∨
  (ends_with_partial (metric_name m) = true ∧
   get_evaluation_dependencies cls m = {[ "metric_partial_fn" := m ]}) ∨
  (cls = MapMetricProvider ∧
   ∃ base sfx, sfx ∈ derived_suffixes ∧ metric_name m = base +:+ sfx ∧
     get_evaluation_dependencies cls m
     = {[ "unexpected_condition" :=
            mkMetricConfiguration base (metric_domain_kwargs m)
              (delete "result_format" (metric_value_kwargs m)) ]}).
Proof.
  rewrite resolver_unfold.
  assert (_get_evaluation_dependencies cls m = ∅ ∨
          cls = MapMetricProvider ∧
          ∃ base sfx, sfx ∈ derived_suffixes ∧ metric_name m = base +:+ sfx ∧
            _get_evaluation_dependencies cls m
            = {[ "unexpected_condition" :=
                   mkMetricConfiguration base (metric_domain_kwargs m)
                     (delete "result_format" (metric_value_kwargs m)) ]})
    as [Hchild | (Hcls & base & sfx & Hin & Hname & Hchild)].
  { destruct cls; simpl; [by left|].
    destruct (map_deps_cases m) as [?|?]; [by left|by right]. }
  - rewrite Hchild, (left_id_L ∅ (∪)).
    destruct (ends_with_partial (metric_name m)); [right; left|left]; done.
  - right. right. split; [done|]. exists base, sfx. split; [done|]. split; [done|].
    rewrite Hchild, Hname, derived_not_partial by done.
    by rewrite (right_id_L ∅ (∪)).
Qed.

(** X1.  The resolver returns at most one dependency, under one of the two
    roles "metric_partial_fn" and "unexpected_condition"; the two roles
    never occur together, and "unexpected_condition" occurs for map-metric
    providers only. *)
Theorem resolver_at_most_one (cls : provider_class) (m : MetricConfiguration) :
  (∀ k d, get_evaluation_dependencies cls m !! k = Some d →
          k = "metric_partial_fn" ∨ k = "unexpected_condition") ∧
  (∀ k k' d d', get_evaluation_dependencies cls m !! k = Some d →
                get_evaluation_dependencies cls m !! k' = Some d' → k = k') ∧
  (is_Some (get_evaluation_dependencies cls m !! "unexpected_condition") →
   cls = MapMetricProvider).
Proof.
  destruct (resolver_shape cls m) as [H|[[_ H]|(Hcls & base & sfx & _ & _ & H)]];
    rewrite H.
  - split; [|split].
    + intros k d Hk. by rewrite lookup_empty in Hk.
    + intros k k' d d' Hk. by rewrite lookup_empty in Hk.
    + intros [d Hd]. by rewrite lookup_empty in Hd.
  - split; [|split].
    + intros k d [-> _]%lookup_singleton_Some. by left.
    + by intros k k' d d' [<- _]%lookup_singleton_Some [<- _]%lookup_singleton_Some.
    + intros [d Hd]. by rewrite lookup_singleton_ne in Hd.
  - split; [|split].
    + intros k d [<- _]%lookup_singleton_Some. by right.
    + by intros k k' d d' [<- _]%lookup_singleton_Some [<- _]%lookup_singleton_Some.
    + done.
Qed.

Lemma app_length_lt (base sfx : string) :
  sfx ≠ "" → (String.length base < String.length (base +:+ sfx))%nat.
Proof.
  intros Hne. rewrite <- !chars_length, chars_app, length_app.
  destruct sfx; [done|]. simpl. lia.
Qed.

(** X2.  The dependency under "unexpected_condition" always has a strictly
    shorter name than the metric, the same domain kwargs, and value kwargs
    without "result_format" that agree with the metric's on every other key;
    so following that role from any metric ends after finitely many steps. *)
Theorem unexpected_condition_decreases
    (cls : provider_class) (m dep : MetricConfiguration) :
  get_evaluation_dependencies cls m !! "unexpected_condition" = Some dep →
  (String.length (metric_name dep) < String.length (metric_name m))%nat ∧
  metric_domain_kwargs dep = metric_domain_kwargs m ∧
  metric_value_kwargs dep !! "result_format" = None ∧
  (∀ k, k ≠ "result_format" →
        metric_value_kwargs dep !! k = metric_value_kwargs m !! k).
Proof.
  intros Hdep.
  destruct (resolver_shape cls m) as [H|[[_ H]|(_ & base & sfx & Hin & Hname & H)]];
    rewrite H in Hdep.
  - by rewrite lookup_empty in Hdep.
  - by rewrite lookup_singleton_ne in Hdep.
  - rewrite lookup_singleton_eq in Hdep. injection Hdep as <-. simpl.
    split.
    { rewrite Hname. apply app_length_lt. intros ->.
      unfold derived_suffixes in Hin. set_solver. }
    split; [done|]. split; [apply lookup_delete_eq|].
    intros k Hk. by rewrite lookup_delete_ne.
Qed.

Lemma unexpected_condition_decreases_witness :
  let dep := mkMetricConfiguration "col.unique" {[ "column" := VStr "a" ]}
               (delete "result_format"
                  {[ "result_format" := VStr "BASIC"; "threshold" := VInt 5 ]}) in
  (String.length (metric_name dep) < String.length (metric_name spec_example_metric))%nat ∧
  metric_domain_kwargs dep = metric_domain_kwargs spec_example_metric ∧
  metric_value_kwargs dep !! "result_format" = None ∧
  (∀ k, k ≠ "result_format" →
        metric_value_kwargs dep !! k = metric_value_kwargs spec_example_metric !! k).
Proof.
  intros dep.
  apply (unexpected_condition_decreases MapMetricProvider spec_example_metric dep).
  vm_compute. reflexivity.
Defined.

(** X3.  A "metric_partial_fn" dependency is the metric itself, and resolving
    it yields the same dependency again: the role never leads to another
    metric. *)
Theorem partial_fn_dependency_is_self
    (cls : provider_class) (m dep : MetricConfiguration) :
  get_evaluation_dependencies cls m !! "metric_partial_fn" = Some dep →
  dep = m ∧
  get_evaluation_dependencies cls dep = {[ "metric_partial_fn" := dep ]}.
Proof.
  intros Hdep.
  destruct (resolver_shape cls m) as [H|[[_ H]|(_ & base & sfx & _ & _ & H)]];
    rewrite H in Hdep.
  - by rewrite lookup_empty in Hdep.
  - rewrite lookup_singleton_eq in Hdep. injection Hdep as <-. done.
  - by rewrite lookup_singleton_ne in Hdep.
Qed.

Lemma partial_fn_dependency_is_self_witness :
  let m := mkMetricConfiguration "column.aggregate.sum.aggregate_fn" ∅ ∅ in
  m = m ∧ get_evaluation_dependencies MetricProvider m = {[ "metric_partial_fn" := m ]}.
Proof.
  intros m. apply (partial_fn_dependency_is_self MetricProvider m m).
  vm_compute. reflexivity.
Defined.

(** ** The decorators and the registration hooks *)

Ltac eqb_cases ty :=
  repeat match goal with
         | |- context [String.eqb ty ?s] =>
             let E := fresh "E" in
             destruct (String.eqb ty s) eqn:E;
             [apply String.eqb_eq in E; subst ty | apply String.eqb_neq in E]
         end.

(** X4.  Which declarations the two column decorators accept.  A condition
    partial is accepted for the SQL engine with "map_condition_fn" and for
    the distributed engine with "map_condition_fn" or
    "window_condition_fn"; a function partial for the SQL engine with
    "map_fn" and for the distributed engine with "map_fn" or "window_fn".
    Nothing is accepted for the in-memory engine, whose only admitted type
    names are not members of [MetricPartialFunctionTypes].  An accepted
    method is tagged with the engine, the enum member of that name, the
    column domain and the decorator's keyword arguments. *)
Theorem column_partial_declarations
    (engine : engine_class) (ty : string) (kw : kwargs) (a : attr_obj) :
  (column_condition_partial_decl engine ty kw = Ok a ↔
   ((engine = SqlAlchemyExecutionEngine ∧ ty = "map_condition_fn") ∨
    (engine = SparkDFExecutionEngine ∧
     (ty = "map_condition_fn" ∨ ty = "window_condition_fn"))) ∧
   ∃ t, partial_value t = ty ∧
        a = mkAttr (Some engine) (Some (FnPartial t)) (Some (DomEnum D_COLUMN))
              (Some kw) None None) ∧
  (column_function_partial_decl engine ty kw = Ok a ↔
   ((engine = SqlAlchemyExecutionEngine ∧ ty = "map_fn") ∨
    (engine = SparkDFExecutionEngine ∧ (ty = "map_fn" ∨ ty = "window_fn"))) ∧
   ∃ t, partial_value t = ty ∧
        a = mkAttr (Some engine) (Some (FnPartial t)) (Some (DomEnum D_COLUMN))
              (Some kw) None None).
Proof.
  split; unfold column_condition_partial_decl, column_function_partial_decl;
    destruct engine; simpl; eqb_cases ty; simpl;
    (split;
     [ intros H; try discriminate H; injection H as <-;
       (split; [tauto|eexists; split; [|reflexivity]; reflexivity])
     | intros [Hcase (t & Ht & ->)];
       try (destruct Hcase as [[? ?]|[? [?|?]]]; congruence);
       destruct t; simpl in Ht; try discriminate Ht; try congruence; reflexivity ]).
Qed.

Lemma map_register_one_decorated (cls : provider_cls) (a : string * attr_obj)
    (r : registry) :
  decorated_or_plain a.2 → map_register_one cls a r = (Ok tt, r).
Proof.
  destruct a as [name obj]. unfold decorated_or_plain, map_register_one. simpl.
  destruct (a_metric_engine obj) as [e|]; [|done].
  intros (He & o & -> & Ho). rewrite He. simpl.
  by destruct o.
Qed.

(** X5.  The map-metric hook registers nothing for methods tagged by the
    decorators: their [metric_fn_type] is an enum member, which equals none
    of the strings the hook compares it with.  Defining a class whose
    metric methods are all tagged that way leaves the registry as it was
    and raises nothing. *)
Theorem decorated_methods_not_registered (cls : provider_cls) (r : registry) :
  c_kind cls = MapMetricProvider →
  Forall (λ a, decorated_or_plain a.2) (c_dict cls) →
  define_class cls r = (Ok tt, r).
Proof.
  intros Hk Hall. unfold define_class, map_register_metric_functions. rewrite Hk.
  assert (sfor (c_dict cls) (map_register_one cls) r = (Ok tt, r)) as Hloop.
  { induction Hall as [|a rest Ha _ IH]; [done|].
    cbn [sfor]. unfold sbind. by rewrite map_register_one_decorated. }
  by destruct (c_function_metric_name cls), (c_condition_metric_name cls).
Qed.

Lemma decorated_methods_not_registered_witness :
  define_class
    (map_provider_subclass "ColumnValuesUnique" (Some "column_values.unique") None
       [("_sqlalchemy", sql_condition_method)])
    empty_registry
  = (Ok tt, empty_registry).
Proof.
  apply decorated_methods_not_registered; [reflexivity|].
  constructor; [|constructor]. simpl. split; [reflexivity|].
  eexists. split; [reflexivity|exact I].
Defined.

Lemma register_metric_fresh (name : string) (dkeys vkeys : list string)
    (engine : engine_class) (cls : string) (provider : option provider_fn)
    (fn_type : fn_type_obj) (r : registry) :
  metrics r !! (name, engine_name engine) = None →
  register_metric name dkeys vkeys engine cls provider fn_type r
  = (Ok tt,
     mkRegistry (<[(name, engine_name engine) :=
                     mkEntry dkeys vkeys cls provider fn_type]> (metrics r))
                (renderers r)).
Proof. intros H. unfold register_metric. by rewrite H. Qed.

Lemma app_ne_self (n s : string) : s ≠ "" → n +:+ s ≠ n.
Proof.
  intros Hne Heq. pose proof (app_length_lt n s Hne) as Hlt.
  rewrite Heq in Hlt. lia.
Qed.

Lemma app_ne_app (n s s' : string) : s ≠ s' → n +:+ s ≠ n +:+ s'.
Proof. intros Hne Heq. by apply (inj (String.app n)) in Heq. Qed.

Ltac fresh_key :=
  repeat (rewrite lookup_insert_ne;
          [|let E := fresh "E" in
            intros [= E];
            first [ by apply app_ne_self in E
                  | by (symmetry in E; apply app_ne_self in E)
                  | by apply app_ne_app in E ]]);
  apply lookup_empty.

(** X6.  What the map-metric hook registers for a SQL condition method
    whose kind is given as the string "map_condition_fn".  In an empty
    registry it stores the condition under the class's
    [condition_metric_name] and the count under ".unexpected_count" as an
    aggregate partial; when the method's domain type is the string
    "column" it also stores the three value-kind metrics
    ".unexpected_values", ".unexpected_value_counts" and
    ".unexpected_rows", whose value keys gain "result_format"; for any
    other domain type it stores nothing more.  No ".unexpected_index_list"
    is registered for the SQL backend. *)
Theorem sql_condition_registration (cls : provider_cls) (attr n : string)
    (obj : attr_obj) (dom : pyval) :
  c_kind cls = MapMetricProvider →
  c_condition_metric_name cls = Some n →
  c_dict cls = [(attr, obj)] →
  a_metric_engine obj = Some SqlAlchemyExecutionEngine →
  a_metric_fn_type obj = Some (FnStr "map_condition_fn") →
  a_domain_type obj = Some (DomVal dom) →
  let base : gmap (string * string) ProviderEntry :=
    <[sql_key (n +:+ ".unexpected_count") :=
        condition_entry cls false Prov_sqlalchemy_map_unexpected_count "aggregate_fn"]>
      (<[sql_key n :=
           condition_entry cls false (ProvMethod (c_name cls) attr) "map_condition_fn"]> ∅) in
  define_class cls empty_registry
  = (Ok tt,
     mkRegistry
       (if py_eqb dom (VStr "column") then
          <[sql_key (n +:+ ".unexpected_rows") :=
              condition_entry cls true Prov_sqlalchemy_column_map_rows "value"]>
            (<[sql_key (n +:+ ".unexpected_value_counts") :=
                 condition_entry cls true Prov_sqlalchemy_column_map_value_counts "value"]>
               (<[sql_key (n +:+ ".unexpected_values") :=
                    condition_entry cls true Prov_sqlalchemy_column_map_values "value"]>
                  base))
        else base)
       []).
Proof.
  intros Hk Hn Hd He Hft Hdom base.
  unfold define_class, map_register_metric_functions. rewrite Hk, Hn, Hd.
  assert (match c_function_metric_name cls with
          | Some _ | None => sfor [(attr, obj)] (map_register_one cls)
          end = sfor [(attr, obj)] (map_register_one cls)) as ->
    by (by destruct (c_function_metric_name cls)).
  cbn [sfor]. unfold sbind at 1, map_register_one. rewrite He, Hft, Hn. simpl.
  unfold register_condition. rewrite Hdom. simpl.
  unfold sbind, sret, sql_key, condition_entry.
  repeat (rewrite register_metric_fresh by (simpl; fresh_key); simpl).
  destruct (py_eqb dom (VStr "column")); [|done].
  repeat (rewrite register_metric_fresh by (simpl; fresh_key); simpl).
  done.
Qed.

Lemma sql_condition_registration_witness :
  define_class unique_values_cls empty_registry
  = (Ok tt,
     mkRegistry
       (<[sql_key "column_values.unique.unexpected_rows" :=
            condition_entry unique_values_cls true Prov_sqlalchemy_column_map_rows "value"]>
          (<[sql_key "column_values.unique.unexpected_value_counts" :=
               condition_entry unique_values_cls true
                 Prov_sqlalchemy_column_map_value_counts "value"]>
             (<[sql_key "column_values.unique.unexpected_values" :=
                  condition_entry unique_values_cls true
                    Prov_sqlalchemy_column_map_values "value"]>
                (<[sql_key "column_values.unique.unexpected_count" :=
                     condition_entry unique_values_cls false
                       Prov_sqlalchemy_map_unexpected_count "aggregate_fn"]>
                   (<[sql_key "column_values.unique" :=
                        condition_entry unique_values_cls false
                          (ProvMethod "ColumnValuesUnique" "_sqlalchemy")
                          "map_condition_fn"]> ∅)))))
       []).
Proof.
  apply (sql_condition_registration unique_values_cls "_sqlalchemy"
           "column_values.unique" sql_condition_method_str (VStr "column"));
    reflexivity.
Defined.

Lemma str_app_nil_r (s : string) : s +:+ "" = s.
Proof.
  induction s as [|a s IH]; [done|].
  change (String a (s +:+ "") = String a s). by rewrite IH.
Qed.

(** X7.  What the base hook registers for a method tagged by a decorator.
    The tag is an enum member, which is not equal to the string "value", so
    the hook takes the partial branch whatever the kind, also for
    [metric_value_fn]: in an empty registry it stores the method under the
    metric name followed by "." and the kind's value, and stores the bare
    metric name with no provider at all; both entries carry the enum
    member as function kind. *)
Theorem base_hook_registration (cls : provider_cls) (attr n v : string)
    (obj : attr_obj) (engine : engine_class) (ft : fn_type_obj) :
  c_kind cls = MetricProvider →
  c_metric_name cls = Some n →
  c_dir cls = [(attr, obj)] →
  a_metric_engine obj = Some engine → is_execution_engine engine = true →
  a_metric_name obj = None →
  default ∅ (a_metric_definition_kwargs obj) !! "metric_name_suffix" = None →
  a_metric_fn_type obj = Some ft → fn_type_value ft = Ok v →
  define_class cls empty_registry
  = (Ok tt,
     mkRegistry
       (<[(n, engine_name engine) :=
            mkEntry (c_domain_keys cls) (c_value_keys cls) (c_name cls) None ft]>
          (<[(n +:+ "." +:+ v, engine_name engine) :=
               mkEntry (c_domain_keys cls) (c_value_keys cls) (c_name cls)
                 (Some (ProvMethod (c_name cls) attr)) ft]> ∅))
       []).
Proof.
  intros Hk Hn Hd He Hsub Hname Hsfx Hft Hv.
  unfold define_class, base_register_metric_functions. rewrite Hk, Hn, Hd.
  cbn [base_register_loop]. unfold sbind at 1, base_register_one.
  rewrite He, Hsub, Hname, Hsfx, Hft. cbn [negb default str_add slift].
  unfold sbind at 1. rewrite str_app_nil_r. unfold slift, id. cbn beta iota.
  assert (fn_type_eq_str ft "value" = false) as -> by (by destruct ft).
  unfold sbind, sret. rewrite Hv.
  rewrite register_metric_fresh by apply lookup_empty. cbn [metrics renderers].
  rewrite register_metric_fresh; [done|]. cbn [metrics].
  rewrite lookup_insert_ne; [apply lookup_empty|].
  intros [= E]. by apply app_ne_self in E.
Qed.

Lemma base_hook_registration_witness :
  define_class row_count_cls empty_registry
  = (Ok tt,
     mkRegistry
       (<[("table.row_count", "PandasExecutionEngine") :=
            mkEntry [] [] "TableRowCount" None (FnFunction F_VALUE)]>
          (<[("table.row_count.value", "PandasExecutionEngine") :=
               mkEntry [] [] "TableRowCount"
                 (Some (ProvMethod "TableRowCount" "_pandas")) (FnFunction F_VALUE)]> ∅))
       []).
Proof.
  apply (base_hook_registration row_count_cls "_pandas" "table.row_count" "value"
           pandas_value_method PandasExecutionEngine (FnFunction F_VALUE));
    reflexivity.
Defined.

Lemma base_loop_raises (cls : provider_cls) (x : string * attr_obj)
    (pre post : list (string * attr_obj)) :
  (∀ mn s, ∃ e, (base_register_one cls mn x s).1 = Raise e) →
  ∀ mn s, ∃ e, (base_register_loop cls mn (pre ++ x :: post) s).1 = Raise e.
Proof.
  intros Hx. induction pre as [|y pre IH]; intros mn s; cbn [app base_register_loop].
  - unfold sbind. destruct (Hx mn s) as [e He].
    destruct (base_register_one cls mn x s) as [[?|e'] s']; simpl in *; [done|eauto].
  - unfold sbind. destruct (base_register_one cls mn y s) as [[mn'|e'] s']; simpl;
      [apply IH|eauto].
Qed.

(** X8.  A method whose [metric_engine] is not a subclass of
    [ExecutionEngine] makes the definition of its class raise, under the
    base hook and, for a class that declares a base metric name, under the
    map-metric hook; when no metric precedes it, the error is the
    [ValueError] "metric functions must be defined with an Execution
    Engine" (for the map-metric hook, provided the method has a
    [metric_fn_type]) and nothing has been registered. *)
Theorem non_engine_method_raises (cls : provider_cls)
    (pre post : list (string * attr_obj)) (attr : string) (obj : attr_obj)
    (r : registry) :
  a_metric_engine obj = Some NotAnExecutionEngine →
  (c_kind cls = MetricProvider → c_dir cls = pre ++ (attr, obj) :: post →
   (∃ e, (define_class cls r).1 = Raise e) ∧
   (pre = [] →
    define_class cls r
    = (Raise (ValueError "metric functions must be defined with an Execution Engine"), r))) ∧
  (c_kind cls = MapMetricProvider →
   is_Some (c_condition_metric_name cls) ∨ is_Some (c_function_metric_name cls) →
   c_dict cls = pre ++ (attr, obj) :: post →
   (∃ e, (define_class cls r).1 = Raise e) ∧
   (pre = [] → is_Some (a_metric_fn_type obj) →
    define_class cls r
    = (Raise (ValueError "metric functions must be defined with an Execution Engine"), r))).
Proof.
  intros He. split.
  - intros Hk Hd. unfold define_class, base_register_metric_functions.
    rewrite Hk, Hd.
    assert (∀ mn s, base_register_one cls mn (attr, obj) s
                    = (Raise (ValueError "metric functions must be defined with an Execution Engine"), s))
      as Hone.
    { intros mn s. unfold base_register_one. rewrite He. simpl.
      by destruct (a_renderer_type obj). }
    split.
    + apply base_loop_raises. intros mn s. rewrite Hone. eauto.
    + intros ->. cbn [app base_register_loop]. unfold sbind. by rewrite Hone.
  - intros Hk Hname Hd.
    assert (define_class cls r = sfor (c_dict cls) (map_register_one cls) r) as ->.
    { unfold define_class, map_register_metric_functions. rewrite Hk.
      destruct Hname as [[n Hn]|[n Hn]]; rewrite Hn;
        by destruct (c_function_metric_name cls). }
    rewrite Hd. split.
    + apply (sfor_raises (map_register_one cls) pre post (attr, obj)).
      intros s. unfold map_register_one. rewrite He.
      destruct (a_metric_fn_type obj); simpl; eauto.
    + intros -> [ft Hft]. cbn [app sfor]. unfold sbind, map_register_one.
      by rewrite He, Hft.
Qed.

Lemma non_engine_method_raises_witness :
  define_class (provider_subclass "Stray" (Some "stray") [("_fn", stray_method)])
    empty_registry
  = (Raise (ValueError "metric functions must be defined with an Execution Engine"),
     empty_registry)
  ∧
  define_class (map_provider_subclass "Stray" (Some "stray") None [("_fn", stray_method)])
    empty_registry
  = (Raise (ValueError "metric functions must be defined with an Execution Engine"),
     empty_registry).
Proof.
  split.
  - apply (proj1 (non_engine_method_raises
                    (provider_subclass "Stray" (Some "stray") [("_fn", stray_method)])
                    [] [] "_fn" stray_method empty_registry eq_refl));
      reflexivity.
  - apply (proj2 (non_engine_method_raises
                    (map_provider_subclass "Stray" (Some "stray") None
                       [("_fn", stray_method)])
                    [] [] "_fn" stray_method empty_registry eq_refl));
      try reflexivity.
    + left. by eexists.
    + by eexists.
Defined.

(** ** The in-memory backend, further *)

(** X9.  [unexpected_index_list] on the in-memory backend: with a condition
    aligned with the column, result format COMPLETE returns the row
    labels of the rows on which the condition is true, in row order; any
    other result format with a count [n ≥ 0] returns the first [n] of
    them. *)
Theorem unexpected_index_list_labels
    (cls : provider_cls) (engine : PandasEngine) (dk vk : kwargs)
    (metrics : gmap string (Series bool)) (call_kw : kwargs)
    (mask : Series bool) (cdk adk : kwargs) (df : DataFrame)
    (col : pyval) (s : Series pyval) (rf : list (string * pyval)) (fmt : pyval) :
  metrics !! "unexpected_condition" = Some mask →
  pd_get_compute_domain engine dk None = Ok (df, cdk, adk) →
  adk !! "column" = Some col →
  df_column df col = Ok s →
  let data := if truthy (filter_column_isnull_flag call_kw cls false)
              then drop_nulls s else s in
  data.*1 = mask.*1 →
  vk !! "result_format" = Some (VDict rf) →
  assoc "result_format" rf = Some fmt →
  let labels := (List.filter snd (zip data (mask.*2))).*1.*1 in
  (py_eqb fmt (VStr "COMPLETE") = true →
   _pandas_column_map_index cls engine dk vk metrics call_kw = Ok labels) ∧
  (py_eqb fmt (VStr "COMPLETE") = false →
   ∀ n, 0 ≤ n → assoc "partial_unexpected_count" rf = Some (VInt n) →
   _pandas_column_map_index cls engine dk vk metrics call_kw
   = Ok (take (Z.to_nat n) labels)).
Proof.
  intros Hdep Hdom Hcol Hs data Halign Hrf Hfmt labels.
  unfold _pandas_column_map_index. rewrite Hdom. simpl.
  destruct (filter_nulls_column (filter_column_isnull_flag call_kw cls false)
              df adk col s Hcol Hs) as (df' & -> & Hc). simpl.
  rewrite (getitem_Some _ _ _ Hcol). simpl. rewrite Hc. simpl.
  rewrite (getitem_Some _ _ _ Hrf). simpl. rewrite Hfmt, Hdep. simpl.
  fold data. rewrite series_eq_True_id, bool_index_aligned by done.
  rewrite keep_by_position_zip. simpl. fold labels. split.
  - by intros ->.
  - intros -> n Hn Hcount. rewrite Hcount. simpl.
    by rewrite (proj2 (Z.leb_le 0 n) Hn).
Qed.

Lemma unexpected_index_list_labels_witness :
  _pandas_column_map_index some_map_provider (table_engine twelve_frame)
    column_a {[ "result_format" := complete_format ]}
    {[ "unexpected_condition" := ten_of_twelve ]} ∅
  = Ok [0; 1; 3; 4; 5; 6; 8; 9; 10; 11]
  ∧
  _pandas_column_map_index some_map_provider (table_engine twelve_frame)
    column_a {[ "result_format" := summary_format 4 ]}
    {[ "unexpected_condition" := ten_of_twelve ]} ∅
  = Ok [0; 1; 3; 4].
Proof.
  destruct (unexpected_index_list_labels some_map_provider
              (table_engine twelve_frame) column_a
              {[ "result_format" := complete_format ]}
              {[ "unexpected_condition" := ten_of_twelve ]} ∅
              ten_of_twelve column_a column_a twelve_frame (VStr "a") twelve_column
              [("result_format", VStr "COMPLETE")] (VStr "COMPLETE"))
    as [Hcomplete _]; [vm_compute; reflexivity..|].
  destruct (unexpected_index_list_labels some_map_provider
              (table_engine twelve_frame) column_a
              {[ "result_format" := summary_format 4 ]}
              {[ "unexpected_condition" := ten_of_twelve ]} ∅
              ten_of_twelve column_a column_a twelve_frame (VStr "a") twelve_column
              [("result_format", VStr "SUMMARY"); ("partial_unexpected_count", VInt 4)]
              (VStr "SUMMARY"))
    as [_ Hsummary]; [vm_compute; reflexivity..|].
  split.
  - rewrite Hcomplete by reflexivity. reflexivity.
  - rewrite (Hsummary eq_refl 4) by (lia || reflexivity). reflexivity.
Defined.

(** X10.  [unexpected_values] on the in-memory backend, for a condition
    that carries exactly the row labels of the column the provider itself
    selects (without its null rows if the provider filters them).  For
    every result format other than COMPLETE it truncates by the slice
    [: n]: a count [n ≥ 0] keeps the first [n] unexpected values (none for
    0, all of them when there are fewer than [n]), so the result is never
    longer than [n]; a negative count drops the last [-n] values; and a
    format without "partial_unexpected_count" raises [KeyError]. *)
Theorem unexpected_values_slice
    (cls : provider_cls) (engine : PandasEngine) (dk vk : kwargs)
    (metrics : gmap string (Series bool * kwargs * kwargs)) (call_kw : kwargs)
    (mask : Series bool) (cdk adk0 cdk' adk : kwargs) (df : DataFrame)
    (col : pyval) (s : Series pyval) (rf : list (string * pyval)) (fmt : pyval) :
  metrics !! "unexpected_condition" = Some (mask, cdk, adk0) →
  pd_get_compute_domain engine cdk None = Ok (df, cdk', adk) →
  adk !! "column" = Some col →
  df_column df col = Ok s →
  let data := if truthy (filter_column_isnull_flag call_kw cls false)
              then drop_nulls s else s in
  data.*1 = mask.*1 →
  vk !! "result_format" = Some (VDict rf) →
  assoc "result_format" rf = Some fmt →
  py_eqb fmt (VStr "COMPLETE") = false →
  let unexpected := (List.filter snd (zip data (mask.*2))).*1.*2 in
  (∀ n, assoc "partial_unexpected_count" rf = Some (VInt n) →
     (0 ≤ n →
      _pandas_column_map_values cls engine dk vk metrics call_kw
      = Ok (take (Z.to_nat n) unexpected) ∧
      (length (take (Z.to_nat n) unexpected) ≤ Z.to_nat n)%nat) ∧
     (n < 0 →
      _pandas_column_map_values cls engine dk vk metrics call_kw
      = Ok (take (length unexpected - Z.to_nat (- n)) unexpected))) ∧
  (assoc "partial_unexpected_count" rf = None →
   _pandas_column_map_values cls engine dk vk metrics call_kw = Raise KeyError).
Proof.
  intros Hdep Hdom Hcol Hs data Halign Hrf Hfmt Hnc unexpected.
  rewrite (pandas_values_by_format cls engine dk vk metrics call_kw mask
             cdk adk0 cdk' adk df col s rf fmt Hdep Hdom Hcol Hs Halign Hrf Hfmt).
  rewrite Hnc. simpl. split.
  - intros n ->. simpl. split.
    + intros Hn. rewrite (proj2 (Z.leb_le 0 n) Hn). simpl.
      rewrite fmap_take. split; [done|]. rewrite length_take. lia.
    + intros Hn. rewrite (proj2 (Z.leb_gt 0 n) Hn). simpl.
      unfold unexpected. by rewrite fmap_take, !length_fmap.
  - by intros ->.
Qed.

Lemma unexpected_values_slice_witness :
  _pandas_column_map_values some_map_provider (table_engine twelve_frame)
    column_a {[ "result_format" := summary_format 4 ]}
    {[ "unexpected_condition" := (ten_of_twelve, column_a, column_a) ]} ∅
  = Ok [VInt 10; VInt 11; VInt 13; VInt 14]
  ∧
  _pandas_column_map_values some_map_provider (table_engine twelve_frame)
    column_a {[ "result_format" := summary_format (-8) ]}
    {[ "unexpected_condition" := (ten_of_twelve, column_a, column_a) ]} ∅
  = Ok [VInt 10; VInt 11].
Proof.
  destruct (unexpected_values_slice some_map_provider
              (table_engine twelve_frame) column_a
              {[ "result_format" := summary_format 4 ]}
              {[ "unexpected_condition" := (ten_of_twelve, column_a, column_a) ]} ∅
              ten_of_twelve column_a column_a column_a column_a
              twelve_frame (VStr "a") twelve_column
              [("result_format", VStr "SUMMARY"); ("partial_unexpected_count", VInt 4)]
              (VStr "SUMMARY"))
    as [Hpos _]; [vm_compute; reflexivity..|].
  destruct (unexpected_values_slice some_map_provider
              (table_engine twelve_frame) column_a
              {[ "result_format" := summary_format (-8) ]}
              {[ "unexpected_condition" := (ten_of_twelve, column_a, column_a) ]} ∅
              ten_of_twelve column_a column_a column_a column_a
              twelve_frame (VStr "a") twelve_column
              [("result_format", VStr "SUMMARY"); ("partial_unexpected_count", VInt (-8))]
              (VStr "SUMMARY"))
    as [Hneg _]; [vm_compute; reflexivity..|].
  split.
  - destruct (Hpos 4 eq_refl) as [H _]. destruct H as [-> _]; [lia|]. reflexivity.
  - destruct (Hneg (-8) eq_refl) as [_ H]. rewrite H by lia. reflexivity.
Defined.

(** ** The authoring shapes, further *)



(** ** Malformed input on the in-memory backend *)

(** X12.  How [unexpected_values] fails on malformed input.  Without the
    "unexpected_condition" dependency it raises [TypeError] before the
    engine is asked for anything.  With the dependency and a resolvable
    column: value kwargs without "result_format" raise [KeyError], a
    "result_format" that is not a dictionary (such as the plain string
    "BASIC") raises [TypeError], and a dictionary without the key
    "result_format" raises [KeyError]. *)
Theorem unexpected_values_malformed
    (cls : provider_cls) (engine : PandasEngine) (dk vk : kwargs)
    (metrics : gmap string (Series bool * kwargs * kwargs)) (call_kw : kwargs) :
  (metrics !! "unexpected_condition" = None →
   _pandas_column_map_values cls engine dk vk metrics call_kw = Raise TypeError) ∧
  (∀ mask cdk adk0 df cdk' adk col s,
     metrics !! "unexpected_condition" = Some (mask, cdk, adk0) →
     pd_get_compute_domain engine cdk None = Ok (df, cdk', adk) →
     adk !! "column" = Some col →
     df_column df col = Ok s →
     (vk !! "result_format" = None →
      _pandas_column_map_values cls engine dk vk metrics call_kw = Raise KeyError) ∧
     (∀ rf, vk !! "result_format" = Some rf →
        match rf with
        | VDict d =>
            assoc "result_format" d = None →
            _pandas_column_map_values cls engine dk vk metrics call_kw = Raise KeyError
        | _ => _pandas_column_map_values cls engine dk vk metrics call_kw = Raise TypeError
        end)).
Proof.
  split.
  - intros Hdep. unfold _pandas_column_map_values. by rewrite Hdep.
  - intros mask cdk adk0 df cdk' adk col s Hdep Hdom Hcol Hs.
    unfold _pandas_column_map_values. rewrite Hdep. simpl. rewrite Hdom. simpl.
    destruct (filter_nulls_column (filter_column_isnull_flag call_kw cls false)
                df adk col s Hcol Hs) as (df' & -> & Hc). simpl.
    rewrite (getitem_Some _ _ _ Hcol). simpl. rewrite Hc. simpl. split.
    + intros Hrf. unfold getitem. by rewrite Hrf.
    + intros rf Hrf. rewrite (getitem_Some _ _ _ Hrf). simpl.
      destruct rf; try done. intros Hnone. simpl. by rewrite Hnone.
Qed.

Lemma unexpected_values_malformed_witness :
  _pandas_column_map_values some_map_provider (table_engine twelve_frame)
    column_a {[ "result_format" := VStr "BASIC" ]} ∅ ∅
  = Raise TypeError
  ∧
  _pandas_column_map_values some_map_provider (table_engine twelve_frame)
    column_a {[ "result_format" := VStr "BASIC" ]}
    {[ "unexpected_condition" := (ten_of_twelve, column_a, column_a) ]} ∅
  = Raise TypeError.
Proof.
  split.
  - apply (proj1 (unexpected_values_malformed some_map_provider
                    (table_engine twelve_frame) column_a
                    {[ "result_format" := VStr "BASIC" ]} ∅ ∅)).
    reflexivity.
  - destruct (proj2 (unexpected_values_malformed some_map_provider
                       (table_engine twelve_frame) column_a
                       {[ "result_format" := VStr "BASIC" ]}
                       {[ "unexpected_condition" := (ten_of_twelve, column_a, column_a) ]} ∅)
                ten_of_twelve column_a column_a twelve_frame column_a column_a
                (VStr "a") twelve_column)
      as [_ H]; [vm_compute; reflexivity..|].
    apply (H (VStr "BASIC")). vm_compute. reflexivity.
Defined.

(** X13.  [unexpected_rows] on the in-memory backend, for a condition
    aligned with the frame.  Under result format COMPLETE it returns the
    frame restricted to the rows on which the condition is true, with all
    its columns and in row order.  Under any other format with an integer
    "partial_unexpected_count", on a frame in which at most one column has
    that integer as its label, it never returns a frame: the count is used
    as a column label, so the result is that column of the selected rows
    if the frame has a column of that label, and [KeyError] otherwise. *)
Theorem unexpected_rows_shape
    (cls : provider_cls) (engine : PandasEngine) (dk vk : kwargs)
    (metrics : gmap string (Series bool)) (call_kw : kwargs)
    (mask : Series bool) (cdk adk : kwargs) (df df' : DataFrame)
    (rf : list (string * pyval)) (fmt : pyval) :
  metrics !! "unexpected_condition" = Some mask →
  pd_get_compute_domain engine dk None = Ok (df, cdk, adk) →
  filter_nulls (filter_column_isnull_flag call_kw cls false) df adk = Ok df' →
  (df_rows df').*1 = mask.*1 →
  vk !! "result_format" = Some (VDict rf) →
  assoc "result_format" rf = Some fmt →
  let selected :=
    mkDF (df_columns df') (List.filter snd (zip (df_rows df') (mask.*2))).*1 in
  (py_eqb fmt (VStr "COMPLETE") = true →
   _pandas_column_map_rows cls engine dk vk metrics call_kw = Ok (PFrame selected)) ∧
  (py_eqb fmt (VStr "COMPLETE") = false →
   ∀ n, assoc "partial_unexpected_count" rf = Some (VInt n) →
     (length (List.filter (py_eqb (VInt n)) (df_columns df')) ≤ 1)%nat →
     (∀ frame, _pandas_column_map_rows cls engine dk vk metrics call_kw
               ≠ Ok (PFrame frame)) ∧
     _pandas_column_map_rows cls engine dk vk metrics call_kw
     = (s ← df_column selected (VInt n); Ok (PSeries s))).
Proof.
  intros Hdep Hdom Hflt Halign Hrf Hfmt selected.
  rewrite (pandas_rows_by_format cls engine dk vk metrics call_kw mask cdk adk
             df df' rf fmt Hdep Hdom Hflt Halign Hrf Hfmt).
  split; intros ->; [done|]. intros n Hn _. simpl. rewrite Hn. simpl.
  fold selected. split; [|done]. intros frame.
  by destruct (df_column selected (VInt n)).
Qed.

Lemma unexpected_rows_shape_witness :
  _pandas_column_map_rows some_map_provider (table_engine twelve_frame)
    column_a {[ "result_format" := complete_format ]}
    {[ "unexpected_condition" := ten_of_twelve ]} ∅
  = Ok (PFrame (mkDF (df_columns twelve_frame)
                  (List.filter snd (zip (df_rows twelve_frame) (ten_of_twelve.*2))).*1)).
Proof.
  unshelve epose proof
    (unexpected_rows_shape some_map_provider (table_engine twelve_frame)
       column_a {[ "result_format" := complete_format ]}
       {[ "unexpected_condition" := ten_of_twelve ]} ∅
       ten_of_twelve column_a column_a twelve_frame twelve_frame
       [("result_format", VStr "COMPLETE")] (VStr "COMPLETE") _ _ _ _ _ _) as H;
    [vm_compute; reflexivity..|].
  apply (proj1 H). reflexivity.
Defined.

(** X14.  [unexpected_value_counts] on the in-memory backend never returns:
    whatever the engine, the data, the dependency, the result format and
    the behaviour of the library's grouping, the call raises.  (A grouping
    that succeeds is followed by the truth test of its result, which
    raises; one that fails twice by the hard error; any other failure is
    passed on.) *)
Theorem value_counts_always_raises
    (lib : PandasLib) (cls : provider_cls) (engine : PandasEngine) (dk vk : kwargs)
    (metrics : gmap string (Series bool)) (call_kw : kwargs) :
  ∃ e, _pandas_column_map_value_counts lib cls engine dk vk metrics call_kw = Raise e.
Proof.
  unfold _pandas_column_map_value_counts.
  destruct (pd_get_compute_domain engine dk None) as [[[df cdk] adk]|e];
    simpl; [|eauto].
  destruct (filter_nulls _ df adk) as [df'|e]; simpl; [|eauto].
  destruct (getitem adk "column") as [col|e]; simpl; [|eauto].
  destruct (df_column df' col) as [data|e]; simpl; [|eauto].
  destruct (getitem vk "result_format") as [rf|e]; simpl; [|eauto].
  match goal with
  | |- ∃ e, (?vc ≫= _) = _ => destruct vc as [[h|]|e] eqn:Hvc
  end; simpl; eauto.
Qed.

(** ** The SQL backend, further *)

(** X15.  When the kwargs recorded with the condition agree with the
    compute domain kwargs, [unexpected_values] and [unexpected_rows] on the
    SQL backend send exactly one query each: it selects from the resolved
    selectable and filters by the condition itself.  Under result format
    COMPLETE the query has no limit; under any other format with an
    integer "partial_unexpected_count" that integer is the limit.  A
    format other than COMPLETE without that key raises [KeyError], one
    whose count is a list or a dictionary raises [TypeError] where the
    query is built; in both cases nothing is sent. *)
Theorem sql_providers_send_one_query
    (eng : SqlEngine) (dk vk : kwargs) (metrics : gmap string (sa_expr * kwargs))
    (cond : sa_expr) (fn_dk cdk adk : kwargs) (sel : string) (log : list sa_query)
    (rf : list (string * pyval)) (fmt : pyval) :
  sql_get_compute_domain eng dk None = Ok (sel, cdk, adk) →
  metrics !! "unexpected_condition" = Some (cond, fn_dk) →
  kwargs_eqb fn_dk cdk = true →
  vk !! "result_format" = Some (VDict rf) →
  assoc "result_format" rf = Some fmt →
  let sent lim :=
    _sqlalchemy_column_map_values eng dk vk metrics log
    = (rows ← sql_fetchall eng (values_query sel adk cond lim);
       mapM (λ val, row_attr val "unexpected_values") rows,
       log ++ [values_query sel adk cond lim]) ∧
    _sqlalchemy_column_map_rows eng dk vk metrics log
    = (sql_fetchall eng (rows_query sel cond lim),
       log ++ [rows_query sel cond lim]) in
  let refused e :=
    _sqlalchemy_column_map_values eng dk vk metrics log = (Raise e, log) ∧
    _sqlalchemy_column_map_rows eng dk vk metrics log = (Raise e, log) in
  (py_eqb fmt (VStr "COMPLETE") = true → sent None) ∧
  (py_eqb fmt (VStr "COMPLETE") = false →
   (∀ n, assoc "partial_unexpected_count" rf = Some (VInt n) → sent (Some (VInt n))) ∧
   (assoc "partial_unexpected_count" rf = None → refused KeyError) ∧
   (∀ v, assoc "partial_unexpected_count" rf = Some v →
         (∃ l, v = VList l) ∨ (∃ d, v = VDict d) → refused TypeError)).
Proof.
  intros Hdom Hdep Heq Hrf Hfmt sent refused. subst sent refused.
  unfold _sqlalchemy_column_map_values, _sqlalchemy_column_map_rows,
    sbind, slift, sret, execute.
  rewrite Hdom, Hdep, (getitem_Some _ _ _ Hrf). cbn [unpack_pair].
  rewrite Heq. cbn [assert sret subscript]. rewrite Hfmt. split.
  - intros ->. cbn [negb]. split; [|done]. by destruct (sql_fetchall eng _).
  - intros ->. cbn [negb]. split; [|split].
    + intros n ->. simpl. split; [|done]. by destruct (sql_fetchall eng _).
    + by intros ->.
    + intros v -> [[l ->]|[d ->]]; done.
Qed.

Lemma sql_providers_send_one_query_witness :
  _sqlalchemy_column_map_values sql_example_engine column_a
    {[ "result_format" := basic_format 3 ]}
    {[ "unexpected_condition" := (SaFragment "a > 2", column_a) ]} []
  = (Ok [VInt 1],
     [values_query "t" column_a (SaFragment "a > 2") (Some (VInt 3))]).
Proof.
  unshelve epose proof
    (sql_providers_send_one_query sql_example_engine column_a
       {[ "result_format" := basic_format 3 ]}
       {[ "unexpected_condition" := (SaFragment "a > 2", column_a) ]}
       (SaFragment "a > 2") column_a column_a
       (filter (λ kv, kv.1 = "column") column_a) "t" []
       [("result_format", VStr "BASIC"); ("partial_unexpected_count", VInt 3)]
       (VStr "BASIC") _ _ _ _ _) as H;
    [vm_compute; reflexivity..|].
  destruct H as [_ H]. destruct (H eq_refl) as [H3 _].
  destruct (H3 3 eq_refl) as [-> _]. vm_compute. reflexivity.
Defined.

(** ** The distributed backend, further *)

Lemma assoc_set_cell (name : string) (v : pyval) (row : SparkRow) :
  assoc name (set_cell name v row) = Some v.
Proof.
  induction row as [|[k w] row IH]; simpl.
  - by rewrite String.eqb_refl.
  - destruct (String.eqb k name) eqn:E; simpl.
    + by rewrite String.eqb_sym, E.
    + by rewrite String.eqb_sym, E.
Qed.

Lemma drop_set_cell (name : string) (v : pyval) (row : SparkRow) :
  lacks_column name row →
  List.filter (λ c, negb (String.eqb c.1 name)) (set_cell name v row) = row.
Proof.
  unfold lacks_column. induction row as [|[k w] row IH]; simpl.
  - by rewrite String.eqb_refl.
  - rewrite String.eqb_sym. destruct (String.eqb k name) eqn:E; [done|].
    intros Hrow. simpl. rewrite E. simpl. by rewrite IH.
Qed.

Lemma drop_no_column (name : string) (row : SparkRow) :
  assoc name (List.filter (λ c, negb (String.eqb c.1 name)) row) = None.
Proof.
  induction row as [|[k w] row IH]; simpl; [done|].
  destruct (String.eqb k name) eqn:E; simpl; [done|].
  by rewrite String.eqb_sym, E.
Qed.

(** X16.  The rows a provider of the distributed backend works on.  Adding
    the column "__unexpected", filtering on it and dropping it again
    returns, for data that has no column of that name, exactly the rows of
    the data on which the condition evaluates to true, unchanged and in
    order; rows on which it is null or false are left out.  Whatever the
    data, no returned row has a cell "__unexpected", and no more rows are
    returned than there are. *)
Theorem unexpected_rows_filter (data : SparkDF) (condition : SparkColumn) :
  (Forall (lacks_column "__unexpected") data →
   unexpected_rows data condition
   = List.filter (λ row, py_eqb (condition row) (VBool true)) data) ∧
  Forall (lacks_column "__unexpected") (unexpected_rows data condition) ∧
  (length (unexpected_rows data condition) ≤ length data)%nat.
Proof.
  unfold unexpected_rows, drop_column, filter_true, withColumn. split; [|split].
  - induction 1 as [|row data Hrow _ IH]; [done|].
    cbn [map List.filter]. rewrite assoc_set_cell.
    destruct (py_eqb (condition row) (VBool true)); [|done].
    cbn [map]. by rewrite drop_set_cell, IH.
  - apply Forall_forall. intros row Hin.
    apply list_elem_of_fmap in Hin as (row' & -> & _). apply drop_no_column.
  - rewrite length_map. etrans; [apply List.filter_length_le|]. by rewrite length_map.
Qed.

Lemma unexpected_rows_filter_witness :
  unexpected_rows spark_example_table not_greater_than_two
  = List.filter (λ row, py_eqb (not_greater_than_two row) (VBool true))
      spark_example_table.
Proof.
  apply (proj1 (unexpected_rows_filter spark_example_table not_greater_than_two)).
  repeat constructor.
Defined.

(** X17.  Count and rows agree on the distributed backend: for the same
    condition dependency, [unexpected_count] (the data form) returns the
    number of rows that [unexpected_rows] returns under result format
    COMPLETE, and fails exactly when the latter fails before reading the
    format. *)
Theorem spark_count_matches_rows
    (eng : SparkEngine) (dk dk' vk vk' : kwargs)
    (metrics : gmap string (SparkColumn * kwargs)) (rf : list (string * pyval)) :
  vk !! "result_format" = Some (VDict rf) →
  assoc "result_format" rf = Some (VStr "COMPLETE") →
  _spark_map_unexpected_count_data eng dk' vk' metrics
  = (rows ← _spark_column_map_rows eng dk vk metrics; Ok (Z.of_nat (length rows))).
Proof.
  intros Hrf Hfmt. unfold _spark_map_unexpected_count_data, _spark_column_map_rows.
  destruct (unpack_pair (metrics !! "unexpected_condition")) as [[cond fn_dk]|e];
    simpl; [|done].
  destruct (sp_get_compute_domain eng fn_dk None) as [[[data cdk] adk]|e];
    simpl; [|done].
  rewrite (getitem_Some _ _ _ Hrf). simpl. by rewrite Hfmt.
Qed.

Lemma spark_count_matches_rows_witness :
  _spark_map_unexpected_count_data spark_example_engine column_a ∅
    {[ "unexpected_condition" := (not_greater_than_two, filtered_column_a) ]}
  = (rows ← _spark_column_map_rows spark_example_engine column_a
              {[ "result_format" := complete_format ]}
              {[ "unexpected_condition" := (not_greater_than_two, filtered_column_a) ]};
     Ok (Z.of_nat (length rows))).
Proof.
  apply (spark_count_matches_rows spark_example_engine column_a column_a
           {[ "result_format" := complete_format ]} ∅
           {[ "unexpected_condition" := (not_greater_than_two, filtered_column_a) ]}
           [("result_format", VStr "COMPLETE")]);
    vm_compute; reflexivity.
Defined.

(** X18.  Truncation on the distributed backend: under a result format
    other than COMPLETE with a count [n ≥ 0], [unexpected_rows] returns
    the first [n] of the rows it returns under COMPLETE for the same
    dependency, and [unexpected_values] the values of the first [n]
    unexpected rows. *)
Theorem spark_limit_is_prefix
    (eng : SparkEngine) (dk vk : kwargs)
    (metrics : gmap string (SparkColumn * kwargs)) (cond : SparkColumn)
    (fn_dk cdk adk : kwargs) (data : SparkDF)
    (rf : list (string * pyval)) (fmt : pyval) (n : Z) :
  metrics !! "unexpected_condition" = Some (cond, fn_dk) →
  sp_get_compute_domain eng fn_dk None = Ok (data, cdk, adk) →
  vk !! "result_format" = Some (VDict rf) →
  assoc "result_format" rf = Some fmt →
  py_eqb fmt (VStr "COMPLETE") = false →
  assoc "partial_unexpected_count" rf = Some (VInt n) → 0 ≤ n →
  _spark_column_map_rows eng dk vk metrics
  = Ok (take (Z.to_nat n) (unexpected_rows data cond)) ∧
  (∀ col, dk !! "column" = Some col →
     _spark_column_map_values eng dk vk metrics
     = (sel ← select_column (unexpected_rows data cond) col;
        mapM (λ row, row_getitem row col) (take (Z.to_nat n) sel))).
Proof.
  intros Hdep Hdom Hrf Hfmt Hnc Hcount Hn.
  unfold _spark_column_map_rows, _spark_column_map_values.
  rewrite Hdep. simpl. rewrite Hdom. simpl.
  rewrite (getitem_Some _ _ _ Hrf). simpl. rewrite Hfmt. simpl.
  rewrite Hnc, Hcount. simpl. rewrite (proj2 (Z.leb_le 0 n) Hn). split; [done|].
  intros col Hcol. rewrite (getitem_Some _ _ _ Hcol). simpl.
  by destruct (select_column _ col).
Qed.

Lemma spark_limit_is_prefix_witness :
  _spark_column_map_rows spark_example_engine column_a
    {[ "result_format" := basic_format 1 ]}
    {[ "unexpected_condition" := (not_greater_than_two, column_a) ]}
  = Ok (take 1 (unexpected_rows spark_example_table not_greater_than_two)).
Proof.
  apply (spark_limit_is_prefix spark_example_engine column_a
           {[ "result_format" := basic_format 1 ]}
           {[ "unexpected_condition" := (not_greater_than_two, column_a) ]}
           not_greater_than_two column_a column_a
           (filter (λ kv, kv.1 = "column") column_a) spark_example_table
           [("result_format", VStr "BASIC"); ("partial_unexpected_count", VInt 1)]
           (VStr "BASIC") 1);
    (vm_compute; reflexivity) || lia.
Defined.

(** ** The stores, further *)

Section store_more.
Import EvaluationParameterStore.
Context {K : Type} `{EqDecision K} {V : Type}.
Implicit Types (d : list (K * V)) (s : t K V) (k : K) (v : V).

Lemma dict_get_keys d k : is_Some (dict_get d k) ↔ k ∈ d.*1.
Proof.
  induction d as [|[k' v'] d IH]; simpl.
  - split; [by intros [? ?]|by intros ?%elem_of_nil].
  - rewrite elem_of_cons. destruct (decide (k' = k)) as [->|Hne].
    + split; [by left|by eexists].
    + rewrite IH. split; [by right|]. intros [?|?]; [congruence|done].
Qed.

Lemma dict_set_keys_eq d k v :
  (dict_set d k v).*1 = if bool_decide (k ∈ d.*1) then d.*1 else d.*1 ++ [k].
Proof.
  induction d as [|[k' v'] d IH].
  - by rewrite bool_decide_eq_false_2 by apply not_elem_of_nil.
  - cbn [dict_set]. rewrite fmap_cons. cbn [fst].
    destruct (decide (k' = k)) as [->|Hne].
    + by rewrite bool_decide_eq_true_2 by apply list_elem_of_here.
    + rewrite fmap_cons, IH. cbn [fst].
      destruct (bool_decide (k ∈ d.*1)) eqn:E.
      * apply bool_decide_eq_true in E.
        by rewrite bool_decide_eq_true_2 by (by apply list_elem_of_further).
      * apply bool_decide_eq_false in E.
        rewrite bool_decide_eq_false_2; [done|].
        rewrite not_elem_of_cons. split; [congruence|done].
Qed.

(** X19.  [set] touches one key only: for every other key [get] and
    [has_key] answer as before, and setting a key a second time replaces
    its value without adding a key. *)
Theorem store_set_frame s k k' v v' :
  (k' ≠ k →
   get (set s k v) k' = get s k' ∧ has_key (set s k v) k' = has_key s k') ∧
  get (set (set s k v) k v') k = Ok v' ∧
  list_keys (set (set s k v) k v') = list_keys (set s k v).
Proof.
  split; [|split].
  - intros Hne. unfold get, has_key, set. simpl.
    by rewrite dict_get_set_ne by done.
  - unfold get, set. simpl. by rewrite dict_get_set_eq.
  - unfold list_keys, set. simpl. rewrite (dict_set_keys_eq (dict_set _ _ _)).
    by rewrite bool_decide_eq_true_2 by apply dict_set_keys.
Qed.

(** X20.  [list_keys] follows the order of first insertion: setting a key
    the store has leaves the list as it is, setting a new key puts it
    last; and in a store built from [__init__] by [set] calls no key is
    listed twice. *)
Theorem store_keys_in_insertion_order s k v (calls : list (K * V)) :
  list_keys (set s k v)
  = (if has_key s k then list_keys s else list_keys s ++ [k]) ∧
  NoDup (list_keys (set_all init calls)).
Proof.
  split.
  - unfold list_keys, has_key, set. simpl. rewrite dict_set_keys_eq.
    destruct (bool_decide (k ∈ (store s).*1)) eqn:E.
    + apply bool_decide_eq_true in E.
      by rewrite bool_decide_eq_true_2 by (by apply dict_get_keys).
    + apply bool_decide_eq_false in E.
      by rewrite bool_decide_eq_false_2 by (by rewrite dict_get_keys).
  - assert (∀ s0 : t K V, NoDup (list_keys s0) →
                          NoDup (list_keys (set_all s0 calls))) as Hgen.
    { induction calls as [|[k0 v0] calls IH]; intros s0 Hs0; [done|].
      change (set_all s0 ((k0, v0) :: calls)) with (set_all (set s0 k0 v0) calls).
      apply IH. unfold list_keys, set in *. simpl. rewrite dict_set_keys_eq.
      destruct (bool_decide (k0 ∈ (store s0).*1)) eqn:E; [done|].
      apply bool_decide_eq_false in E. apply NoDup_app. split; [done|].
      split; [|apply NoDup_singleton].
      intros x Hx ->%list_elem_of_singleton. done. }
    apply Hgen. constructor.
Qed.

(** X21.  The three readers agree: [has_key(k)] is true exactly when [k] is
    among [list_keys()], exactly when [get(k)] returns a value; otherwise
    [get(k)] raises [KeyError] and nothing else. *)
Theorem store_readers_agree s k :
  (has_key s k = true ↔ k ∈ list_keys s) ∧
  (has_key s k = true ↔ ∃ v, get s k = Ok v) ∧
  (has_key s k = false ↔ get s k = Raise KeyError).
Proof.
  unfold has_key, list_keys, get. rewrite bool_decide_eq_true.
  split; [apply dict_get_keys|]. split.
  - split.
    + intros [v Hv]. rewrite Hv. eauto.
    + intros [v Hv]. destruct (dict_get (store s) k); [by eexists|done].
  - rewrite bool_decide_eq_false. split.
    + intros Hn. destruct (dict_get (store s) k); [|done].
      exfalso. apply Hn. by eexists.
    + intros Hg [v Hv]. by rewrite Hv in Hg.
Qed.
End store_more.

Lemma store_set_frame_witness :
  let s := EvaluationParameterStore.set_all EvaluationParameterStore.init
             [("urn:a", 1); ("urn:b", 2)] in
  EvaluationParameterStore.get (EvaluationParameterStore.set s "urn:c" 3) "urn:a"
  = EvaluationParameterStore.get s "urn:a" ∧
  EvaluationParameterStore.has_key (EvaluationParameterStore.set s "urn:c" 3) "urn:a"
  = EvaluationParameterStore.has_key s "urn:a".
Proof.
  intros s.
  apply (proj1 (store_set_frame s "urn:c" "urn:a" 3 3)). discriminate.
Defined.

Section serializing_store_facts.
Context {B V : Type}.
Variable lib : Serializers V.
Variable backend : StoreBackend B V.

(** X22.  A [BasicInMemoryStore] accepts string keys only: [set] and [get]
    with any other key raise the assertion error before anything is
    serialized or the backend is asked, whatever the serialization type. *)
Theorem store_key_must_be_string (own_type key ser : pyval) (value : V) (b : B) :
  (∀ s, key ≠ VStr s) →
  store_set lib backend BasicInMemoryStore own_type key value ser b
  = (Raise (AssertionError ""), b) ∧
  store_get lib backend BasicInMemoryStore own_type key ser b
  = (Raise (AssertionError ""), b).
Proof.
  intros Hk. unfold store_set, store_get, sbind, slift.
  destruct key; try done. by destruct (Hk s).
Qed.

(** X23.  What [get] returns for a key just [set], on a backend that hands
    back under a key what was stored under it.  With no serialization type
    (neither given nor the store's own) it is the value itself; with
    "json" it is [json.loads] of [json.dumps] of the value, and [set]
    fails with the error of [json.dumps] without touching the backend
    when the value cannot be dumped. *)
Theorem store_round_trip (key : string) (value : V) (b b' b'' : B) :
  (sb_set backend [VStr key] value b = (Ok tt, b') →
   sb_get backend [VStr key] b' = (Ok value, b'') →
   store_set lib backend BasicInMemoryStore VNone (VStr key) value VNone b
   = (Ok tt, b') ∧
   store_get lib backend BasicInMemoryStore VNone (VStr key) VNone b'
   = (Ok value, b'')) ∧
  (∀ sv, json_dumps lib value = Ok sv →
     sb_set backend [VStr key] sv b = (Ok tt, b') →
     sb_get backend [VStr key] b' = (Ok sv, b'') →
     store_set lib backend BasicInMemoryStore VNone (VStr key) value (VStr "json") b
     = (Ok tt, b') ∧
     store_get lib backend BasicInMemoryStore VNone (VStr key) (VStr "json") b'
     = (json_loads lib sv, b'')) ∧
  (∀ e, json_dumps lib value = Raise e →
     store_set lib backend BasicInMemoryStore VNone (VStr key) value (VStr "json") b
     = (Raise e, b)).
Proof.
  unfold store_set, store_get, sbind, slift. simpl. split; [|split].
  - intros Hset Hget. by rewrite Hset, Hget.
  - intros sv Hsv Hset Hget. by rewrite Hsv, Hset, Hget.
  - intros e He. by rewrite He.
Qed.

(** X24.  Serialization types the stores do not know.  [set] with a type
    that is neither [None], "json" nor "pandas_csv" raises [TypeError] (the
    method looked up is [None]) and stores nothing; an empty or otherwise
    false type given to the call defers to the store's own type.  [get]
    with "pandas_csv" first reads the backend and then raises
    [NotImplementedError]: what [set] wrote with that type cannot be read
    back with it. *)
Theorem store_serialization_types (key : string) (value : V)
    (own ser : pyval) (b : B) :
  let used := if truthy ser then ser else own in
  (py_eqb used VNone = false → py_eqb used (VStr "json") = false →
   py_eqb used (VStr "pandas_csv") = false →
   store_set lib backend BasicInMemoryStore own (VStr key) value ser b
   = (Raise TypeError, b)) ∧
  (∀ v b', sb_get backend [VStr key] b = (Ok v, b') →
     store_get lib backend BasicInMemoryStore own (VStr key) (VStr "pandas_csv") b
     = (Raise NotImplementedError, b')).
Proof.
  intros used. split.
  - intros H1 H2 H3. unfold store_set, sbind, slift. simpl. fold used.
    assert ((if truthy ser then _get_serialization_method lib ser
             else _get_serialization_method lib own)
            = _get_serialization_method lib used) as ->
      by (unfold used; by destruct (truthy ser)).
    unfold _get_serialization_method. by rewrite H1, H2, H3.
  - intros v b' Hget. unfold store_get, sbind, slift. simpl. by rewrite Hget.
Qed.
End serializing_store_facts.

Lemma store_key_must_be_string_witness :
  store_set tagging_serializers dict_backend BasicInMemoryStore VNone
    (VInt 3) (VStr "x") VNone []
  = (Raise (AssertionError ""), []).
Proof.
  apply (proj1 (store_key_must_be_string tagging_serializers dict_backend
                  VNone (VInt 3) VNone (VStr "x") [] ltac:(discriminate))).
Defined.

Lemma store_round_trip_witness :
  store_set tagging_serializers dict_backend BasicInMemoryStore VNone
    (VStr "k") (VInt 7) (VStr "json") []
  = (Ok tt, [([VStr "k"], VList [VStr "json"; VInt 7])])
  ∧
  store_get tagging_serializers dict_backend BasicInMemoryStore VNone
    (VStr "k") (VStr "json") [([VStr "k"], VList [VStr "json"; VInt 7])]
  = (Ok (VInt 7), [([VStr "k"], VList [VStr "json"; VInt 7])]).
Proof.
  apply (proj1 (proj2 (store_round_trip tagging_serializers dict_backend "k" (VInt 7)
                         [] [([VStr "k"], VList [VStr "json"; VInt 7])]
                         [([VStr "k"], VList [VStr "json"; VInt 7])]))
           (VList [VStr "json"; VInt 7]));
    reflexivity.
Defined.

Lemma store_serialization_types_witness :
  store_set tagging_serializers dict_backend BasicInMemoryStore VNone
    (VStr "k") (VInt 7) (VStr "yaml") []
  = (Raise TypeError, [])
  ∧
  store_get tagging_serializers dict_backend BasicInMemoryStore VNone
    (VStr "k") (VStr "pandas_csv") [([VStr "k"], VStr "a,b")]
  = (Raise NotImplementedError, [([VStr "k"], VStr "a,b")]).
Proof.
  split.
  - apply (proj1 (store_serialization_types tagging_serializers dict_backend
                    "k" (VInt 7) VNone (VStr "yaml") [])); reflexivity.
  - apply (proj2 (store_serialization_types tagging_serializers dict_backend
                    "k" (VInt 7) VNone (VStr "pandas_csv") [([VStr "k"], VStr "a,b")])
             (VStr "a,b")).
    reflexivity.
Defined.

(** * Batches *)

Section batch_facts.
Context {W Request BatchDef Data Spec Markers Pass AssetNames Batch : Type}.
Variable execution_environment_name : Request → option string.
Variable data_connector_name : Request → string.
Variable batch_data : Request → option Data.
Variable batch_spec_passthrough : Request → option Pass.
Variable set_batch_spec_passthrough : BatchDef → option Pass → BatchDef.
Variable new_Batch :
  option Data → option Request → BatchDef → option Spec → option Markers → Batch.
Variable self_name : string.
Variable data_connectors :
  list (string * DataConnector W Request BatchDef Data Spec Markers AssetNames).

Local Abbreviation validate :=
  (_validate_batch_request execution_environment_name self_name).
Local Abbreviation batch_list :=
  (get_batch_list_from_batch_request execution_environment_name data_connector_name
     batch_data batch_spec_passthrough set_batch_spec_passthrough new_Batch
     self_name data_connectors).
Local Abbreviation single_batch :=
  (get_single_batch_from_batch_request execution_environment_name data_connector_name
     batch_data batch_spec_passthrough set_batch_spec_passthrough new_Batch
     self_name data_connectors).
Local Abbreviation loaded_from req :=
  (λ (b : Batch) (bd : BatchDef), ∃ d s m,
     b = new_Batch d (Some req)
           (set_batch_spec_passthrough bd (batch_spec_passthrough req)) s m).

Lemma load_batches_all
    (dc : DataConnector W Request BatchDef Data Spec Markers AssetNames)
    (req : Request) (defs : list BatchDef) :
  (∀ bd w, ∃ t w', get_batch_data_and_metadata dc bd None w = (Ok t, w')) →
  ∀ acc w, ∃ batches w',
    load_batches batch_spec_passthrough set_batch_spec_passthrough new_Batch
      dc req defs acc w = (Ok (acc ++ batches), w')
    ∧ Forall2 (loaded_from req) batches defs.
Proof.
  intros Htotal. induction defs as [|bd defs IH]; intros acc w.
  - exists [], w. rewrite app_nil_r. by split.
  - cbn [load_batches]. unfold sbind.
    destruct (Htotal (set_batch_spec_passthrough bd (batch_spec_passthrough req)) w)
      as ([[d s] m] & w1 & ->).
    destruct (IH (acc ++ [new_Batch d (Some req)
                            (set_batch_spec_passthrough bd (batch_spec_passthrough req))
                            s m]) w1) as (bs & w' & -> & Hall).
    eexists (_ :: bs), w'. rewrite <- app_assoc. split; [done|].
    constructor; [|done]. by exists d, s, m.
Qed.

Lemma batch_list_without_data (req : Request)
    (dc : DataConnector W Request BatchDef Data Spec Markers AssetNames)
    (defs : list BatchDef) (w w1 : W) :
  validate req = Ok tt →
  connector_of data_connectors (data_connector_name req) = Ok dc →
  batch_data req = None →
  get_batch_definition_list_from_batch_request dc req w = (Ok defs, w1) →
  batch_list req w
  = load_batches batch_spec_passthrough set_batch_spec_passthrough new_Batch
      dc req defs [] w1.
Proof.
  intros Hval Hdc Hdata Hdefs.
  unfold get_batch_list_from_batch_request, sbind, slift.
  by rewrite Hval, Hdc, Hdefs, Hdata.
Qed.

(** X25.  A request that names another execution environment is refused
    before anything else happens: the batch list, the single batch and the
    available definitions all raise the same [ValueError], whatever the
    connectors are (even when the connector named by the request does not
    exist), and no connector is called. *)
Theorem foreign_batch_request_rejected (req : Request) (n : string) (w : W) :
  execution_environment_name req = Some n →
  n ≠ self_name →
  batch_list req w = (Raise (ValueError (name_mismatch_message n self_name)), w)
  ∧ single_batch req w = (Raise (ValueError (name_mismatch_message n self_name)), w)
  ∧ get_available_batch_definitions execution_environment_name data_connector_name
      self_name data_connectors req w
    = (Raise (ValueError (name_mismatch_message n self_name)), w).
Proof.
  intros Hname Hne.
  assert (validate req = Raise (ValueError (name_mismatch_message n self_name)))
    as Hval.
  { unfold _validate_batch_request. rewrite Hname.
    destruct (String.eqb_spec n self_name); [done|done]. }
  unfold get_single_batch_from_batch_request, get_batch_list_from_batch_request,
    get_available_batch_definitions, sbind, slift.
  by rewrite Hval.
Qed.

(** X26.  A request without batch data yields one batch per definition the
    connector lists, in the same order; each batch carries the request and
    its definition, and that definition has been given the request's
    [batch_spec_passthrough] before its data was loaded.  (The connector
    is assumed to load every definition.) *)
Theorem batch_list_one_per_definition
    (req : Request)
    (dc : DataConnector W Request BatchDef Data Spec Markers AssetNames)
    (defs : list BatchDef) (w w1 : W) :
  validate req = Ok tt →
  connector_of data_connectors (data_connector_name req) = Ok dc →
  batch_data req = None →
  get_batch_definition_list_from_batch_request dc req w = (Ok defs, w1) →
  (∀ bd w, ∃ t w', get_batch_data_and_metadata dc bd None w = (Ok t, w')) →
  ∃ batches w',
    batch_list req w = (Ok batches, w')
    ∧ length batches = length defs
    ∧ Forall2 (loaded_from req) batches defs.
Proof.
  intros Hval Hdc Hdata Hdefs Htotal.
  rewrite (batch_list_without_data req dc defs w w1 Hval Hdc Hdata Hdefs).
  destruct (load_batches_all dc req defs Htotal [] w1) as (bs & w' & -> & Hall).
  exists bs, w'. split; [done|]. split; [|done].
  by eapply Forall2_length.
Qed.

(** X27.  A request that carries batch data needs exactly one definition.
    With any other number the call raises [ValueError] and loads nothing;
    with one, the connector is given the data and the result is the single
    batch built from what it returns.  In this branch the definition is
    left as listed: the request's [batch_spec_passthrough] is not copied
    into it. *)
Theorem runtime_batch_needs_one_definition
    (req : Request)
    (dc : DataConnector W Request BatchDef Data Spec Markers AssetNames)
    (data : Data) (defs : list BatchDef) (w w1 : W) :
  validate req = Ok tt →
  connector_of data_connectors (data_connector_name req) = Ok dc →
  batch_data req = Some data →
  get_batch_definition_list_from_batch_request dc req w = (Ok defs, w1) →
  (length defs ≠ 1%nat →
   batch_list req w
   = (Raise (ValueError "When batch_request includes batch_data, it must specify exactly one corresponding BatchDefinition"), w1))
  ∧
  (∀ bd typed s m w2,
     defs = [bd] →
     get_batch_data_and_metadata dc bd (Some data) w1 = (Ok (typed, s, m), w2) →
     batch_list req w = (Ok [new_Batch typed (Some req) bd s m], w2)).
Proof.
  intros Hval Hdc Hdata Hdefs.
  unfold get_batch_list_from_batch_request, sbind, slift.
  rewrite Hval, Hdc, Hdefs, Hdata. split.
  - intros Hlen. by destruct defs as [|bd [|bd' defs]].
  - intros bd typed s m w2 -> Hload. by rewrite Hload.
Qed.

(** X28.  The single batch of a request without batch data.  It exists
    exactly when the connector lists one definition.  With [n] definitions,
    [n] other than one, all [n] batches are loaded first and the call then
    raises [ValueError] with the message "Got n batches instead of a single
    batch." *)
Theorem single_batch_needs_one_definition
    (req : Request)
    (dc : DataConnector W Request BatchDef Data Spec Markers AssetNames)
    (defs : list BatchDef) (w w1 : W) :
  validate req = Ok tt →
  connector_of data_connectors (data_connector_name req) = Ok dc →
  batch_data req = None →
  get_batch_definition_list_from_batch_request dc req w = (Ok defs, w1) →
  (∀ bd w, ∃ t w', get_batch_data_and_metadata dc bd None w = (Ok t, w')) →
  ∃ batches w',
    batch_list req w = (Ok batches, w')
    ∧ (∀ bd, defs = [bd] →
         ∃ d s m,
           batches = [new_Batch d (Some req)
                        (set_batch_spec_passthrough bd (batch_spec_passthrough req))
                        s m]
           ∧ single_batch req w
             = (Ok (new_Batch d (Some req)
                      (set_batch_spec_passthrough bd (batch_spec_passthrough req))
                      s m), w'))
    ∧ (length defs ≠ 1%nat →
         single_batch req w
         = (Raise (ValueError ("Got " +:+ str_of_nat (length defs)
                               +:+ " batches instead of a single batch.")), w')).
Proof.
  intros Hval Hdc Hdata Hdefs Htotal.
  unfold get_single_batch_from_batch_request, sbind.
  rewrite (batch_list_without_data req dc defs w w1 Hval Hdc Hdata Hdefs).
  destruct (load_batches_all dc req defs Htotal [] w1) as (bs & w' & -> & Hall).
  exists bs, w'. split; [done|]. cbn [app].
  pose proof (Forall2_length _ _ _ Hall) as Hlen. split.
  - intros bd ->. destruct bs as [|b [|b' bs]]; try done.
    inversion Hall as [|? ? ? ? (d & s & m & ->) _]; subst. by exists d, s, m.
  - intros Hne. rewrite <- Hlen in *. by destruct bs as [|b [|b' bs]].
Qed.

Lemma collect_asset_names_all (names : list string) :
  (∀ n, n ∈ names → ∃ dc, connector_of data_connectors n = Ok dc ∧
        ∀ w, ∃ r w', connector_asset_names dc w = (Ok r, w')) →
  ∀ (acc : gmap string AssetNames) w, ∃ res w',
    collect_asset_names data_connectors names acc w = (Ok res, w')
    ∧ ∀ k, is_Some (res !! k) ↔ k ∈ names ∨ is_Some (acc !! k).
Proof.
  induction names as [|n names IH]; intros Hall acc w.
  - exists acc, w. split; [done|]. intros k. rewrite elem_of_nil. tauto.
  - cbn [collect_asset_names]. unfold sbind, slift.
    destruct (Hall n) as (dc & -> & Htotal); [left|].
    destruct (Htotal w) as (r & w1 & ->).
    destruct (IH (λ k Hk, Hall k (list_elem_of_further _ _ _ Hk))
                (<[n := r]> acc) w1) as (res & w' & -> & Hkeys).
    exists res, w'. split; [done|]. intros k. rewrite Hkeys, elem_of_cons.
    destruct (decide (k = n)) as [->|Hne].
    + rewrite lookup_insert_eq. split; [intros _; left; by left|intros _; right; eauto].
    + rewrite lookup_insert_ne by done. tauto.
Qed.

(** X29.  Asked without names, [get_available_data_asset_names] answers
    for every connector of the environment and no other: the result has
    exactly the connectors' names as keys.  (Each connector is assumed to
    answer.) *)
Theorem available_names_cover_connectors (w : W) :
  (∀ n dc, (n, dc) ∈ data_connectors →
     ∀ w, ∃ r w', connector_asset_names dc w = (Ok r, w')) →
  ∃ res w',
    get_available_data_asset_names data_connectors AllConnectors w = (Ok res, w')
    ∧ ∀ k, is_Some (res !! k) ↔ k ∈ data_connectors.*1.
Proof.
  intros Htotal. unfold get_available_data_asset_names.
  destruct (collect_asset_names_all (data_connectors.*1)) with (acc := (∅ : gmap string AssetNames)) (w := w)
    as (res & w' & Hrun & Hkeys).
  - intros n Hn. unfold connector_of.
    assert (∃ dc, assoc n data_connectors = Some dc ∧ (n, dc) ∈ data_connectors)
      as (dc & -> & Hin).
    { clear Htotal. induction data_connectors as [|[k c] l IH]; [by apply elem_of_nil in Hn|].
      cbn [assoc]. destruct (String.eqb_spec n k) as [->|Hne].
      - exists c. split; [done|left].
      - rewrite fmap_cons, elem_of_cons in Hn. destruct Hn as [?|Hn]; [done|].
        destruct (IH Hn) as (dc & ? & ?). exists dc. split; [done|by right]. }
    exists dc. split; [done|]. eauto.
  - exists res, w'. split; [done|]. intros k. rewrite Hkeys, lookup_empty.
    split; [intros [?|[? ?]]; done|by left].
Qed.

End batch_facts.

Lemma foreign_batch_request_rejected_witness :
  example_get_batch_list (mkRequest (Some "other") "nowhere" None None) []
  = (Raise (ValueError (name_mismatch_message "other" "my_env")), []).
Proof.
  apply (foreign_batch_request_rejected rq_execution_environment_name
           rq_data_connector_name rq_batch_data rq_batch_spec_passthrough
           with_passthrough mkBatch "my_env" example_connectors
           (mkRequest (Some "other") "nowhere" None None) "other" []);
    [reflexivity|discriminate].
Defined.

Lemma batch_list_one_per_definition_witness :
  ∃ batches w',
    example_get_batch_list (mkRequest (Some "my_env") "files" None (Some (VInt 5))) []
    = (Ok batches, w')
    ∧ length batches = 2%nat.
Proof.
  destruct (batch_list_one_per_definition rq_execution_environment_name
              rq_data_connector_name rq_batch_data rq_batch_spec_passthrough
              with_passthrough mkBatch "my_env" example_connectors
              (mkRequest (Some "my_env") "files" None (Some (VInt 5)))
              (serving_connector [asset "a"; asset "b"])
              [asset "a"; asset "b"] [] ["list"])
    as (batches & w' & Hrun & Hlen & _);
    [reflexivity| reflexivity | reflexivity | reflexivity
    | intros; eexists _, _; reflexivity |].
  exists batches, w'. split; [exact Hrun | exact Hlen].
Defined.

Lemma runtime_batch_needs_one_definition_witness :
  example_get_batch_list (mkRequest None "files" (Some (VInt 9)) (Some (VInt 5))) []
  = (Raise (ValueError "When batch_request includes batch_data, it must specify exactly one corresponding BatchDefinition"),
     ["list"])
  ∧
  example_get_batch_list (mkRequest None "single" (Some (VInt 9)) (Some (VInt 5))) []
  = (Ok [mkBatch (Some (VInt 9))
           (Some (mkRequest None "single" (Some (VInt 9)) (Some (VInt 5))))
           (asset "c") None (Some (VStr "loaded"))],
     ["list"; "load c"]).
Proof.
  split.
  - apply (proj1 (runtime_batch_needs_one_definition rq_execution_environment_name
                    rq_data_connector_name rq_batch_data rq_batch_spec_passthrough
                    with_passthrough mkBatch "my_env" example_connectors
                    (mkRequest None "files" (Some (VInt 9)) (Some (VInt 5)))
                    (serving_connector [asset "a"; asset "b"]) (VInt 9)
                    [asset "a"; asset "b"] [] ["list"]
                    eq_refl eq_refl eq_refl eq_refl)).
    discriminate.
  - apply (proj2 (runtime_batch_needs_one_definition rq_execution_environment_name
                    rq_data_connector_name rq_batch_data rq_batch_spec_passthrough
                    with_passthrough mkBatch "my_env" example_connectors
                    (mkRequest None "single" (Some (VInt 9)) (Some (VInt 5)))
                    (serving_connector [asset "c"]) (VInt 9)
                    [asset "c"] [] ["list"]
                    eq_refl eq_refl eq_refl eq_refl));
      reflexivity.
Defined.

Lemma single_batch_needs_one_definition_witness :
  ∃ w',
    example_get_single_batch (mkRequest None "files" None (Some (VInt 5))) []
    = (Raise (ValueError "Got 2 batches instead of a single batch."), w').
Proof.
  destruct (single_batch_needs_one_definition rq_execution_environment_name
              rq_data_connector_name rq_batch_data rq_batch_spec_passthrough
              with_passthrough mkBatch "my_env" example_connectors
              (mkRequest None "files" None (Some (VInt 5)))
              (serving_connector [asset "a"; asset "b"])
              [asset "a"; asset "b"] [] ["list"])
    as (batches & w' & _ & _ & Hmany);
    [reflexivity| reflexivity | reflexivity | reflexivity
    | intros; eexists _, _; reflexivity |].
  exists w'. apply Hmany. discriminate.
Defined.

Lemma available_names_cover_connectors_witness :
  ∃ res w',
    get_available_data_asset_names example_connectors AllConnectors [] = (Ok res, w')
    ∧ ∀ k, is_Some (res !! k) ↔ k ∈ ["files"; "single"].
Proof.
  apply (available_names_cover_connectors example_connectors []).
  intros n dc Hin w.
  apply elem_of_cons in Hin as [[= _ ->]|Hin];
    [eexists _, _; reflexivity|].
  apply elem_of_cons in Hin as [[= _ ->]|Hin];
    [eexists _, _; reflexivity|].
  by apply elem_of_nil in Hin.
Defined.
